(** * CAMP: code generation for Application Data Models

    A shallow embedding of the CAMP generators of [anms-camp] and the
    properties its specification states about them:

    - [camp/generators/lib/campch_roundtrip.py]: the scrape engine
      ([Scraper], [C_Scraper], [H_Scraper]);
    - [camp/tools/camp.py]: the generator loop of [run];
    - [camp/generators/create_sql.py]: the SQL writer;
    - [camp/generators/create_gen_h.py]: the shared header writer;
    - [camp/generators/lib/campch.py], [camputil.py], [campsettings.py]:
      naming helpers and the collection registry.

    Conventions.  A Python [str] is a [string]; its characters are code
    points below 256.  A Python exception is a constructor of [exn]; a
    function that may raise returns a [result].  Text written to a file
    object is the string the function returns.  Output sent to [print] and
    to the logger is not part of the model. *)

From Stdlib Require Import Ascii String ZArith Lia.
From Stdlib Require DecimalString HexadecimalString.
From stdpp Require Import gmap strings list sorting.

Local Open Scope stdpp_scope.

(** ** Exceptions and results *)

Inductive exn : Type :=
  | IndexError                      (* pop from empty list *)
  | KeyError (key : string)
  | NameError (name : string)
  | IOError
  | OtherError (what : string)
  | UndefinedVariables (undef : gset string).
      (* RuntimeError("There are n undefined variables in this ADM SQL: ...") *)

Inductive result (A : Type) : Type :=
  | Returns (a : A)
  | Raises (e : exn).
Arguments Returns {A} a.
Arguments Raises {A} e.

Definition is_IOError (e : exn) : bool :=
  match e with IOError => true | _ => false end.

(** ** Strings *)

Module Str.

Definition newline : ascii := "010"%char.
Definition tab : ascii := "009"%char.

Definition nl : string := String newline "".
Definition tb : string := String tab "".

(** [str.isspace] on one character (code points below 256). *)
Definition isspace (c : ascii) : bool :=
  let n := nat_of_ascii c in
  ((9 <=? n) && (n <=? 13)) || ((28 <=? n) && (n <=? 32))
  || (n =? 133) || (n =? 160).

Definition is_empty (s : string) : bool :=
  match s with "" => true | _ => false end.

Fixpoint lstrip (s : string) : string :=
  match s with
  | "" => ""
  | String c s' => if isspace c then lstrip s' else s
  end.

Fixpoint rstrip (s : string) : string :=
  match s with
  | "" => ""
  | String c s' =>
      let r := rstrip s' in
      if isspace c && is_empty r then "" else String c r
  end.

(** [s.strip()] *)
Definition strip (s : string) : string := rstrip (lstrip s).

(** ["".join(ss)] *)
Fixpoint join (ss : list string) : string :=
  match ss with
  | [] => ""
  | s :: ss' => s +:+ join ss'
  end.

(** [s.startswith(p)], returning the rest of [s] after [p]. *)
Fixpoint strip_prefix (p s : string) : option string :=
  match p, s with
  | "", _ => Some s
  | String a p', String b s' =>
      if Ascii.eqb a b then strip_prefix p' s' else None
  | String _ _, "" => None
  end.

Definition startswith (p s : string) : bool :=
  match strip_prefix p s with Some _ => true | None => false end.

(** The lines of a text as [readlines()] returns them: every line keeps
    its terminating newline; a last line without one is kept as it is.
    The text is the decoded content, newlines already translated. *)
Fixpoint readlines (text : string) : list string :=
  match text with
  | "" => []
  | String c text' =>
      if Ascii.eqb c newline then nl :: readlines text'
      else match readlines text' with
           | [] => [String c ""]
           | l :: ls => String c l :: ls
           end
  end.

Definition upper_char (c : ascii) : ascii :=
  let n := nat_of_ascii c in
  if (97 <=? n) && (n <=? 122) then ascii_of_nat (n - 32) else c.

Definition lower_char (c : ascii) : ascii :=
  let n := nat_of_ascii c in
  if (65 <=? n) && (n <=? 90) then ascii_of_nat (n + 32) else c.

Fixpoint map_chars (f : ascii -> ascii) (s : string) : string :=
  match s with
  | "" => ""
  | String c s' => String (f c) (map_chars f s')
  end.

(** [s.upper()], [s.lower()] and [s.casefold()] on ASCII text; the
    identifiers of an ADM are ASCII. *)
Definition upper : string -> string := map_chars upper_char.
Definition lower : string -> string := map_chars lower_char.
Definition casefold : string -> string := lower.

(** [s.replace(c, new)] for a one-character [c]. *)
Fixpoint replace_char (c : ascii) (new : string) (s : string) : string :=
  match s with
  | "" => ""
  | String a s' =>
      if Ascii.eqb a c then new +:+ replace_char c new s'
      else String a (replace_char c new s')
  end.

(** [s.split(c)[0]] *)
Fixpoint before_char (c : ascii) (s : string) : string :=
  match s with
  | "" => ""
  | String a s' => if Ascii.eqb a c then "" else String a (before_char c s')
  end.

(** [c * n] *)
Fixpoint repeat_char (c : ascii) (n : nat) : string :=
  match n with
  | 0 => ""
  | S n' => String c (repeat_char c n')
  end.

(** A complete line: no newline but the one that ends it. *)
Fixpoint no_newline (s : string) : bool :=
  match s with
  | "" => true
  | String c s' => negb (Ascii.eqb c newline) && no_newline s'
  end.

Fixpoint is_line (s : string) : bool :=
  match s with
  | "" => false
  | String c s' =>
      if Ascii.eqb c newline then is_empty s' else is_line s'
  end.

(** [s.endswith("\n")] *)
Fixpoint ends_nl (s : string) : bool :=
  match s with
  | "" => false
  | String c "" => Ascii.eqb c newline
  | String _ s' => ends_nl s'
  end.

End Str.

(** ** Python lists used as queues

    The scrapers fill a list with [insert(0, line)] and consume it with
    [pop()], which removes the LAST item.  [pylist] keeps the items in
    index order and exposes the last one: [Snoc init last]. *)

Inductive pylist (A : Type) : Type :=
  | Empty
  | Snoc (init : pylist A) (last : A).
Arguments Empty {A}.
Arguments Snoc {A} init last.

Module PyList.

(** The items in index order. *)
Fixpoint to_list {A} (l : pylist A) : list A :=
  match l with
  | Empty => []
  | Snoc init x => to_list init ++ [x]
  end.

(** [l.insert(0, x)] *)
Fixpoint insert0 {A} (x : A) (l : pylist A) : pylist A :=
  match l with
  | Empty => Snoc Empty x
  | Snoc init y => Snoc (insert0 x init) y
  end.

(** [l.pop()] *)
Definition pop {A} (l : pylist A) : result (A * pylist A) :=
  match l with
  | Empty => Raises IndexError
  | Snoc init x => Returns (x, init)
  end.

(** [len(l)] *)
Fixpoint len {A} (l : pylist A) : nat :=
  match l with
  | Empty => 0
  | Snoc init _ => S (len init)
  end.

(** The queue whose [pop()]s deliver [xs] from first to last. *)
Fixpoint popping {A} (xs : list A) : pylist A :=
  match xs with
  | [] => Empty
  | x :: xs' => Snoc (popping xs') x
  end.

End PyList.

(** ** Regular expressions

    The patterns of the scrape engine are built from literal characters,
    escaped characters and the group [(.+)].  [compile] reads such a pattern;
    [matches] is [re.match] (anchored at the start of the text, the pattern
    may end before the text does) and [search] is [re.search] (leftmost
    start).  Both return the captured groups.  [(.+)] is greedy and [.]
    does not match a newline. *)

Module Re.

Inductive token : Type :=
  | Lit (c : ascii)
  | Group.                       (* (.+) *)

Fixpoint compile (pattern : string) : list token :=
  match pattern with
  | "" => []
  | String "\" (String c rest) => Lit c :: compile rest
  | String "(" (String "." (String "+" (String ")" rest))) =>
      Group :: compile rest
  | String c rest => Lit c :: compile rest
  end.

Fixpoint matches (p : list token) (s : string) : option (list string) :=
  match p with
  | [] => Some []
  | Lit c :: p' =>
      match s with
      | String a s' => if Ascii.eqb a c then matches p' s' else None
      | "" => None
      end
  | Group :: p' =>
      (fix greedy (s : string) : option (list string) :=
         match s with
         | "" => None
         | String a s' =>
             if Ascii.eqb a Str.newline then None
             else match greedy s' with
                  | Some (g :: gs) => Some (String a g :: gs)
                  | _ =>
                      match matches p' s' with
                      | Some gs => Some (String a "" :: gs)
                      | None => None
                      end
                  end
         end) s
  end.

Fixpoint search (p : list token) (s : string) : option (list string) :=
  match matches p s with
  | Some gs => Some gs
  | None =>
      match s with
      | "" => None
      | String _ s' => search p s'
      end
  end.

(** [m.group(1)] *)
Definition group1 (m : list string) : string :=
  match m with
  | g :: _ => g
  | [] => ""
  end.

End Re.

(** ** The scrape engine ([campch_roundtrip.py]) *)

Module Scraper.

Definition placeholder : string :=
  "/*             TODO              */" +:+ Str.nl.

(** [Scraper._make_custom_includes_markers] *)
Definition make_custom_includes_markers : string * string :=
  ("/*   START CUSTOM INCLUDES HERE  */", "/*   STOP CUSTOM INCLUDES HERE  */").

(** [Scraper._make_custom_functions_markers] *)
Definition make_custom_functions_markers : string * string :=
  ("/*   START CUSTOM FUNCTIONS HERE */", "/*   STOP CUSTOM FUNCTIONS HERE  */").

(** [H_Scraper._make_custom_type_enum_markers] *)
Definition make_custom_type_enum_markers : string * string :=
  ("/*   START typeENUM */", "/*   STOP typeENUM  */").

(** The first loop of the three [_find_*_in_queue] functions:
    [while len(lines) != 0 and line.strip() != start: line = lines.pop()] *)
Fixpoint find_start (start : string) (line : string) (lines : pylist string)
  : string * pylist string :=
  match lines with
  | Empty => (line, lines)
  | Snoc rest popped =>
      if bool_decide (Str.strip line ≠ start)
      then find_start start popped rest
      else (line, lines)
  end.

(** Their second loop:
    [while len(lines) != 0: line = lines.pop();
       if line.strip() == end: break; found.append(line)] *)
Fixpoint append_until (stop : string) (found : list string)
    (lines : pylist string) : list string * pylist string :=
  match lines with
  | Empty => (found, lines)
  | Snoc rest line =>
      if bool_decide (Str.strip line = stop) then (found, rest)
      else append_until stop (found ++ [line]) rest
  end.

(** The body the three functions share, for a pair of markers. *)
Definition find_between (markers : string * string) (lines : pylist string)
  : list string * pylist string :=
  let found := [] in
  let line := "" in
  let '(start, stop) := markers in
  let '(_, lines) := find_start start line lines in
  append_until stop found lines.

(** [Scraper._find_custom_includes_in_queue] *)
Definition find_custom_includes_in_queue (lines : pylist string) :=
  find_between make_custom_includes_markers lines.

(** [Scraper._find_custom_functions_in_queue] *)
Definition find_custom_functions_in_queue (lines : pylist string) :=
  find_between make_custom_functions_markers lines.

(** [H_Scraper._find_type_enums_in_queue] *)
Definition find_type_enums_in_queue (lines : pylist string) :=
  find_between make_custom_type_enum_markers lines.

(** [C_Scraper._get_custom_body_pieces] *)
Definition indicator : string :=
  "* +-------------------------------------------------------------------------+".

(** ['|{} CUSTOM FUNCTION {} BODY'.format(kind, function)] *)
Definition marker_format (kind function : string) : string :=
  "|" +:+ kind +:+ " CUSTOM FUNCTION " +:+ function +:+ " BODY".

(** [C_Scraper._get_custom_body_re_markers]: the marker is prefixed with
    the four characters [\* \] and formatted with the group [(.+)]. *)
Definition function_string_matcher : string := "(.+)".

Definition get_custom_body_re_markers : string * string * string :=
  (indicator,
   "\* \" +:+ marker_format "START" function_string_matcher,
   "\* \" +:+ marker_format "STOP" function_string_matcher).

Definition start_re : list Re.token :=
  Re.compile (get_custom_body_re_markers.1.2).
Definition end_re : list Re.token :=
  Re.compile (get_custom_body_re_markers.2).

(** [func_bods[func].append(line)], creating the entry when absent. *)
Definition append_body (func : string) (line : string)
    (func_bods : gmap string (list string)) : gmap string (list string) :=
  let func_bods :=
    match func_bods !! func with
    | None => <[func := []]> func_bods
    | Some _ => func_bods
    end in
  <[func := default [] (func_bods !! func) ++ [line]]> func_bods.

(** [func_bods[func].pop()] *)
Definition pop_body (func : string) (func_bods : gmap string (list string))
  : result (gmap string (list string)) :=
  match func_bods !! func with
  | None => Raises (KeyError func)
  | Some [] => Raises IndexError
  | Some body => Returns (<[func := removelast body]> func_bods)
  end.

(** The loop of [C_Scraper._find_func_custom_body_in_queue], from a
    given [func_bods] and [func]. *)
Fixpoint find_func_loop (lines : pylist string)
    (func_bods : gmap string (list string)) (func : option string)
  : result (gmap string (list string)) :=
  match lines with
  | Empty => Returns func_bods
  | Snoc lines line =>
      let clean_line := Str.strip line in
      match func with
      | Some f =>
          if bool_decide (clean_line = indicator) then
            match lines with
            | Empty => Raises IndexError
            | Snoc lines line =>
                let clean_line := Str.strip line in
                match Re.matches end_re clean_line with
                | Some _ =>
                    match pop_body f func_bods with
                    | Returns func_bods => find_func_loop lines func_bods None
                    | Raises e => Raises e
                    end
                | None => find_func_loop lines func_bods func
                end
            end
          else find_func_loop lines (append_body f line func_bods) func
      | None =>
          match Re.search start_re clean_line with
          | Some s => find_func_loop lines func_bods (Some (Re.group1 s))
          | None => find_func_loop lines func_bods None
          end
      end
  end.

(** [C_Scraper._find_func_custom_body_in_queue] *)
Definition find_func_custom_body_in_queue (lines : pylist string)
  : result (gmap string (list string)) :=
  find_func_loop lines ∅ None.

(** [C_Scraper._make_custom_body_markers] *)
Definition body_template (indicator marker : string) : string :=
  Str.tb +:+ "/*" +:+ Str.nl +:+
  Str.tb +:+ " " +:+ indicator +:+ Str.nl +:+
  Str.tb +:+ " * " +:+ marker +:+ Str.nl +:+
  Str.tb +:+ " " +:+ indicator +:+ Str.nl +:+
  Str.tb +:+ " */" +:+ Str.nl.

Definition make_custom_body_markers (function : string) : string * string :=
  let start_marker := marker_format "START" function in
  let end_marker := marker_format "STOP" function in
  (body_template indicator start_marker, body_template indicator end_marker).

(** The file system as the constructors see it:
    [open(filename).readlines()] gives the text of the file or raises. *)
Definition filesystem : Type := string -> result string.

(** The queue the constructors build:
    [for line in open(f).readlines(): c.insert(0, line)] *)
Definition fill_queue (lines : list string) : pylist string :=
  fold_left (fun c line => PyList.insert0 line c) lines Empty.

(** *** The source-file flavor *)

Record C_Scraper : Type := {
  c_filename : option string;
  c_includes : list string;
  c_functions : list string;
  func_bods : gmap string (list string)
}.

(** [C_Scraper.__init__] *)
Definition C_Scraper_init (fs : filesystem) (f : option string)
  : result C_Scraper :=
  let includes := [placeholder] in
  let functions := [placeholder] in
  match f with
  | None =>
      Returns {| c_filename := f; c_includes := includes;
                 c_functions := functions; func_bods := ∅ |}
  | Some filename =>
      let c :=
        match fs filename with
        | Returns text => Returns (fill_queue (Str.readlines text))
        | Raises e => if is_IOError e then Returns Empty else Raises e
        end in
      match c with
      | Raises e => Raises e
      | Returns c =>
          let '(includes, c) := find_custom_includes_in_queue c in
          let '(functions, c) := find_custom_functions_in_queue c in
          match find_func_custom_body_in_queue c with
          | Raises e => Raises e
          | Returns bods =>
              Returns {| c_filename := f; c_includes := includes;
                         c_functions := functions; func_bods := bods |}
          end
      end
  end.




(** *** The header-file flavor *)

Record H_Scraper : Type := {
  h_filename : option string;
  h_includes : list string;
  h_functions : list string;
  type_enums : list string
}.

(** [H_Scraper.__init__].  Its handler of [IOError] prints the name
    [fd], which is bound nowhere. *)
Definition H_Scraper_init (fs : filesystem) (f : option string)
  : result H_Scraper :=
  let includes := [placeholder] in
  let functions := [placeholder] in
  let type_enums := [placeholder] in
  let h : pylist string := Empty in
  match f with
  | None =>
      Returns {| h_filename := f; h_includes := includes;
                 h_functions := functions; type_enums := type_enums |}
  | Some filename =>
      let h :=
        match fs filename with
        | Returns text => Returns (fill_queue (Str.readlines text))
        | Raises e =>
            if is_IOError e then Raises (NameError "fd") else Raises e
        end in
      match h with
      | Raises e => Raises e
      | Returns h =>
          let '(includes, h) := find_custom_includes_in_queue h in
          let '(type_enums, h) := find_type_enums_in_queue h in
          let '(functions, h) := find_custom_functions_in_queue h in
          Returns {| h_filename := f; h_includes := includes;
                     h_functions := functions; type_enums := type_enums |}
      end
  end.




End Scraper.

(** ** The command-line tool ([camp/tools/camp.py]) *)

Module Camp.

(** The arguments [run] reads. *)
Record Namespace : Type := {
  admfile : string;
  out : string;
  scrape : bool;
  only_sql : bool;
  only_ch : bool
}.

(** A generator as the loop of [run] meets it: the path of its file,
    whether the directory of that file is missing, what [os.makedirs]
    does then, and what opening the file and [gen.write(outfile)] do. *)
Record generator : Type := {
  file_path : string;
  dir_missing : bool;
  makedirs : result unit;
  generate : result unit
}.

(** What [run] finds outside its arguments. *)
Record world : Type := {
  admfile_exists : bool;            (* os.path.exists(args.admfile) *)
  set_up_outputdir : result unit;
  load_from_file : result unit;     (* admset.load_from_file(args.admfile) *)
  mdat_present : string -> bool;    (* admset.get_child(adm, Mdat, name) *)
  impl_h : generator;
  impl_c : generator;
  gen_h : generator;
  mgr_c : generator;
  agent_c : generator;
  sql : generator
}.

(** The loop [for gen in generators] of [run], from a count of failures
    and the paths attempted so far.  It gives the count of failures when
    it ends, or the exception that leaves it, and the paths of the files
    whose generation was attempted. *)
Fixpoint generate_all (generators : list generator) (failures : nat)
    (attempted : list string) : result nat * list string :=
  match generators with
  | [] => (Returns failures, attempted)
  | gen :: generators' =>
      let dir := if dir_missing gen then makedirs gen else Returns tt in
      match dir with
      | Raises e => (Raises e, attempted)
      | Returns _ =>
          let attempted := attempted ++ [file_path gen] in
          match generate gen with
          | Returns _ => generate_all generators' failures attempted
          | Raises err =>
              if is_IOError err
              then (* failures += 1; continue *)
                generate_all generators' (failures + 1) attempted
              else (* failures += 1; raise *)
                (Raises err, attempted)
          end
      end
  end.

(** The list [generators] that [run] builds from its arguments. *)
Definition selected (args : Namespace) (w : world) : list generator :=
  (if negb (only_sql args)
   then [impl_h w; impl_c w; gen_h w; mgr_c w; agent_c w] else []) ++
  (if negb (only_ch args) then [sql w] else []).

(** [run]: the exit code, or the exception that leaves it, and the paths
    attempted. *)
Definition run (args : Namespace) (w : world) : result nat * list string :=
  let only_args := [only_sql args; only_ch args] in
  let only_cnt := length (filter (λ b, b = true) only_args) in
  if bool_decide (1 < only_cnt) then (Returns 1, [])
  else if negb (admfile_exists w) then (Returns 1, [])
  else match set_up_outputdir w with
  | Raises _ => (Returns 1, [])
  | Returns _ =>
  match load_from_file w with
  | Raises _ => (Returns 2, [])
  | Returns _ =>
  if negb (forallb (mdat_present w) ["name"; "namespace"; "enum"])
  then (Returns 2, [])
  else
    let generators := selected args w in
    match generate_all generators 0 [] with
    | (Returns failures, attempted) =>
        (Returns (if bool_decide (failures ≠ 0) then 2 else 0), attempted)
    | (Raises e, attempted) => (Raises e, attempted)
    end
  end end.

(** A generator whose [write] succeeds, and one whose [write] raises. *)
Definition succeeds (path : string) : generator :=
  {| file_path := path; dir_missing := false; makedirs := Returns tt;
     generate := Returns tt |}.

Definition fails_with (path : string) (e : exn) : generator :=
  {| file_path := path; dir_missing := false; makedirs := Returns tt;
     generate := Raises e |}.




(** A world in which the writer of [agent/adm_x_impl.c] raises [e] on a
    malformed item and every other writer succeeds. *)
Definition sample_world (e : exn) : world :=
  {| admfile_exists := true;
     set_up_outputdir := Returns tt;
     load_from_file := Returns tt;
     mdat_present := λ _, true;
     impl_h := succeeds "agent/adm_x_impl.h";
     impl_c := fails_with "agent/adm_x_impl.c" e;
     gen_h := succeeds "shared/adm/adm_x.h";
     mgr_c := succeeds "mgr/adm_x_mgr.c";
     agent_c := succeeds "agent/adm_x_agent.c";
     sql := succeeds "amp-sql/Agent_Scripts/adm_x.sql" |}.


End Camp.

(** ** Numbers as text *)

Module Fmt.

Definition dq : string := String "034"%char "".

(** [str(n)] for an integer *)
Definition str_Z (n : Z) : string :=
  DecimalString.NilZero.string_of_int (Z.to_int n).

Definition str_nat (n : nat) : string := str_Z (Z.of_nat n).

(** [format(n, 'x')] for a natural number *)
Definition hex_N (n : N) : string :=
  HexadecimalString.NilZero.string_of_uint (N.to_hex_uint n).

(** [format(n, '#04x')]: sign, [0x], then the digits filled with zeros to
    a width of four characters in all. *)
Definition format_04x (n : Z) : string :=
  let sign := if (n <? 0)%Z then "-" else "" in
  let digits := hex_N (Z.abs_N n) in
  let used := String.length sign + 2 + String.length digits in
  sign +:+ "0x" +:+ Str.repeat_char "0" (4 - used) +:+ digits.

Definition hex_digit (c : ascii) : option nat :=
  let n := nat_of_ascii c in
  if (48 <=? n) && (n <=? 57) then Some (n - 48)
  else if (97 <=? n) && (n <=? 102) then Some (n - 87)
  else if (65 <=? n) && (n <=? 70) then Some (n - 55)
  else None.

(** [int(s, 16)] on a string of hexadecimal digits *)
Fixpoint int16_go (acc : nat) (s : string) : result nat :=
  match s with
  | "" => Returns acc
  | String c s' =>
      match hex_digit c with
      | Some d => int16_go (16 * acc + d) s'
      | None => Raises (OtherError "ValueError: invalid literal for int()")
      end
  end.

Definition int16 (s : string) : result nat :=
  match s with
  | "" => Raises (OtherError "ValueError: invalid literal for int()")
  | _ => int16_go 0 s
  end.

(** [str(x)] of a value that may be [None] *)
Definition str_opt (x : option string) : string := default "None" x.

End Fmt.

(** ** The collection registry ([campsettings.py]) *)

Module Cs.

Inductive coll : Type :=
  | CONST | CTRL | EDD | MACRO | OP | RPTT | SBR | TBLT | TBR | VAR | META
  | LIT | RPT | TBL.

Global Instance coll_eq_dec : EqDecision coll.
Proof. solve_decision. Defined.

(** The integer of a collection. *)
Definition code (c : coll) : nat :=
  match c with
  | CONST => 0 | CTRL => 1 | EDD => 2 | MACRO => 3 | OP => 4 | RPTT => 5
  | SBR => 6 | TBLT => 7 | TBR => 8 | VAR => 9 | META => 10
  | LIT => 11 | RPT => 12 | TBL => 13
  end.

Record entry : Type := {
  sname : option string;
  lname : option string;
  ari_type : string;
  amp_type : option string;
  adm_idx : option string
}.

Definition full (s l a t i : string) : entry :=
  {| sname := Some s; lname := Some l; ari_type := a; amp_type := Some t;
     adm_idx := Some i |}.

Definition collections (c : coll) : entry :=
  match c with
  | CONST => full "cnst" "Const" "0" "cnst" "Const"
  | CTRL => full "ctrl" "Ctrl" "1" "ctrl" "Ctrl"
  | EDD => full "edd" "Edd" "2" "edd" "Edd"
  | MACRO => full "mac" "Mac" "4" "mac" "Mac"
  | OP => full "op" "Oper" "5" "Oper" "Oper"
  | RPTT => full "rpttpl" "Rptt" "7" "rpttpl" "Rptt"
  | SBR => full "sbr" "Sbr" "8" "sbr" "Sbr"
  | TBLT => full "tblt" "Tblt" "a" "tblt" "Tblt"
  | TBR => full "tbr" "Tbr" "b" "tbr" "Tbr"
  | VAR => full "var" "Var" "c" "var" "Var"
  | META => full "meta" "Mdat" "0" "cnst" "Meta"
  | LIT => {| sname := None; lname := None; ari_type := "3";
              amp_type := None; adm_idx := None |}
  | RPT => {| sname := None; lname := None; ari_type := "6";
              amp_type := None; adm_idx := None |}
  | TBL => {| sname := Some "tbl"; lname := None; ari_type := "9";
              amp_type := None; adm_idx := None |}
  end.

Definition field (key : string) (v : option string) : result string :=
  match v with
  | Some s => Returns s
  | None => Raises (KeyError key)
  end.

(** [ari_type_enum] *)
Definition ari_type_enum (c : coll) : string := ari_type (collections c).

(** [get_sname] *)
Definition get_sname (c : coll) : result string :=
  field "sname" (sname (collections c)).

(** [get_lname] *)
Definition get_lname (c : coll) : result string :=
  field "lname" (lname (collections c)).


End Cs.

(** ** The ADM as the generators read it ([ace.models])

    One record stands for the objects of every kind; a kind reads the
    fields it has. *)

Module Adm.

(** An item of a parameter specification, an operand or a column. *)
Record TypeNameItem : Type := {
  item_type : string;
  item_name : string;
  item_position : nat
}.

(** A reference to another object, in an expression, a report template
    or a macro. *)
Record AriRef : Type := {
  ref_ns : string;
  ref_nm : string;
  ref_position : nat;
  ref_ap : list (nat * string)
}.

Record AdmObj : Type := {
  name : string;
  description : option string;
  enum : Z;
  type : string;
  value : string;
  result_type : string;
  parmspec : list TypeNameItem;
  in_type : list TypeNameItem;
  columns : list TypeNameItem;
  postfix : list AriRef;
  definition : list AriRef;
  action : list AriRef
}.

Record AdmFile : Type := {
  norm_name : string;
  norm_namespace : string;
  adm_ns : string;
  adm_enum : Z;
  mdat : list AdmObj;
  const : list AdmObj;
  edd : list AdmObj;
  oper : list AdmObj;
  var : list AdmObj;
  tblt : list AdmObj;
  rptt : list AdmObj;
  ctrl : list AdmObj;
  mac : list AdmObj
}.

(** [admset.get_child(adm, models.Mdat, name)] *)
Definition get_child_mdat (adm : AdmFile) (key : string) : option AdmObj :=
  List.find (λ o, bool_decide (Str.casefold (name o) = key)) (mdat adm).

(** An object with a name, a description, a type, a value and an
    enumeration, and nothing else. *)
Definition simple (n : string) (d : option string) (t v : string) (e : Z)
  : AdmObj :=
  {| name := n; description := d; enum := e; type := t; value := v;
     result_type := ""; parmspec := []; in_type := []; columns := [];
     postfix := []; definition := []; action := [] |}.

(** The objects of a kind, as the writers read them from the ADM
    ([adm.mdat], [adm.const], ...). *)
Definition objects (kind : Cs.coll) (adm : AdmFile) : list AdmObj :=
  match kind with
  | Cs.META => mdat adm
  | Cs.CONST => const adm
  | Cs.EDD => edd adm
  | Cs.OP => oper adm
  | Cs.VAR => var adm
  | Cs.TBLT => tblt adm
  | Cs.RPTT => rptt adm
  | Cs.CTRL => ctrl adm
  | Cs.MACRO => mac adm
  | _ => []
  end.

End Adm.

(** ** Naming ([camputil.py]) *)

Module Cu.

(** [make_ari_name_from_str] *)
Definition make_ari_name_from_str (name : string) (coll : Cs.coll)
    (i_name : string) : result string :=
  let name := Str.replace_char "/" "_" name in
  match Cs.get_sname coll with
  | Returns sname =>
      Returns (Str.upper name +:+ "_" +:+ Str.upper sname +:+ "_"
               +:+ Str.upper i_name)
  | Raises e => Raises e
  end.

(** [make_ari_name] *)
Definition make_ari_name (name : string) (coll : Cs.coll) (item : Adm.AdmObj)
  : result string :=
  make_ari_name_from_str name coll (Adm.name item).

(** [make_amp_type_name_from_str] *)
Definition make_amp_type_name_from_str (t_name : string) : string :=
  "AMP_TYPE_" +:+ Str.upper t_name.

(** [make_enum_name_from_str] *)
Definition make_enum_name_from_str (name : string) : string :=
  "ADM_ENUM_" +:+ Str.upper name.

(** [get_g_var_idx] *)
Definition get_g_var_idx (ns : string) : string :=
  let ns := Str.replace_char "/" "_" (Str.lower ns) in
  "g_" +:+ ns +:+ "_idx".

End Cu.

(** ** The SQL writer ([create_sql.py]) *)

Module Sql.
Import Adm.

(** The two sets a writer fills while it assembles statements. *)
Record state : Type := {
  vars_def : gset string;
  vars_use : gset string
}.

(** A method that reads and updates the sets and may raise. *)
Definition M (A : Type) : Type := state -> result (A * state).

Definition ret {A} (a : A) : M A := fun st => Returns (a, st).

Definition bind {A B} (c : M A) (k : A -> M B) : M B :=
  fun st =>
    match c st with
    | Returns (a, st') => k a st'
    | Raises e => Raises e
    end.

Definition raise {A} (e : exn) : M A := fun _ => Raises e.

Definition lift {A} (r : result A) : M A :=
  fun st =>
    match r with
    | Returns a => Returns (a, st)
    | Raises e => Raises e
    end.

(** A name that is bound nowhere. *)
Definition unbound {A} (name : string) : M A := raise (NameError name).

Notation "x <- c ;; k" := (bind c (fun x => k))
  (at level 62, c at next level, right associativity).
Notation "c ;;; k" := (bind c (fun _ => k))
  (at level 62, right associativity).

(** [for obj in objs: lines += body(obj)] *)
Fixpoint for_each {A} (body : A -> M (list string)) (objs : list A)
    (lines : list string) : M (list string) :=
  match objs with
  | [] => ret lines
  | obj :: objs' =>
      more <- body obj ;;
      for_each body objs' (lines ++ more)
  end.

(** The statements assembled for one object of the kinds whose loops are
    not detailed here: any method of the writer. *)
Record statements : Type := {
  edd_statements : AdmObj -> M (list string);
  oper_statements : AdmObj -> M (list string);
  var_statements : AdmObj -> M (list string);
  tblt_statements : AdmObj -> M (list string);
  rptt_statements : AdmObj -> M (list string);
  ctrl_statements : AdmObj -> M (list string)
}.

Record Writer : Type := {
  adm : AdmFile;
  dialect : string;
  var_prefix : string;
  sql_ns : string;
  today : string;                  (* str(datetime.datetime.now().date()) *)
  per_object : statements
}.

(** [escape_description_sql] *)
Definition escape_description_sql (val : option string) : option string :=
  match val with
  | None => None
  | Some v => Some (Str.replace_char "'" "''" v)
  end.

(** [Writer._var_name] *)
Definition var_name (prefix : string) (name : string) (define : option bool)
  : M string :=
  fun st =>
    let name := Str.casefold name in
    let st :=
      match define with
      | None => st
      | Some true =>
          {| vars_def := vars_def st ∪ {[name]}; vars_use := vars_use st |}
      | Some false =>
          {| vars_def := vars_def st; vars_use := vars_use st ∪ {[name]} |}
      end in
    Returns (prefix +:+ name, st).

(** [Writer.__init__] *)
Definition Writer_init (the_adm : AdmFile) (the_dialect : string)
    (date : string) (stmts : statements) : result (Writer * state) :=
  if negb (bool_decide (the_dialect ∈ ["mysql"; "pgsql"]))
  then Raises (OtherError "ValueError: Bad dialect")
  else
    let prefix := if bool_decide (the_dialect = "mysql") then "@" else "" in
    let st := {| vars_def := ∅; vars_use := ∅ |} in
    let ns := norm_namespace the_adm in
    let hl_ns := Str.lower (Str.before_char "/" ns) in
    match var_name prefix (hl_ns +:+ "_namespace_id") (Some true) st with
    | Returns (ns_id, st) =>
        Returns ({| adm := the_adm; dialect := the_dialect;
                    var_prefix := prefix; sql_ns := ns_id; today := date;
                    per_object := stmts |}, st)
    | Raises e => Raises e
    end.

(** [Writer._make_ari] *)
Definition make_ari (self : Writer) (coll : Cs.coll) (item : AdmObj)
  : result string :=
  let ns := norm_namespace (adm self) in
  match Cu.make_ari_name ns coll item with
  | Returns ari => Returns (Str.lower ari)
  | Raises e => Raises e
  end.

(** [Writer.make_sql_ids] *)
Definition make_sql_ids (self : Writer) (ari : string) (define : option bool)
  : M (string * string * string) :=
  obj_id <- var_name (var_prefix self) ari define ;;
  def_id <- var_name (var_prefix self) (ari +:+ "_did") define ;;
  act_id <- var_name (var_prefix self) (ari +:+ "_aid") define ;;
  ret (obj_id, def_id, act_id).

(** [Writer.create_insert_obj_metadata_template]: the template, to be
    filled with the name and the id of an object. *)
Definition create_insert_obj_metadata_template (self : Writer)
    (obj_type : Cs.coll) : result (string -> string -> string) :=
  match Fmt.int16 (Cs.ari_type_enum obj_type) with
  | Returns n =>
      let obj_type_enum := Fmt.str_nat n in
      Returns (fun obj_name obj_id =>
        "CALL SP__insert_obj_metadata(" +:+ obj_type_enum +:+ ", '"
        +:+ obj_name +:+ "', " +:+ sql_ns self +:+ ", " +:+ obj_id +:+ ");")
  | Raises e => Raises e
  end.

(** [Writer.create_insert_formal_parmspec_templates], for what it does to
    the sets. *)
Definition create_insert_formal_parmspec_templates (self : Writer) : M unit :=
  var_name (var_prefix self) "r_fp_ent" (Some true) ;;; ret tt.

(** [Writer.create_insert_ac_id_template], for what it does to the sets. *)
Definition create_insert_ac_id_template (self : Writer) (obj_type : Cs.coll)
  : M unit :=
  obj_type_str <- lift (Cs.get_lname obj_type) ;;
  var_name (var_prefix self) (Str.lower obj_type_str +:+ "_ac_id") (Some true)
  ;;; ret tt.

(** [Writer.write_setup] *)
Definition write_setup (self : Writer) : list string :=
  ["-- -------------------------------------------------------------------";
   "--";
   "-- File Name: adm_" +:+ norm_name (adm self) +:+ ".sql";
   "--";
   "-- Description: TODO";
   "--";
   "-- Notes: TODO";
   "--";
   "-- Assumptions: TODO";
   "--";
   "-- Modification History:";
   "-- YYYY-MM-DD    AUTHOR          DESCRIPTION";
   "-- ----------    --------------  ------------------------------------";
   "-- " +:+ today self +:+ "    AUTO            Auto-generated SQL file";
   "--";
   "-- -------------------------------------------------------------------";
   "";
   "-- ADM: '" +:+ norm_namespace (adm self) +:+ "'";
   ""].

(** [Writer.body_pre] *)
Definition body_pre (self : Writer) : M (list string) :=
  fun st =>
    let undef := vars_use st ∖ vars_def st in
    if negb (bool_decide (undef = ∅)) then Raises (UndefinedVariables undef)
    else
      let lines := [] in
      let lines :=
        if bool_decide (dialect self = "mysql") then
          lines ++ [""; "use amp_core;"; "";
                    "SET @adm_enum = " +:+ Fmt.str_Z (adm_enum (adm self)) +:+ ";"]
        else if bool_decide (dialect self = "pgsql") then
          (lines ++ ["DO"; "$do$";
                     "DECLARE adm_enum INTEGER := "
                     +:+ Fmt.str_Z (adm_enum (adm self)) +:+ ";"])
          ++ map (λ name, "DECLARE " +:+ name +:+ " INTEGER;")
               (merge_sort String.le (elements (vars_def st)))
          ++ ["BEGIN"; ""]
        else lines in
      Returns (lines, st).

(** [Writer.body_post] *)
Definition body_post (self : Writer) : list string :=
  if bool_decide (dialect self = "pgsql") then [""; "END"; "$do$"] else [].

(** [Writer.write_metadata_function] *)
Definition write_metadata_function (self : Writer) : M (list string) :=
  let val_or_none (obj : option AdmObj) : string :=
    match obj with None => "" | Some o => value o end in
  let name := val_or_none (get_child_mdat (adm self) "name") in
  let ns := val_or_none (get_child_mdat (adm self) "namespace") in
  let version := val_or_none (get_child_mdat (adm self) "version") in
  let org := val_or_none (get_child_mdat (adm self) "organization") in
  let desc :=
    escape_description_sql
      match get_child_mdat (adm self) "namespace" with
      | None => Some ""
      | Some o => description o
      end in
  adm_enum <- var_name (var_prefix self) "adm_enum" None ;;
  ret [""; "CALL SP__insert_adm_defined_namespace('" +:+ org +:+ "', '"
           +:+ ns +:+ "', '" +:+ version +:+ "', '" +:+ name +:+ "', "
           +:+ adm_enum +:+ ", NULL, '" +:+ Fmt.str_opt desc +:+ "', "
           +:+ sql_ns self +:+ ");"].

(** [Writer.write_edd_functions], its loop body apart *)
Definition write_edd_functions (self : Writer) : M (list string) :=
  let lines := [""; ""; "-- EDD"; ""] in
  _ <- lift (create_insert_obj_metadata_template self Cs.EDD) ;;
  create_insert_formal_parmspec_templates self ;;;
  for_each (edd_statements (per_object self)) (edd (adm self)) lines.

(** [Writer.write_oper_functions], its loop body apart *)
Definition write_oper_functions (self : Writer) : M (list string) :=
  let lines := [""; ""; "-- OPER"] in
  _ <- lift (create_insert_obj_metadata_template self Cs.OP) ;;
  var_name (var_prefix self) "op_tnvc_id" (Some true) ;;;
  for_each (oper_statements (per_object self)) (oper (adm self)) lines.

(** [Writer.write_var_functions], its loop body apart *)
Definition write_var_functions (self : Writer) : M (list string) :=
  let lines := [""; ""; "-- VAR"] in
  _ <- lift (create_insert_obj_metadata_template self Cs.VAR) ;;
  create_insert_ac_id_template self Cs.VAR ;;;
  var_name (var_prefix self) "var_ac_id" (Some true) ;;;
  var_name (var_prefix self) "r_ac_entry_id_" None ;;;
  var_name (var_prefix self) "var_ac_id" (Some true) ;;;
  for_each (var_statements (per_object self)) (var (adm self)) lines.

(** [Writer.write_tblt_functions], its loop body apart *)
Definition write_tblt_functions (self : Writer) : M (list string) :=
  let lines := [""; ""; "-- TBLT"] in
  _ <- lift (create_insert_obj_metadata_template self Cs.TBLT) ;;
  var_name (var_prefix self) "tbl_tnvc_id" (Some true) ;;;
  for_each (tblt_statements (per_object self)) (tblt (adm self)) lines.

(** [Writer.write_rptt_functions], its loop body apart *)
Definition write_rptt_functions (self : Writer) : M (list string) :=
  let lines := [""; ""; "-- RPTT"] in
  create_insert_ac_id_template self Cs.RPTT ;;;
  _ <- lift (create_insert_obj_metadata_template self Cs.RPTT) ;;
  var_name (var_prefix self) "rptt_ac_id" (Some true) ;;;
  var_name (var_prefix self) "r_ac_rpt_entry_" None ;;;
  var_name (var_prefix self) "rptt_ac_id" (Some true) ;;;
  for_each (rptt_statements (per_object self)) (rptt (adm self)) lines.

(** [Writer.write_ctrl_functions], its loop body apart *)
Definition write_ctrl_functions (self : Writer) : M (list string) :=
  let lines := [""; ""; "-- CTRL"] in
  _ <- lift (create_insert_obj_metadata_template self Cs.CTRL) ;;
  create_insert_formal_parmspec_templates self ;;;
  for_each (ctrl_statements (per_object self)) (ctrl (adm self)) lines.

(** The loop body of [Writer.write_gen_const_functions] *)
Definition const_statements (self : Writer) (coll : Cs.coll)
    (insert_obj_template : string -> string -> string) (obj : AdmObj)
  : M (list string) :=
  let c_name := name obj in
  let c_desc := escape_description_sql (description obj) in
  ari <- lift (make_ari self coll obj) ;;
  ids <- make_sql_ids self ari (Some true) ;;
  let '(const_id, const_def_id, const_act_id) := ids in
  ret [""; insert_obj_template c_name const_id;
       "CALL SP__insert_const_actual_definition(" +:+ const_id +:+ ", '"
       +:+ Fmt.str_opt c_desc +:+ "', '" +:+ type obj +:+ "', '"
       +:+ value obj +:+ "', " +:+ const_act_id +:+ ");"].

(** [Writer.write_gen_const_functions] *)
Definition write_gen_const_functions (self : Writer) (objects : list AdmObj)
    (coll : Cs.coll) : M (list string) :=
  insert_obj_template <- lift (create_insert_obj_metadata_template self coll) ;;
  let lines := [] in
  for_each (const_statements self coll insert_obj_template) objects lines.

(** [Writer.write_const_functions] *)
Definition write_const_functions (self : Writer) : M (list string) :=
  let lines := [""; ""; "-- CONST"] in
  more <- write_gen_const_functions self (const (adm self)) Cs.CONST ;;
  ret (lines ++ more).

(** [Writer.write_mdat_functions] *)
Definition write_mdat_functions (self : Writer) : M (list string) :=
  let lines := [""; ""; "-- MDAT"] in
  more <- write_gen_const_functions self (mdat (adm self)) Cs.META ;;
  ret (lines ++ more).

(** The loop body of [Writer.write_mac_functions], up to the statement
    that raises: it reads the name [m], which is bound nowhere, and the
    statements after it are never reached. *)
Definition mac_statements (self : Writer) (mac : AdmObj) : M (list string) :=
  let mac_name := name mac in
  let mac_desc := escape_description_sql (description mac) in
  let parmspec := parmspec mac in
  let num_parmspec := length parmspec in
  let definition := action mac in
  m <- unbound "m" ;;
  ari <- lift (make_ari self Cs.MACRO m) ;;
  ids <- make_sql_ids self ari (Some true) ;;
  let '(mac_id, mac_def_id, mac_act_id) := ids in
  ret [].

(** [Writer.write_mac_functions] *)
Definition write_mac_functions (self : Writer) : M (list string) :=
  let lines := [""; ""; "-- MAC"] in
  _ <- lift (create_insert_obj_metadata_template self Cs.MACRO) ;;
  create_insert_formal_parmspec_templates self ;;;
  create_insert_ac_id_template self Cs.MACRO ;;;
  var_name (var_prefix self) "mac_ac_id" (Some true) ;;;
  var_name (var_prefix self) "r_ac_entry_id" (Some true) ;;;
  var_name (var_prefix self) "mac_ac_id" (Some true) ;;;
  for_each (mac_statements self) (mac (adm self)) lines.

(** The nine blocks of the body that come before the macros, in the order
    [Writer.write] calls them. *)
Definition write_body_before_mac (self : Writer) : M (list string) :=
  let body := [] in
  b <- write_metadata_function self ;; let body := body ++ b in
  b <- write_mdat_functions self ;; let body := body ++ b in
  b <- write_edd_functions self ;; let body := body ++ b in
  b <- write_oper_functions self ;; let body := body ++ b in
  b <- write_var_functions self ;; let body := body ++ b in
  b <- write_tblt_functions self ;; let body := body ++ b in
  b <- write_rptt_functions self ;; let body := body ++ b in
  b <- write_ctrl_functions self ;; let body := body ++ b in
  b <- write_const_functions self ;; let body := body ++ b in
  ret body.

(** The ten blocks of the body. *)
Definition write_body (self : Writer) : M (list string) :=
  body <- write_body_before_mac self ;;
  b <- write_mac_functions self ;; let body := body ++ b in
  ret body.

(** [Writer.write]: the lines written, each followed by a newline. *)
Definition write (self : Writer) : M (list string) :=
  let head := [] in
  let head := head ++ write_setup self in
  body <- write_body self ;;
  pre <- body_pre self ;;
  let head := head ++ pre in
  let body := body ++ body_post self in
  ret (head ++ body).

Definition written (lines : list string) : string :=
  Str.join (map (λ line, line +:+ Str.nl) lines).

(** The loop [for_each] run on [objs] from [st]: the lines each object
    gave, in the order of the objects, and the state it ends in. *)
Inductive runs {A} (body : A -> M (list string))
  : list A -> state -> list (list string) -> state -> Prop :=
  | runs_nil st : runs body [] st [] st
  | runs_cons obj objs st more st1 chunks st' :
      body obj st = Returns (more, st1) ->
      runs body objs st1 chunks st' ->
      runs body (obj :: objs) st (more :: chunks) st'.

(** The nine blocks of the kinds, each with the comment line that opens
    it, in the order [Writer.write] calls the methods. *)
Definition kind_blocks (self : Writer) : list (string * M (list string)) :=
  [("-- MDAT", write_mdat_functions self);
   ("-- EDD", write_edd_functions self);
   ("-- OPER", write_oper_functions self);
   ("-- VAR", write_var_functions self);
   ("-- TBLT", write_tblt_functions self);
   ("-- RPTT", write_rptt_functions self);
   ("-- CTRL", write_ctrl_functions self);
   ("-- CONST", write_const_functions self);
   ("-- MAC", write_mac_functions self)].

(** Methods called one after the other. *)
Fixpoint in_sequence (methods : list (M (list string)))
  : M (list (list string)) :=
  match methods with
  | [] => ret []
  | m :: methods' =>
      b <- m ;;
      bs <- in_sequence methods' ;;
      ret (b :: bs)
  end.

(** A line that calls [SP__insert_const_actual_definition] for the object
    whose SQL id is [const_id]. *)
Definition is_const_call (const_id : string) (line : string) : bool :=
  Str.startswith
    ("CALL SP__insert_const_actual_definition(" +:+ const_id +:+ ",") line.

(** The statements of the kinds that are not detailed produce no such
    call. *)
Definition statements_no_const_call (const_id : string) (stmts : statements)
  : Prop :=
  ∀ body, body ∈ [edd_statements stmts; oper_statements stmts;
                  var_statements stmts; tblt_statements stmts;
                  rptt_statements stmts; ctrl_statements stmts] ->
    ∀ o st lines st', body o st = Returns (lines, st') ->
      Forall (λ line, is_const_call const_id line = false) lines.

(** The statements of one object of a kind: the loop body of the method
    of that kind. *)
Definition statements_of (self : Writer) (kind : Cs.coll)
    (insert_obj_template : string -> string -> string)
  : AdmObj -> M (list string) :=
  match kind with
  | Cs.EDD => edd_statements (per_object self)
  | Cs.OP => oper_statements (per_object self)
  | Cs.VAR => var_statements (per_object self)
  | Cs.TBLT => tblt_statements (per_object self)
  | Cs.RPTT => rptt_statements (per_object self)
  | Cs.CTRL => ctrl_statements (per_object self)
  | Cs.MACRO => mac_statements self
  | _ => const_statements self kind insert_obj_template
  end.

(** The kinds in the order [Writer.write] calls their methods, each with
    the comment line that opens its block. *)
Definition kind_order : list (string * Cs.coll) :=
  [("-- MDAT", Cs.META); ("-- EDD", Cs.EDD); ("-- OPER", Cs.OP);
   ("-- VAR", Cs.VAR); ("-- TBLT", Cs.TBLT); ("-- RPTT", Cs.RPTT);
   ("-- CTRL", Cs.CTRL); ("-- CONST", Cs.CONST); ("-- MAC", Cs.MACRO)].

(** A block of a kind: two empty lines, the comment line of the kind, at
    most one more empty line, then the statements of the objects of the
    kind, object after object in the order of the ADM. *)
Definition block_in_order (self : Writer) (hk : string * Cs.coll)
    (block : list string) : Prop :=
  ∃ tpl blank st chunks st',
    create_insert_obj_metadata_template self hk.2 = Returns tpl ∧
    (blank = [] ∨ blank = [""]) ∧
    runs (statements_of self hk.2 tpl) (objects hk.2 (adm self))
      st chunks st' ∧
    block = [""; ""; hk.1] ++ blank ++ concat chunks.


(** A method that does not raise the error of undefined variables. *)
Definition no_undefined_error {A} (c : M A) : Prop :=
  ∀ st undef, c st ≠ Raises (UndefinedVariables undef).


End Sql.

(** ** The text of generated files

    The shape of the files the engine scrapes: boilerplate lines around
    the regions its write side emits.  These definitions describe files;
    they are used to state the properties below. *)

Module Layout.
Import Scraper.

(** [file.write(start + "\n"); for line in content: file.write(line);
    file.write(end + "\n\n")] *)
Definition region (markers : string * string) (content : list string)
  : string :=
  let '(start, stop) := markers in
  (start +:+ Str.nl) +:+ Str.join content +:+ (stop +:+ Str.nl +:+ Str.nl).

(** What follows the file-level regions of a source file. *)
Inductive segment : Type :=
  | Lines (lines : list string)                      (* boilerplate *)
  | Region (function : string) (body : list string). (* a custom body *)

(** [file.write(start); for line in body: file.write(line);
    file.write(end)] with the markers of [function]. *)
Definition render (seg : segment) : string :=
  match seg with
  | Lines ls => Str.join ls
  | Region f body =>
      let '(start, stop) := make_custom_body_markers f in
      start +:+ Str.join body +:+ stop
  end.

Definition c_text (pre inc mid fns : list string) (segs : list segment)
  : string :=
  Str.join pre +:+ region make_custom_includes_markers inc +:+
  Str.join mid +:+ region make_custom_functions_markers fns +:+
  Str.join (map render segs).


(** A complete line that does not strip to [marker]. *)
Definition plain (marker : string) (l : string) : bool :=
  Str.is_line l && bool_decide (Str.strip l ≠ marker).

(** A complete line in which the START pattern is not found. *)
Definition no_start (l : string) : bool :=
  Str.is_line l && bool_decide (Re.search start_re (Str.strip l) = None).

(** A function base name: not empty, on one line. *)
Definition valid_name (f : string) : bool :=
  negb (Str.is_empty f) && Str.no_newline f.

Definition segment_ok (seg : segment) : bool :=
  match seg with
  | Lines ls => forallb no_start ls
  | Region f body => valid_name f && forallb (plain indicator) body
  end.

Definition c_text_ok (pre inc mid fns : list string) (segs : list segment)
  : bool :=
  forallb (plain make_custom_includes_markers.1) pre &&
  forallb (plain make_custom_includes_markers.2) inc &&
  forallb (plain make_custom_functions_markers.1) mid &&
  forallb (plain make_custom_functions_markers.2) fns &&
  forallb segment_ok segs.


(** A pattern of literal characters. *)
Definition lits (s : string) : list Re.token :=
  map Re.Lit (list_ascii_of_string s).

(** The five lines of a fence: [body_template], line by line. *)
Definition marker_line (kind f : string) : string :=
  Str.tb +:+ " * " +:+ marker_format kind f +:+ Str.nl.

Definition open_comment_line : string := Str.tb +:+ "/*" +:+ Str.nl.
Definition indicator_line : string := Str.tb +:+ " " +:+ indicator +:+ Str.nl.
Definition close_comment_line : string := Str.tb +:+ " */" +:+ Str.nl.

Definition fence_lines (kind f : string) : list string :=
  [open_comment_line; indicator_line; marker_line kind f; indicator_line;
   close_comment_line].

(** The lines of a segment. *)
Definition seg_lines (seg : segment) : list string :=
  match seg with
  | Lines ls => ls
  | Region f body => fence_lines "START" f ++ body ++ fence_lines "STOP" f
  end.

(** The lines of a file-level region. *)
Definition region_lines (markers : string * string) (content : list string)
  : list string :=
  [markers.1 +:+ Str.nl] ++ content ++ [markers.2 +:+ Str.nl; Str.nl].

(** The lines of a source file, and of a header file. *)
Definition c_lines (pre inc mid fns : list string) (segs : list segment)
  : list string :=
  pre ++ region_lines make_custom_includes_markers inc ++
  mid ++ region_lines make_custom_functions_markers fns ++
  concat (map seg_lines segs).


(** The map a scan of [segs] builds, from [m]. *)
Definition capture (m : gmap string (list string)) (seg : segment)
  : gmap string (list string) :=
  match seg with
  | Lines _ => m
  | Region f body => <[f := default [] (m !! f) ++ body]> m
  end.

Definition captured (segs : list segment) : gmap string (list string) :=
  fold_left capture segs ∅.



(** What a writer emits with a scraper: boilerplate, or
    [write_custom_body] for a function name. *)
Inductive item : Type :=
  | Boilerplate (lines : list string)
  | Body (function : string).


(** The segment an item becomes when [self] writes it. *)
Definition seg_of (self : C_Scraper) (it : item) : segment :=
  match it with
  | Boilerplate ls => Lines ls
  | Body f => Region f (default [] (func_bods self !! f))
  end.

Fixpoint names (items : list item) : list string :=
  match items with
  | [] => []
  | Boilerplate _ :: items' => names items'
  | Body f :: items' => f :: names items'
  end.



Definition item_ok (self : C_Scraper) (it : item) : bool :=
  match it with
  | Boilerplate ls => forallb no_start ls
  | Body f =>
      valid_name f &&
      forallb (plain indicator) (default [] (func_bods self !! f))
  end.

Definition c_file_ok (self : C_Scraper) (pre mid : list string)
    (items : list item) : bool :=
  forallb (plain make_custom_includes_markers.1) pre &&
  forallb (plain make_custom_includes_markers.2) (c_includes self) &&
  forallb (plain make_custom_functions_markers.1) mid &&
  forallb (plain make_custom_functions_markers.2) (c_functions self) &&
  forallb (item_ok self) items &&
  bool_decide (NoDup (names items)).


(** A file system that holds [text] at [path]. *)
Definition holds (fs : filesystem) (path text : string) : Prop :=
  fs path = Returns text.

(** A file system with one file. *)
Definition single_file (path text : string) : filesystem :=
  fun p => if bool_decide (p = path) then Returns text else Raises IOError.

End Layout.

(** ** Shared text helpers ([campch.py]) *)

Module Campch.
Import Adm.

(** [os.path.basename] *)
Fixpoint basename_go (cur : string) (s : string) : string :=
  match s with
  | "" => cur
  | String c s' =>
      if Ascii.eqb c "/" then basename_go s' s' else basename_go cur s'
  end.
Definition basename (path : string) : string := basename_go path path.

(** [_write_file_header] *)
Definition write_file_header (today filepath modifier : string) : string :=
  "/****************************************************************************" +:+ Str.nl +:+
  " **" +:+ Str.nl +:+
  " ** File Name: " +:+ basename filepath +:+ Str.nl +:+
  " **" +:+ Str.nl +:+
  " ** Description: TODO" +:+ Str.nl +:+
  " **" +:+ Str.nl +:+
  " ** Notes: TODO" +:+ Str.nl +:+
  " **" +:+ Str.nl +:+
  " ** Assumptions: TODO" +:+ Str.nl +:+
  " **" +:+ Str.nl +:+
  " ** Modification History:" +:+ Str.nl +:+
  " **  YYYY-MM-DD  AUTHOR           DESCRIPTION" +:+ Str.nl +:+
  " **  ----------  --------------   --------------------------------------------" +:+ Str.nl +:+
  " **  " +:+ today +:+ "  AUTO             Auto-generated " +:+ modifier +:+ " file" +:+ Str.nl +:+
  " **" +:+ Str.nl +:+
  " ****************************************************************************/" +:+ Str.nl +:+
  Str.nl.

(** [write_h_file_header] *)
Definition write_h_file_header (today filepath : string) : string :=
  write_file_header today filepath "header".

(** [make_includes] *)
Definition make_includes (files : list string) : string :=
  fold_left
    (λ out f, out +:+ (Str.nl +:+ "#include " +:+ Fmt.dq +:+ f +:+ Fmt.dq))
    files ""
  +:+ Str.nl +:+ Str.nl.

(** [make_formatted_comment_header] *)
Definition make_formatted_comment_header (name : string) (c_open c_close : bool)
  : string :=
  let width_sans_ends := 93 in
  let envelope_str :=
    Str.nl +:+ " * +" +:+ Str.repeat_char "-" width_sans_ends +:+ "+" +:+ Str.nl in
  let name_len := String.length name in
  let white_space :=
    Str.repeat_char " " ((width_sans_ends - String.length name) / 2) in
  let content_str := " * |" +:+ white_space +:+ name +:+ white_space in
  let content_str :=
    if (name_len mod 2 =? 0) then content_str +:+ " " else content_str in
  let content_str := content_str +:+ "+" in
  let out := envelope_str +:+ content_str +:+ envelope_str in
  let out := if c_open then Str.nl +:+ "/*" +:+ out else out in
  let out := if c_close then out +:+ " */" +:+ Str.nl else out in
  out.

(** [make_cplusplus_open] *)
Definition make_cplusplus_open : string :=
  "#ifdef __cplusplus" +:+ Str.nl +:+
  "extern " +:+ Fmt.dq +:+ "C" +:+ Fmt.dq +:+ " {" +:+ Str.nl +:+
  "#endif" +:+ Str.nl +:+ Str.nl.

(** [make_cplusplus_close] *)
Definition make_cplusplus_close : string :=
  Str.nl +:+ "#ifdef __cplusplus" +:+ Str.nl +:+ "}" +:+ Str.nl +:+
  "#endif" +:+ Str.nl.







End Campch.

(** ** The shared header writer ([create_gen_h.py]) *)

Module GenH.
Import Adm.

Record Writer : Type := {
  adm : AdmFile;
  today : string
}.

(** [s.splitlines()] *)
Definition is_linebreak (c : ascii) : bool :=
  let n := nat_of_ascii c in
  ((10 <=? n) && (n <=? 13)) || ((28 <=? n) && (n <=? 30)) || (n =? 133).

Fixpoint splitlines_go (cur : string) (s : string) : list string :=
  match s with
  | "" => if Str.is_empty cur then [] else [cur]
  | String c s' =>
      if is_linebreak c then
        match s' with
        | "" => [cur]
        | String d t =>
            if Ascii.eqb c "013" && Ascii.eqb d "010"
            then cur :: splitlines_go "" t
            else cur :: splitlines_go "" s'
        end
      else splitlines_go (cur +:+ String c "") s'
  end.

Definition splitlines (s : string) : list string := splitlines_go "" s.

(** [s[:n]] and [s[n:]] *)
Fixpoint take (n : nat) (s : string) : string :=
  match n, s with
  | S n', String c s' => String c (take n' s')
  | _, _ => ""
  end.

Fixpoint drop (n : nat) (s : string) : string :=
  match n, s with
  | S n', String _ s' => drop n' s'
  | _, _ => s
  end.

(** ['%-N.Ns' % s] *)
Definition desc_fmt (sz : nat) (s : string) : string :=
  let s := take sz s in
  s +:+ Str.repeat_char " " (sz - String.length s).

(** The [while len(line) > desc_col_sz] loop of
    [format_table_description]; a line of [n] characters needs at most
    [n] rounds. *)
Fixpoint wrap_line (rounds : nat) (sz : nat) (fill_this_row start_next_row : string)
    (line : string) (result : list string) : list string * string :=
  match rounds with
  | 0 => (result, line)
  | S rounds' =>
      if sz <? String.length line then
        let left := take sz line in
        let right := drop sz line in
        wrap_line rounds' sz fill_this_row start_next_row right
          (result ++ [desc_fmt sz left; fill_this_row; start_next_row])
      else (result, line)
  end.

(** [Writer.format_table_description] *)
Definition format_table_description (descr : string) (desc_col_sz : nat)
    (col_sizes_before col_sizes_after : list nat) : string :=
  let descr := Str.strip descr in
  let start_next_row :=
    fold_left (λ row col_sz, row +:+ Str.repeat_char " " col_sz +:+ "|")
      col_sizes_before " * |" in
  let fill_this_row :=
    fold_left (λ row col_sz, row +:+ Str.repeat_char " " col_sz +:+ "|")
      col_sizes_after "|" +:+ Str.nl in
  let lines := splitlines descr in
  let num_lines := length lines in
  let result :=
    fold_left
      (λ result '(line_idx, line),
         let line := Str.strip line in
         let '(result, line) :=
           wrap_line (String.length line) desc_col_sz fill_this_row
             start_next_row line result in
         let result := result ++ [desc_fmt desc_col_sz line] in
         if line_idx <? num_lines - 1
         then result ++ [fill_this_row; start_next_row] else result)
      (zip (seq 0 num_lines) lines) [] in
  Str.join result.

(** The loop of [Writer.format_table_entry] over the columns. *)
Fixpoint table_columns (centered : bool) (idx : nat)
    (columns : list (option string)) (col_sizes : list nat)
    (entry_row divider : string) : result (string * string) :=
  match columns with
  | [] => Returns (entry_row, divider)
  | item :: columns' =>
      let item := default "" item in
      match col_sizes !! idx with
      | None => Raises IndexError
      | Some col_sz =>
          let item_len := String.length item in
          let entry :=
            if col_sz <? item_len then
              if idx =? 1 then
                format_table_description item col_sz
                  (firstn 1 col_sizes) (skipn 2 col_sizes)
              else take col_sz item
            else if centered then
              let total_ws_sz := col_sz - item_len in
              let half_ws := Str.repeat_char " " (total_ws_sz / 2) in
              half_ws +:+ item +:+ " " +:+ half_ws
            else item +:+ Str.repeat_char " " (col_sz - item_len) in
          table_columns centered (S idx) columns' col_sizes
            (entry_row +:+ entry +:+ "|")
            (divider +:+ Str.repeat_char "-" col_sz +:+ "+")
      end
  end.

(** [Writer.format_table_entry] *)
Definition format_table_entry (centered : bool) (name : string)
    (desc : option string) (ttype value : string) : result string :=
  let columns := [Some name; desc; Some ttype] in
  let col_sizes := [21; 38; 7] in
  let '(columns, col_sizes) :=
    if Str.is_empty value then (columns, col_sizes)
    else (columns ++ [Some value], col_sizes ++ [24]) in
  match table_columns centered 0 columns col_sizes " * |" " * +" with
  | Returns (entry_row, divider) =>
      Returns ((entry_row +:+ Str.nl) +:+ (divider +:+ Str.nl))
  | Raises e => Raises e
  end.

(** [Writer.write_definition_table_header] *)
Definition write_definition_table_header (definitions_str : string)
    (value_present : bool) : result string :=
  let header := Campch.make_formatted_comment_header definitions_str true false in
  match format_table_entry true "NAME" (Some "DESCRIPTION") "TYPE"
          (if value_present then "VALUE" else "") with
  | Returns row => Returns (header +:+ row)
  | Raises e => Raises e
  end.

(** The loop that the nine [write_*_definitions] methods share: for every
    object, a row of the table and the lines of its [#define]. *)
Fixpoint definitions_loop (self : Writer) (coll : Cs.coll)
    (row : AdmObj -> result string) (comment : AdmObj -> string)
    (objs : list AdmObj) (table defines : string) : result (string * string) :=
  match objs with
  | [] => Returns (table, defines)
  | obj :: objs' =>
      let hex_str := Fmt.format_04x (enum obj) in
      match Cu.make_ari_name (norm_namespace (adm self)) coll obj with
      | Raises e => Raises e
      | Returns ari_str =>
          match row obj with
          | Raises e => Raises e
          | Returns r =>
              let table := table +:+ r in
              let defines := defines +:+ comment obj in
              let defines :=
                defines +:+ ("#define " +:+ ari_str +:+ " " +:+ hex_str +:+ Str.nl) in
              definitions_loop self coll row comment objs' table defines
          end
      end
  end.

(** What the nine methods write: the header of the table, the table, the
    end of the comment, the defines. *)
Definition write_definitions (self : Writer) (coll : Cs.coll)
    (row : AdmObj -> result string) (comment : AdmObj -> string)
    (objs : list AdmObj) (title : string) (value_present : bool)
  : result string :=
  match definitions_loop self coll row comment objs "" "" with
  | Raises e => Raises e
  | Returns (table, defines) =>
      match write_definition_table_header
              (Str.upper (norm_namespace (adm self)) +:+ title) value_present with
      | Raises e => Raises e
      | Returns header =>
          Returns (header +:+ (table +:+ " */" +:+ Str.nl)
                   +:+ (defines +:+ Str.nl))
      end
  end.

Definition no_comment (obj : AdmObj) : string := "".

(** [Writer.write_metadata_definitions] *)
Definition write_metadata_definitions (self : Writer) : result string :=
  write_definitions self Cs.META
    (λ obj, format_table_entry false (name obj) (description obj) (type obj) (value obj))
    (λ obj, "// " +:+ Fmt.dq +:+ name obj +:+ Fmt.dq +:+ Str.nl)
    (mdat (adm self)) " META-DATA DEFINITIONS" true.

(** [Writer.write_edd_definitions] *)
Definition write_edd_definitions (self : Writer) : result string :=
  write_definitions self Cs.EDD
    (λ obj, format_table_entry false (name obj) (description obj) (type obj) "")
    no_comment (edd (adm self)) " EXTERNALLY DEFINED DATA DEFINITIONS" false.

(** [Writer.write_variable_definitions] *)
Definition write_variable_definitions (self : Writer) : result string :=
  write_definitions self Cs.VAR
    (λ obj, format_table_entry false (name obj) (description obj) (type obj) "")
    no_comment (var (adm self)) " VARIABLE DEFINITIONS" false.

(** [Writer.write_rptt_definitions] *)
Definition write_rptt_definitions (self : Writer) : result string :=
  write_definitions self Cs.RPTT
    (λ obj, format_table_entry false (name obj) (description obj) "TNVC" "")
    no_comment (rptt (adm self)) " REPORT DEFINITIONS" false.

(** [Writer.write_tblt_definitions] *)
Definition write_tblt_definitions (self : Writer) : result string :=
  write_definitions self Cs.TBLT
    (λ obj, format_table_entry false (name obj) (description obj) "" "")
    no_comment (tblt (adm self)) " TABLE DEFINITIONS" false.

(** [Writer.write_ctrl_definitions] *)
Definition write_ctrl_definitions (self : Writer) : result string :=
  write_definitions self Cs.CTRL
    (λ obj, format_table_entry false (name obj) (description obj) "" "")
    no_comment (ctrl (adm self)) " CONTROL DEFINITIONS" false.

(** [Writer.write_const_definitions] *)
Definition write_const_definitions (self : Writer) : result string :=
  write_definitions self Cs.CONST
    (λ obj, format_table_entry false (name obj) (description obj) (type obj) (value obj))
    no_comment (const (adm self)) " CONSTANT DEFINITIONS" true.

(** [Writer.write_macro_definitions] *)
Definition write_macro_definitions (self : Writer) : result string :=
  write_definitions self Cs.MACRO
    (λ obj, format_table_entry false (name obj) (description obj) "mc" "")
    no_comment (mac (adm self)) " MACRO DEFINITIONS" false.

(** [Writer.write_op_definitions] *)
Definition write_op_definitions (self : Writer) : result string :=
  write_definitions self Cs.OP
    (λ obj, format_table_entry false (name obj) (description obj) (result_type obj) "")
    no_comment (oper (adm self)) " OPERATOR DEFINITIONS" false.

(** [Writer.write_defines] *)
Definition write_defines (self : Writer) : string :=
  let name_upper := Str.upper (norm_name (adm self)) in
  let ns_upper := Str.upper (norm_namespace (adm self)) in
  Str.nl +:+
  "#ifndef ADM_" +:+ name_upper +:+ "_H_" +:+ Str.nl +:+
  "#define ADM_" +:+ name_upper +:+ "_H_" +:+ Str.nl +:+
  "#define _HAVE_" +:+ ns_upper +:+ "_ADM_" +:+ Str.nl +:+
  "#ifdef _HAVE_" +:+ ns_upper +:+ "_ADM_" +:+ Str.nl.

(** [Writer.write_endifs] *)
Definition write_endifs (self : Writer) : string :=
  let name_upper := Str.upper (norm_name (adm self)) in
  let ns_upper :=
    Str.upper (Str.replace_char "/" "_" (norm_namespace (adm self))) in
  Str.nl +:+
  "#endif /* _HAVE_" +:+ ns_upper +:+ "_ADM_ */" +:+ Str.nl +:+
  "#endif /* ADM_" +:+ name_upper +:+ "_H_ */" +:+ Str.nl.

(** [Writer.write_includes] *)
Definition write_includes (self : Writer) : string :=
  Campch.make_includes ["shared/utils/nm_types.h"; "shared/adm/adm.h"].

(** [Writer.write_adm_template_documentation] *)
Definition write_adm_template_documentation (self : Writer) : string :=
  let header_str :=
    Campch.make_formatted_comment_header "ADM TEMPLATE DOCUMENTATION" true false in
  let g_var_idx :=
    "g_" +:+ Str.lower (Str.replace_char "/" "_" (norm_namespace (adm self)))
    +:+ "_idx" in
  (header_str +:+ " *" +:+ Str.nl +:+
   " * ADM ROOT STRING:" +:+ norm_namespace (adm self) +:+ Str.nl +:+
   " */" +:+ Str.nl) +:+
  ("extern vec_idx_t " +:+ g_var_idx +:+ "[11];" +:+ Str.nl).

(** [Writer.write_agent_nickname_definitions] *)
Definition write_agent_nickname_definitions (self : Writer) : string :=
  let header_str :=
    Campch.make_formatted_comment_header "AGENT NICKNAME DEFINITIONS" true true in
  let ns := Str.lower (norm_namespace (adm self)) in
  let enum_name := Cu.make_enum_name_from_str ns in
  header_str +:+
  ("#define " +:+ enum_name +:+ " " +:+ Fmt.str_Z (adm_enum (adm self)) +:+ Str.nl).

(** [Writer.write_initialization_functions] *)
Definition write_initialization_functions (self : Writer) : string :=
  let name := norm_namespace (adm self) in
  "/* Initialization functions. */" +:+ Str.nl +:+
  "void " +:+ name +:+ "_init();" +:+ Str.nl.

(** The nine blocks of definitions, in the order [Writer.write] calls
    the methods, each with the kind it lists. *)
Definition definition_blocks (self : Writer) : list (Cs.coll * result string) :=
  [(Cs.META, write_metadata_definitions self);
   (Cs.EDD, write_edd_definitions self);
   (Cs.VAR, write_variable_definitions self);
   (Cs.RPTT, write_rptt_definitions self);
   (Cs.TBLT, write_tblt_definitions self);
   (Cs.CTRL, write_ctrl_definitions self);
   (Cs.CONST, write_const_definitions self);
   (Cs.MACRO, write_macro_definitions self);
   (Cs.OP, write_op_definitions self)].

(** The kinds in the order [Writer.write] calls their methods. *)
Definition kind_order : list Cs.coll :=
  [Cs.META; Cs.EDD; Cs.VAR; Cs.RPTT; Cs.TBLT; Cs.CTRL; Cs.CONST; Cs.MACRO;
   Cs.OP].

(** What [Writer.write] writes before the blocks of definitions, and
    after them. *)
Definition preamble (self : Writer) : string :=
  Campch.write_h_file_header (today self)
    ("adm_" +:+ norm_name (adm self) +:+ ".h")
  +:+ write_defines self +:+ write_includes self
  +:+ Campch.make_cplusplus_open
  +:+ write_adm_template_documentation self
  +:+ write_agent_nickname_definitions self.

Definition epilogue (self : Writer) : string :=
  write_initialization_functions self +:+ Campch.make_cplusplus_close
  +:+ write_endifs self.

(** The line of a [#define]. *)
Definition define_line (ari_str hex_str : string) : string :=
  "#define " +:+ ari_str +:+ " " +:+ hex_str +:+ Str.nl.

(** The comment line before the [#define] of an object: the metadata
    have one, the other kinds none. *)
Definition comment_of (kind : Cs.coll) (obj : AdmObj) : string :=
  match kind with
  | Cs.META => "// " +:+ Fmt.dq +:+ name obj +:+ Fmt.dq +:+ Str.nl
  | _ => no_comment obj
  end.

(** A block of a kind: the header of its table, one row for every object
    of the kind, the end of the comment, then for every object of the kind
    its [#define] (after a comment line, for the metadata), object after
    object in the order of the ADM, and an empty line. *)
Definition block_in_order (self : Writer) (kind : Cs.coll) (block : string)
  : Prop :=
  ∃ header rows aris,
    Forall2 (λ o r, ∃ ttype value,
               format_table_entry false (name o) (description o) ttype value
               = Returns r)
      (objects kind (adm self)) rows ∧
    Forall2 (λ o a, Cu.make_ari_name (norm_namespace (adm self)) kind o
                    = Returns a)
      (objects kind (adm self)) aris ∧
    block
    = header +:+ (Str.join rows +:+ " */" +:+ Str.nl)
      +:+ (Str.join (zip_with
                       (λ o a, comment_of kind o
                               +:+ define_line a (Fmt.format_04x (enum o)))
                       (objects kind (adm self)) aris)
           +:+ Str.nl).

(** Text written so far, then one more method that may raise. *)
Definition then_write (sofar : result string) (more : result string)
  : result string :=
  match sofar with
  | Raises e => Raises e
  | Returns out =>
      match more with
      | Returns s => Returns (out +:+ s)
      | Raises e => Raises e
      end
  end.

(** [Writer.write] *)
Definition write (self : Writer) : result string :=
  let out :=
    Campch.write_h_file_header (today self)
      ("adm_" +:+ norm_name (adm self) +:+ ".h") in
  let out := out +:+ write_defines self in
  let out := out +:+ write_includes self in
  let out := out +:+ Campch.make_cplusplus_open in
  let out := out +:+ write_adm_template_documentation self in
  let out := out +:+ write_agent_nickname_definitions self in
  let out := then_write (Returns out) (write_metadata_definitions self) in
  let out := then_write out (write_edd_definitions self) in
  let out := then_write out (write_variable_definitions self) in
  let out := then_write out (write_rptt_definitions self) in
  let out := then_write out (write_tblt_definitions self) in
  let out := then_write out (write_ctrl_definitions self) in
  let out := then_write out (write_const_definitions self) in
  let out := then_write out (write_macro_definitions self) in
  let out := then_write out (write_op_definitions self) in
  let out := then_write out (Returns (write_initialization_functions self)) in
  let out := then_write out (Returns Campch.make_cplusplus_close) in
  then_write out (Returns (write_endifs self)).

End GenH.

(** ** Sample files *)

Module Samples.
Import Scraper Layout.

(** A source-file scraper holding hand-written lines. *)
Definition impl_c : C_Scraper :=
  {| c_filename := None;
     c_includes := ["#include <math.h>" +:+ Str.nl];
     c_functions := ["static int helper(void);" +:+ Str.nl; Str.nl];
     func_bods := {[ "setup" := [Str.tb +:+ "counter = 0;" +:+ Str.nl] ]} |}.

Definition impl_c_pre : list string :=
  ["/* File Name: adm_test_adm_impl.c */" +:+ Str.nl; Str.nl].

Definition impl_c_mid : list string :=
  [Str.nl; "#include <shared/adm/adm.h>" +:+ Str.nl; Str.nl].

Definition impl_c_items : list item :=
  [Boilerplate ["void test_adm_setup()" +:+ Str.nl; "{" +:+ Str.nl; Str.nl];
   Body "setup";
   Boilerplate ["}" +:+ Str.nl; Str.nl; "void test_adm_cleanup()" +:+ Str.nl;
                "{" +:+ Str.nl; Str.nl];
   Body "cleanup";
   Boilerplate ["}" +:+ Str.nl]].

(** A header-file scraper holding hand-written lines. *)
Definition impl_h : H_Scraper :=
  {| h_filename := None;
     h_includes := ["#include <stdint.h>" +:+ Str.nl];
     h_functions := ["int helper(void);" +:+ Str.nl];
     type_enums := ["typedef enum { RED, GREEN } colour_t;" +:+ Str.nl] |}.






(** The region of [get_foo] is followed by the STOP fence of [get_bar]
    and one more line. *)
Definition foreign_stop_lines : list string :=
  fence_lines "START" "get_foo" ++ ["x = 1;" +:+ Str.nl] ++
  fence_lines "STOP" "get_bar" ++ ["z = 3;" +:+ Str.nl].

(** A file whose custom functions come before its custom includes. *)
Definition functions_first : string :=
  region make_custom_functions_markers ["int f(void);" +:+ Str.nl] +:+
  region make_custom_includes_markers ["#include <a.h>" +:+ Str.nl].

(** A file system without files. *)
Definition no_files : filesystem := fun _ => Raises IOError.

(** The ADM of the end-to-end scenario: one constant [mySize] of type
    [UINT], value 4 and enumeration 3, in the namespace [test/adm]. *)
Definition my_size (desc : option string) : Adm.AdmObj :=
  Adm.simple "mySize" desc "UINT" "4" 3.

Definition test_adm : Adm.AdmFile :=
  {| Adm.norm_name := "test_adm"; Adm.norm_namespace := "test_adm";
     Adm.adm_ns := "test/adm"; Adm.adm_enum := 9;
     Adm.mdat :=
       [Adm.simple "name" (Some "The name of the ADM") "STR" "test_adm" 0;
        Adm.simple "namespace" (Some "The namespace of the ADM") "STR" "test/adm" 1;
        Adm.simple "enum" None "STR" "9" 2];
     Adm.const := [my_size (Some "The size of my thing")];
     Adm.edd := []; Adm.oper := []; Adm.var := []; Adm.tblt := [];
     Adm.rptt := []; Adm.ctrl := []; Adm.mac := [] |}.

(** The same ADM with one macro. *)
Definition test_adm_with_macro : Adm.AdmFile :=
  {| Adm.norm_name := "test_adm"; Adm.norm_namespace := "test_adm";
     Adm.adm_ns := "test/adm"; Adm.adm_enum := 9;
     Adm.mdat := Adm.mdat test_adm; Adm.const := Adm.const test_adm;
     Adm.edd := []; Adm.oper := []; Adm.var := []; Adm.tblt := [];
     Adm.rptt := []; Adm.ctrl := [];
     Adm.mac := [Adm.simple "reset" (Some "Reset all") "" "" 0] |}.


(** Statements for one object: a comment, and for a report template the
    use of a variable named after it, which nothing defines. *)
Definition comment_only (o : Adm.AdmObj) : Sql.M (list string) :=
  Sql.ret ["-- " +:+ Adm.name o].

Definition use_item (o : Adm.AdmObj) : Sql.M (list string) :=
  Sql.bind (Sql.var_name "" (Adm.name o +:+ "_item") (Some false))
    (fun v => Sql.ret ["-- uses " +:+ v]).

Definition sample_statements : Sql.statements :=
  {| Sql.edd_statements := comment_only;
     Sql.oper_statements := comment_only;
     Sql.var_statements := comment_only;
     Sql.tblt_statements := comment_only;
     Sql.rptt_statements := use_item;
     Sql.ctrl_statements := comment_only |}.

(** The SQL writer of an ADM, as [Writer.__init__] builds it for the
    dialect [pgsql]. *)
Definition sql_writer (adm : Adm.AdmFile) : Sql.Writer * Sql.state :=
  match Sql.Writer_init adm "pgsql" "2024-01-01" sample_statements with
  | Returns ws => ws
  | Raises _ =>
      ({| Sql.adm := adm; Sql.dialect := "pgsql"; Sql.var_prefix := "";
          Sql.sql_ns := ""; Sql.today := "2024-01-01";
          Sql.per_object := sample_statements |},
       {| Sql.vars_def := ∅; Sql.vars_use := ∅ |})
  end.

Definition gen_h_writer (adm : Adm.AdmFile) : GenH.Writer :=
  {| GenH.adm := adm; GenH.today := "2024-01-01" |}.

End Samples.

(** ** More text helpers *)

Module Text.

(** [s.split(c)] for a one-character separator: the parts between the
    occurrences of [c], at least one. *)
Fixpoint split (c : ascii) (s : string) : list string :=
  match s with
  | "" => [""]
  | String a s' =>
      if Ascii.eqb a c then "" :: split c s'
      else match split c s' with
           | [] => [String a ""]
           | part :: parts => String a part :: parts
           end
  end.

(** [c in s] for a character *)
Fixpoint has_char (c : ascii) (s : string) : bool :=
  match s with
  | "" => false
  | String a s' => Ascii.eqb a c || has_char c s'
  end.

(** [s.isascii()] *)
Fixpoint is_ascii (s : string) : bool :=
  match s with
  | "" => true
  | String a s' => (nat_of_ascii a <? 128) && is_ascii s'
  end.

(** Every character of [s] passes the test [p]. *)
Fixpoint all (p : ascii -> bool) (s : string) : bool :=
  match s with
  | "" => true
  | String a s' => p a && all p s'
  end.

(** [sub in s] for a string *)
Fixpoint contains (sub s : string) : bool :=
  Str.startswith sub s ||
  match s with
  | "" => false
  | String _ s' => contains sub s'
  end.

End Text.

(** ** The registry of the collections, continued ([campsettings.py]) *)

Module Campsettings.
Import Cs.

(** The keys of [collections], in the order of their insertion. *)
Definition keys : list coll :=
  [CONST; CTRL; EDD; MACRO; OP; RPTT; SBR; TBLT; TBR; VAR; META; LIT; RPT;
   TBL].

(** The eleven kinds of the nicknames, [CONST] to [META]. *)
Definition nn_kinds : list coll :=
  [CONST; CTRL; EDD; MACRO; OP; RPTT; SBR; TBLT; TBR; VAR; META].

(** [nn_type_enum] *)
Definition nn_type_enum (c : coll) : nat := code c.

(** [get_raw_amp_type] *)
Definition get_raw_amp_type (c : coll) : result string :=
  field "amp_type" (amp_type (collections c)).

(** [get_amp_type] *)
Definition get_amp_type (c : coll) : result string :=
  match field "amp_type" (amp_type (collections c)) with
  | Returns t => Returns (Cu.make_amp_type_name_from_str t)
  | Raises e => Raises e
  end.

(** The loop of [name_get_coll] over the items of [collections]:
    [value["lname"].upper() == name.upper() or
     value["sname"].upper() == name.upper()] reads the long name first,
    and the short name only when the long name differs. *)
Fixpoint name_get_coll_loop (name : string) (items : list coll)
  : result (option coll) :=
  match items with
  | [] => Returns None
  | key :: items' =>
      let value := collections key in
      match field "lname" (lname value) with
      | Raises e => Raises e
      | Returns l =>
          if bool_decide (Str.upper l = Str.upper name)
          then Returns (Some key)
          else
            match field "sname" (sname value) with
            | Raises e => Raises e
            | Returns s =>
                if bool_decide (Str.upper s = Str.upper name)
                then Returns (Some key)
                else name_get_coll_loop name items'
            end
      end
  end.

(** [name_get_coll] *)
Definition name_get_coll (name : string) : result (option coll) :=
  name_get_coll_loop name keys.

(** A name of a kind: its short or its long name, in any case. *)
Definition names (kind : coll) (name : string) : Prop :=
  ∃ s, (get_sname kind = Returns s ∨ get_lname kind = Returns s) ∧
       Str.upper name = Str.upper s.

End Campsettings.

(** ** References to objects ([camputil.py]) *)

Module Camputil.

(** [ari_get_names]: [coll, name = jari.nm.split('.')] needs exactly two
    parts. *)
Definition ari_get_names (jari : Adm.AriRef)
  : result (string * option Cs.coll * string) :=
  let adm_ns := Adm.ref_ns jari in
  match Text.split "." (Adm.ref_nm jari) with
  | [coll; name] =>
      match Campsettings.name_get_coll coll with
      | Returns coll => Returns (adm_ns, coll, Str.before_char "(" name)
      | Raises e => Raises e
      end
  | [_] =>
      Raises (OtherError
        "ValueError: not enough values to unpack (expected 2, got 1)")
  | _ =>
      Raises (OtherError "ValueError: too many values to unpack (expected 2)")
  end.

End Camputil.

(** ** Comments made of untrusted text ([campch.py]) *)

Module Untaint.

(** [re.sub(r'\*/', '', tainted)]: every occurrence of the two characters
    that end a comment is removed, in one pass from the left. *)
Fixpoint remove_comment_ends (s : string) : string :=
  match s with
  | "" => ""
  | String c rest =>
      match rest with
      | String d rest' =>
          if Ascii.eqb c "*" && Ascii.eqb d "/"
          then remove_comment_ends rest'
          else String c (remove_comment_ends rest)
      | "" => String c ""
      end
  end.

(** [re.sub('\\n', '\\n *', tainted)] *)
Definition star_after_newlines (s : string) : string :=
  Str.replace_char Str.newline (Str.nl +:+ " *") s.

(** The loop [while len(line) > comment_width] of one line, and the
    [append] after it; a line of [n] characters needs at most [n]
    rounds. *)
Fixpoint wrap (rounds : nat) (comment_width : nat) (line : string)
    (untainted : list string) : list string :=
  match rounds with
  | 0 => untainted ++ [Str.nl +:+ " * " +:+ line]
  | S rounds' =>
      if comment_width <? String.length line then
        let left := GenH.take comment_width line in
        let right := GenH.drop comment_width line in
        wrap rounds' comment_width right
          (untainted ++ [Str.nl +:+ " * " +:+ left])
      else untainted ++ [Str.nl +:+ " * " +:+ line]
  end.

(** [multiline_comment_format] *)
Definition multiline_comment_format (tainted : string) : string :=
  let comment_width := 100 in
  let tainted := remove_comment_ends tainted in
  let tainted := star_after_newlines tainted in
  let tainted_list := GenH.splitlines tainted in
  let untainted :=
    fold_left (λ untainted line,
                 wrap (String.length line) comment_width line untainted)
      tainted_list [] in
  "/*" +:+ Str.join untainted +:+ Str.nl +:+ " */".

(** The pieces a line is cut into. *)
Fixpoint pieces (rounds : nat) (comment_width : nat) (line : string)
  : list string :=
  match rounds with
  | 0 => [line]
  | S rounds' =>
      if comment_width <? String.length line
      then GenH.take comment_width line
           :: pieces rounds' comment_width (GenH.drop comment_width line)
      else [line]
  end.

(** The pieces of the lines of a text, as the comment holds them. *)
Definition chunks (tainted : string) : list string :=
  concat (map (λ line, pieces (String.length line) 100 line)
            (GenH.splitlines
               (star_after_newlines (remove_comment_ends tainted)))).

(** No character of [s] breaks a line. *)
Definition one_line (s : string) : bool :=
  Text.all (λ c, negb (GenH.is_linebreak c)) s.

End Untaint.

(** ** Functions shared by the implementation files ([campch.py]) *)

Module ImplShared.
Import Adm.

(** The base name, the full name and the signature of a function. *)
Definition names (adm : AdmFile) (keyword : string) (obj : AdmObj)
    (returns parameters : string) : string * string * string :=
  let basename := keyword +:+ "_" +:+ Str.lower (name obj) in
  let fullname := Str.lower (norm_namespace adm) +:+ "_" +:+ basename in
  let signature := returns +:+ fullname +:+ parameters in
  (basename, fullname, signature).

(** [make_collect_function] *)
Definition make_collect_function (adm : AdmFile) (edd : AdmObj)
  : string * string * string :=
  names adm "get" edd "tnv_t *" "(tnvc_t *parms)".

(** [make_meta_function] *)
Definition make_meta_function (adm : AdmFile) (meta : AdmObj)
  : result (string * string * string) :=
  match Cs.get_sname Cs.META with
  | Returns keyword =>
      Returns (names adm keyword meta "tnv_t *" "(tnvc_t *parms)")
  | Raises e => Raises e
  end.

(** [make_constant_function] *)
Definition make_constant_function (adm : AdmFile) (const : AdmObj)
  : string * string * string :=
  names adm "get" const "tnv_t *" "(tnvc_t *parms)".

(** [make_control_function] *)
Definition make_control_function (adm : AdmFile) (control : AdmObj)
  : result (string * string * string) :=
  match Cs.get_sname Cs.CTRL with
  | Returns keyword =>
      Returns (names adm keyword control "tnv_t *"
                 "(eid_t *def_mgr, tnvc_t *parms, int8_t *status)")
  | Raises e => Raises e
  end.

(** [make_operator_function] *)
Definition make_operator_function (adm : AdmFile) (op : AdmObj)
  : result (string * string * string) :=
  match Cs.get_sname Cs.OP with
  | Returns keyword =>
      Returns (names adm keyword op "tnv_t *" "(vector_t *stack)")
  | Raises e => Raises e
  end.

(** [make_table_function] *)
Definition make_table_function (adm : AdmFile) (tbl : AdmObj)
  : result (string * string * string) :=
  match Cs.get_sname Cs.TBLT with
  | Returns keyword =>
      Returns (names adm keyword tbl "tbl_t *" "(ari_t *id)")
  | Raises e => Raises e
  end.

(** The names under which [create_impl_c] asks the scraper for a custom
    body: [setup], [cleanup], and the base names of the tables, of the
    externally defined data, of the controls and of the operators. *)
Inductive body_owner : Type :=
  | Setup
  | Cleanup
  | Table (obj : AdmObj)
  | Collect (obj : AdmObj)
  | Control (obj : AdmObj)
  | Operator (obj : AdmObj).

Definition body_key (adm : AdmFile) (owner : body_owner) : result string :=
  match owner with
  | Setup => Returns "setup"
  | Cleanup => Returns "cleanup"
  | Table obj =>
      match make_table_function adm obj with
      | Returns (basename, _, _) => Returns basename
      | Raises e => Raises e
      end
  | Collect obj => Returns (make_collect_function adm obj).1.1
  | Control obj =>
      match make_control_function adm obj with
      | Returns (basename, _, _) => Returns basename
      | Raises e => Raises e
      end
  | Operator obj =>
      match make_operator_function adm obj with
      | Returns (basename, _, _) => Returns basename
      | Raises e => Raises e
      end
  end.

(** The kind of an owner, and the name of its object in lower case. *)
Definition owner_kind (owner : body_owner) : nat :=
  match owner with
  | Setup => 0 | Cleanup => 1 | Table _ => 2 | Collect _ => 3
  | Control _ => 4 | Operator _ => 5
  end.

Definition owner_name (owner : body_owner) : string :=
  match owner with
  | Setup | Cleanup => ""
  | Table obj | Collect obj | Control obj | Operator obj =>
      Str.lower (name obj)
  end.

End ImplShared.

(** ** Quoted text in SQL *)

Module Quoted.

(** The text between the quotes of an SQL literal: every quote in it is
    followed by a second one. *)
Fixpoint paired (s : string) : bool :=
  match s with
  | "" => true
  | String c rest =>
      if Ascii.eqb c "'" then
        match rest with
        | String d rest' => Ascii.eqb d "'" && paired rest'
        | "" => false
        end
      else paired rest
  end.

(** The text an SQL literal stands for: a pair of quotes is one quote. *)
Fixpoint unpair (s : string) : string :=
  match s with
  | "" => ""
  | String c rest =>
      if Ascii.eqb c "'" then
        match rest with
        | String d rest' => String c (unpair rest')
        | "" => String c ""
        end
      else String c (unpair rest)
  end.

End Quoted.

(** ** The cells of a table ([create_gen_h.py]) *)

Module Cell.

(** A cell of [format_table_entry] that is not centered and not wrapped:
    the item cut to the size of the column when it is longer, followed by
    spaces up to that size when it is shorter. *)
Definition fit (col_sz : nat) (item : string) : string :=
  if col_sz <? String.length item then GenH.take col_sz item
  else item +:+ Str.repeat_char " " (col_sz - String.length item).

(** The divider under a row of columns of the sizes [col_sizes]. *)
Definition divider (col_sizes : list nat) : string :=
  fold_left (λ d col_sz, d +:+ Str.repeat_char "-" col_sz +:+ "+")
    col_sizes " * +".

End Cell.

(** * Properties *)

(** ** Strings and lines *)

Section StringFacts.

Lemma app_cons (c : ascii) (s t : string) :
  String c s +:+ t = String c (s +:+ t).
Proof. reflexivity. Qed.

Lemma app_empty_l (t : string) : "" +:+ t = t.
Proof. reflexivity. Qed.

Lemma app_empty_r (s : string) : s +:+ "" = s.
Proof. induction s as [|c s IH]; [done|]. by rewrite app_cons, IH. Qed.

Lemma app_assoc_str (s t u : string) : (s +:+ t) +:+ u = s +:+ (t +:+ u).
Proof.
  induction s as [|c s IH]; [done|]. by rewrite !app_cons, IH.
Qed.

Lemma join_app (xs ys : list string) :
  Str.join (xs ++ ys) = Str.join xs +:+ Str.join ys.
Proof.
  induction xs as [|x xs IH]; simpl; [done|].
  by rewrite IH, app_assoc_str.
Qed.

Lemma readlines_cons_other (c : ascii) (text : string) :
  c ≠ Str.newline ->
  Str.readlines (String c text) =
    match Str.readlines text with
    | [] => [String c ""]
    | l :: ls => String c l :: ls
    end.
Proof.
  intros Hc. simpl. destruct (Ascii.eqb_spec c Str.newline); [done|done].
Qed.

(** A complete line at the head of a text is its first line. *)
Lemma readlines_line (l text : string) :
  Str.is_line l = true ->
  Str.readlines (l +:+ text) = l :: Str.readlines text.
Proof.
  induction l as [|c l IH]; [done|].
  intros Hl. simpl in Hl. rewrite app_cons.
  destruct (Ascii.eqb_spec c Str.newline) as [->|Hc].
  - destruct l; [|done]. reflexivity.
  - rewrite readlines_cons_other by done. by rewrite IH.
Qed.

Lemma readlines_join (ls : list string) (text : string) :
  Forall (λ l, Str.is_line l = true) ls ->
  Str.readlines (Str.join ls +:+ text) = ls ++ Str.readlines text.
Proof.
  induction 1 as [|l ls Hl _ IH]; simpl; [done|].
  by rewrite app_assoc_str, readlines_line, IH.
Qed.

Lemma rstrip_app (s t : string) :
  Str.rstrip t ≠ "" -> Str.rstrip (s +:+ t) = s +:+ Str.rstrip t.
Proof.
  intros Ht. induction s as [|c s IH]; [done|].
  rewrite !app_cons. simpl. rewrite IH.
  destruct (s +:+ Str.rstrip t) eqn:E.
  - destruct s; [|done]. by rewrite app_empty_l in E.
  - by rewrite andb_false_r.
Qed.

Lemma is_line_app (s t : string) :
  Str.no_newline s = true -> Str.is_line t = true ->
  Str.is_line (s +:+ t) = true.
Proof.
  induction s as [|c s IH]; [done|]. rewrite app_cons. simpl.
  intros [Hc Hs]%andb_true_iff Ht.
  destruct (Ascii.eqb c Str.newline); [done|]. by apply IH.
Qed.

Lemma no_newline_app (s t : string) :
  Str.no_newline (s +:+ t) = Str.no_newline s && Str.no_newline t.
Proof.
  induction s as [|c s IH]; [done|].
  rewrite app_cons. simpl. by rewrite IH, andb_assoc.
Qed.

End StringFacts.

(** ** Queues *)

Section QueueFacts.
Context {A : Type}.
Implicit Types (x : A) (xs : list A) (q : pylist A).

Lemma insert0_popping x xs :
  PyList.insert0 x (PyList.popping xs) = PyList.popping (xs ++ [x]).
Proof. induction xs as [|y xs IH]; simpl; [done|]. by rewrite IH. Qed.

Lemma fold_insert0_popping xs ys :
  fold_left (fun c line => PyList.insert0 line c) ys (PyList.popping xs)
  = PyList.popping (xs ++ ys).
Proof.
  revert xs. induction ys as [|y ys IH]; intros xs; simpl.
  - by rewrite app_nil_r.
  - rewrite insert0_popping, IH. by rewrite <- app_assoc.
Qed.

(** The items of the queue are the popped sequence, reversed. *)
Lemma to_list_popping xs : PyList.to_list (PyList.popping xs) = rev xs.
Proof. induction xs as [|y xs IH]; simpl; [done|]. by rewrite IH. Qed.

Lemma len_popping xs : PyList.len (PyList.popping xs) = length xs.
Proof. induction xs as [|y xs IH]; simpl; [done|]. by rewrite IH. Qed.

Lemma popping_inj xs ys :
  PyList.popping xs = PyList.popping ys -> xs = ys.
Proof.
  revert ys. induction xs as [|x xs IH]; intros [|y ys] H; simpl in H;
    try done.
  injection H as H ->. f_equal. by apply IH.
Qed.

End QueueFacts.

(** A constructor's queue delivers the lines of the file first to last. *)
Lemma fill_queue_popping (lines : list string) :
  Scraper.fill_queue lines = PyList.popping lines.
Proof. apply (fold_insert0_popping [] lines). Qed.

(** ** Finding a file-level region *)

Section FindBetween.
Import Scraper.
Variables start stop : string.

Lemma find_start_here line q :
  Str.strip line = start -> find_start start line q = (line, q).
Proof.
  intros H. destruct q as [|rest popped]; simpl; [done|].
  rewrite bool_decide_eq_false_2; [done|]. by intros HH.
Qed.

Lemma find_start_skip line pre m rest :
  Str.strip line ≠ start ->
  Forall (λ l, Str.strip l ≠ start) pre ->
  Str.strip m = start ->
  find_start start line (PyList.popping (pre ++ m :: rest))
  = (m, PyList.popping rest).
Proof.
  intros Hline Hpre Hm. revert line Hline.
  induction Hpre as [|l pre Hl _ IH]; intros line Hline; simpl.
  - rewrite bool_decide_eq_true_2 by done. by apply find_start_here.
  - rewrite bool_decide_eq_true_2 by done. by apply IH.
Qed.

(** Without a start marker the whole queue is consumed. *)
Lemma find_start_none line ls :
  Str.strip line ≠ start ->
  Forall (λ l, Str.strip l ≠ start) ls ->
  (find_start start line (PyList.popping ls)).2 = Empty.
Proof.
  intros Hline Hls. revert line Hline.
  induction Hls as [|l ls Hl _ IH]; intros line Hline; simpl; [done|].
  rewrite bool_decide_eq_true_2 by done. by apply IH.
Qed.

Lemma append_until_stop found body e rest :
  Forall (λ l, Str.strip l ≠ stop) body ->
  Str.strip e = stop ->
  append_until stop found (PyList.popping (body ++ e :: rest))
  = (found ++ body, PyList.popping rest).
Proof.
  intros Hbody He. revert found.
  induction Hbody as [|l body Hl _ IH]; intros found; simpl.
  - rewrite bool_decide_eq_true_2 by done. by rewrite app_nil_r.
  - rewrite bool_decide_eq_false_2 by done. rewrite IH.
    by rewrite <- app_assoc.
Qed.

Lemma append_until_empty found : append_until stop found Empty = (found, Empty).
Proof. reflexivity. Qed.

Lemma find_between_region pre m body e rest :
  start ≠ "" ->
  Forall (λ l, Str.strip l ≠ start) pre ->
  Str.strip m = start ->
  Forall (λ l, Str.strip l ≠ stop) body ->
  Str.strip e = stop ->
  find_between (start, stop) (PyList.popping (pre ++ m :: body ++ e :: rest))
  = (body, PyList.popping rest).
Proof.
  intros Hne Hpre Hm Hbody He. unfold find_between.
  rewrite find_start_skip; [|by intros HH; apply Hne|done|done].
  by rewrite append_until_stop.
Qed.

Lemma find_between_none ls :
  start ≠ "" ->
  Forall (λ l, Str.strip l ≠ start) ls ->
  find_between (start, stop) (PyList.popping ls) = ([], Empty).
Proof.
  intros Hne Hls. unfold find_between.
  pose proof (find_start_none "" ls) as H.
  destruct (find_start start "" (PyList.popping ls)) as [l q].
  simpl in H. rewrite H; [done| |done]. by intros HH; apply Hne.
Qed.

End FindBetween.

(** ** Matching the body markers *)

Section RegexFacts.

Import Layout.

Lemma matches_lits (p : string) (r : list Re.token) (s : string) :
  Re.matches (lits p ++ r) (p +:+ s) = Re.matches r s.
Proof.
  induction p as [|c p IH]; [done|].
  rewrite app_cons. cbn [lits list_ascii_of_string map app Re.matches].
  rewrite Ascii.eqb_refl. apply IH.
Qed.

Lemma matches_group_cons (p : list Re.token) (a : ascii) (s : string) :
  Re.matches (Re.Group :: p) (String a s) =
    if Ascii.eqb a Str.newline then None
    else match Re.matches (Re.Group :: p) s with
         | Some (g :: gs) => Some (String a g :: gs)
         | _ =>
             match Re.matches p s with
             | Some gs => Some (String a "" :: gs)
             | None => None
             end
         end.
Proof. reflexivity. Qed.

Lemma matches_group_empty (p : list Re.token) :
  Re.matches (Re.Group :: p) "" = None.
Proof. reflexivity. Qed.

Lemma matches_group_body_cons (a : ascii) (f : string) :
  Str.no_newline (String a f) = true ->
  Re.matches (Re.Group :: lits " BODY") (String a f +:+ " BODY")
  = Some [String a f].
Proof.
  revert a. induction f as [|b f IH]; intros a H;
    apply andb_true_iff in H as [Ha Hf]; apply negb_true_iff in Ha;
    rewrite app_cons, matches_group_cons, Ha.
  - reflexivity.
  - by rewrite (IH b Hf).
Qed.

(** The greedy group takes the whole name when [" BODY"] ends the text. *)
Lemma matches_group_body (f : string) :
  Layout.valid_name f = true ->
  Re.matches (Re.Group :: lits " BODY") (f +:+ " BODY") = Some [f].
Proof.
  unfold Layout.valid_name. destruct f as [|a f]; [done|].
  intros [_ H]%andb_true_iff. by apply matches_group_body_cons.
Qed.

Lemma start_re_eq :
  Scraper.start_re = lits "* |START CUSTOM FUNCTION " ++ Re.Group :: lits " BODY".
Proof. reflexivity. Qed.

Lemma end_re_eq :
  Scraper.end_re = lits "* |STOP CUSTOM FUNCTION " ++ Re.Group :: lits " BODY".
Proof. reflexivity. Qed.

Lemma search_matches (p : list Re.token) (s : string) (gs : list string) :
  Re.matches p s = Some gs -> Re.search p s = Some gs.
Proof. intros H. destruct s; simpl; by rewrite H. Qed.

Lemma marker_format_START f :
  Scraper.marker_format "START" f = "|START CUSTOM FUNCTION " +:+ f +:+ " BODY".
Proof. reflexivity. Qed.

Lemma marker_format_STOP f :
  Scraper.marker_format "STOP" f = "|STOP CUSTOM FUNCTION " +:+ f +:+ " BODY".
Proof. reflexivity. Qed.

Lemma marker_line_eq kind f :
  marker_line kind f
  = String Str.tab (String " " (("* |" +:+ kind +:+ " CUSTOM FUNCTION " +:+ f)
                                +:+ (" BODY" +:+ Str.nl))).
Proof.
  unfold marker_line, Scraper.marker_format.
  rewrite !app_assoc_str. reflexivity.
Qed.

Lemma strip_marker_line kind f :
  Str.strip (marker_line kind f) = "* |" +:+ kind +:+ " CUSTOM FUNCTION " +:+ f +:+ " BODY".
Proof.
  rewrite marker_line_eq. unfold Str.strip.
  change (Str.lstrip (String Str.tab (String " " ?s))) with (Str.lstrip s).
  rewrite !app_assoc_str. rewrite app_cons.
  change (Str.lstrip (String "*" ?s)) with (String "*" s).
  rewrite <- app_cons.
  rewrite <- (app_assoc_str kind), <- (app_assoc_str (kind +:+ _)),
    <- (app_assoc_str "* |").
  rewrite rstrip_app by done.
  change (Str.rstrip (" BODY" +:+ Str.nl)) with " BODY".
  by rewrite !app_assoc_str.
Qed.

Lemma strip_marker_line_START f :
  Str.strip (marker_line "START" f) = "* |START CUSTOM FUNCTION " +:+ f +:+ " BODY".
Proof. by rewrite strip_marker_line. Qed.

Lemma strip_marker_line_STOP f :
  Str.strip (marker_line "STOP" f) = "* |STOP CUSTOM FUNCTION " +:+ f +:+ " BODY".
Proof. by rewrite strip_marker_line. Qed.

Lemma search_start_marker f :
  Layout.valid_name f = true ->
  Re.search Scraper.start_re (Str.strip (marker_line "START" f)) = Some [f].
Proof.
  intros Hf. rewrite strip_marker_line_START. apply search_matches.
  rewrite start_re_eq, matches_lits. by apply matches_group_body.
Qed.

Lemma matches_stop_marker f :
  Layout.valid_name f = true ->
  Re.matches Scraper.end_re (Str.strip (marker_line "STOP" f)) = Some [f].
Proof.
  intros Hf. rewrite strip_marker_line_STOP.
  rewrite end_re_eq, matches_lits. by apply matches_group_body.
Qed.

Lemma is_line_marker_line kind f :
  Str.no_newline kind = true -> Layout.valid_name f = true ->
  Str.is_line (marker_line kind f) = true.
Proof.
  intros Hk [_ Hf]%andb_true_iff. unfold marker_line, Scraper.marker_format.
  rewrite <- !app_assoc_str. apply is_line_app; [|done].
  rewrite !no_newline_app. rewrite Hk, Hf. done.
Qed.

End RegexFacts.

(** ** Scanning the custom bodies *)

Section BodyScan.
Import Scraper Layout.
Implicit Types (m : gmap string (list string)) (f g : string).

Lemma scan_skip_line l rest m :
  Re.search start_re (Str.strip l) = None ->
  find_func_loop (PyList.popping (l :: rest)) m None
  = find_func_loop (PyList.popping rest) m None.
Proof. intros H. cbn [find_func_loop PyList.popping]. by rewrite H. Qed.

Lemma scan_skip bs rest m :
  Forall (λ l, Re.search start_re (Str.strip l) = None) bs ->
  find_func_loop (PyList.popping (bs ++ rest)) m None
  = find_func_loop (PyList.popping rest) m None.
Proof.
  induction 1 as [|l bs Hl _ IH]; [done|].
  rewrite <- app_comm_cons, scan_skip_line by done. apply IH.
Qed.

Lemma scan_append_line l rest m f :
  Str.strip l ≠ indicator ->
  find_func_loop (PyList.popping (l :: rest)) m (Some f)
  = find_func_loop (PyList.popping rest) (append_body f l m) (Some f).
Proof.
  intros H. cbn [find_func_loop PyList.popping].
  by rewrite bool_decide_eq_false_2.
Qed.

Lemma scan_append body rest m f :
  Forall (λ l, Str.strip l ≠ indicator) body ->
  find_func_loop (PyList.popping (body ++ rest)) m (Some f)
  = find_func_loop (PyList.popping rest)
      (fold_left (λ m l, append_body f l m) body m) (Some f).
Proof.
  intros H. revert m. induction H as [|l body Hl _ IH]; intros m; [done|].
  rewrite <- app_comm_cons, scan_append_line by done. apply IH.
Qed.

(** An indicator line followed by a line that is no STOP marker. *)
Lemma scan_indicator_other l1 l2 rest m f :
  Str.strip l1 = indicator ->
  Re.matches end_re (Str.strip l2) = None ->
  find_func_loop (PyList.popping (l1 :: l2 :: rest)) m (Some f)
  = find_func_loop (PyList.popping rest) m (Some f).
Proof.
  intros H1 H2. cbn [find_func_loop PyList.popping].
  rewrite bool_decide_eq_true_2 by done. by rewrite H2.
Qed.

(** An indicator line followed by a STOP marker. *)
Lemma scan_indicator_stop l1 l2 rest m f :
  Str.strip l1 = indicator ->
  is_Some (Re.matches end_re (Str.strip l2)) ->
  find_func_loop (PyList.popping (l1 :: l2 :: rest)) m (Some f)
  = match pop_body f m with
    | Returns m' => find_func_loop (PyList.popping rest) m' None
    | Raises e => Raises e
    end.
Proof.
  intros H1 [gs H2]. cbn [find_func_loop PyList.popping].
  rewrite bool_decide_eq_true_2 by done. by rewrite H2.
Qed.

Lemma lookup_append_body f l m :
  append_body f l m !! f = Some (default [] (m !! f) ++ [l]).
Proof.
  unfold append_body. destruct (m !! f) as [b|] eqn:E.
  - by rewrite lookup_insert_eq, E.
  - by rewrite !lookup_insert_eq.
Qed.

Lemma lookup_append_body_ne f g l m :
  f ≠ g -> append_body f l m !! g = m !! g.
Proof.
  intros Hne. unfold append_body. destruct (m !! f) as [b|] eqn:E.
  - by rewrite lookup_insert_ne.
  - by rewrite !lookup_insert_ne.
Qed.

Lemma append_body_insert f l m :
  append_body f l m = <[f := default [] (m !! f) ++ [l]]> m.
Proof.
  unfold append_body. destruct (m !! f) as [b|] eqn:E; simpl.
  - by rewrite E.
  - by rewrite lookup_insert_eq, insert_insert_eq.
Qed.

Lemma pop_body_append f l m :
  pop_body f (append_body f l m) = Returns (<[f := default [] (m !! f)]> m).
Proof.
  unfold pop_body. rewrite lookup_append_body.
  destruct (default [] (m !! f) ++ [l]) as [|x b] eqn:E.
  - by destruct (default [] (m !! f)).
  - rewrite <- E, removelast_last, append_body_insert.
    by rewrite insert_insert_eq.
Qed.

Lemma fold_append_body f body m :
  <[f := default [] (fold_left (λ m l, append_body f l m) body m !! f)]>
    (fold_left (λ m l, append_body f l m) body m)
  = <[f := default [] (m !! f) ++ body]> m.
Proof.
  revert m. induction body as [|l body IH]; intros m; simpl.
  - by rewrite app_nil_r.
  - rewrite IH, lookup_append_body, append_body_insert. simpl.
    by rewrite insert_insert_eq, <- app_assoc.
Qed.

(** The lines of the fences, stripped and matched. *)
Lemma strip_open_comment : Str.strip open_comment_line = "/*".
Proof. reflexivity. Qed.
Lemma strip_indicator_line : Str.strip indicator_line = indicator.
Proof. reflexivity. Qed.
Lemma strip_close_comment : Str.strip close_comment_line = "*/".
Proof. reflexivity. Qed.

Lemma open_comment_no_start :
  Re.search start_re (Str.strip open_comment_line) = None.
Proof. reflexivity. Qed.
Lemma indicator_no_start :
  Re.search start_re (Str.strip indicator_line) = None.
Proof. reflexivity. Qed.
Lemma close_comment_no_start :
  Re.search start_re (Str.strip close_comment_line) = None.
Proof. reflexivity. Qed.
Lemma close_comment_no_stop :
  Re.matches end_re (Str.strip close_comment_line) = None.
Proof. reflexivity. Qed.
Lemma open_comment_not_indicator : Str.strip open_comment_line ≠ indicator.
Proof. done. Qed.

(** The START fence opens the region of [f]. *)
Lemma scan_start_fence f rest m :
  valid_name f = true ->
  find_func_loop (PyList.popping (fence_lines "START" f ++ rest)) m None
  = find_func_loop (PyList.popping rest) m (Some f).
Proof.
  intros Hf. unfold fence_lines.
  rewrite <- !app_comm_cons, app_nil_l.
  rewrite scan_skip_line by apply open_comment_no_start.
  rewrite scan_skip_line by apply indicator_no_start.
  transitivity (find_func_loop
    (PyList.popping (indicator_line :: close_comment_line :: rest)) m (Some f)).
  - change (PyList.popping (marker_line "START" f :: ?r))
      with (Snoc (PyList.popping r) (marker_line "START" f)).
    cbn [find_func_loop]. by rewrite search_start_marker.
  - apply scan_indicator_other;
      [apply strip_indicator_line | apply close_comment_no_stop].
Qed.

(** The STOP fence closes it and drops the comment opener it appended. *)
Lemma scan_stop_fence f g rest m :
  valid_name g = true ->
  find_func_loop (PyList.popping (fence_lines "STOP" g ++ rest)) m (Some f)
  = find_func_loop (PyList.popping rest) (<[f := default [] (m !! f)]> m) None.
Proof.
  intros Hg. unfold fence_lines.
  rewrite <- !app_comm_cons, app_nil_l.
  rewrite scan_append_line by apply open_comment_not_indicator.
  rewrite scan_indicator_stop;
    [|apply strip_indicator_line|by rewrite matches_stop_marker].
  rewrite pop_body_append.
  rewrite scan_skip_line by apply indicator_no_start.
  by rewrite scan_skip_line by apply close_comment_no_start.
Qed.

Lemma forallb_Forall_true {A} (p : A -> bool) (xs : list A) :
  forallb p xs = true -> Forall (λ x, p x = true) xs.
Proof.
  induction xs as [|x xs IH]; simpl; [by constructor|].
  intros [Hx Hxs]%andb_true_iff. constructor; auto.
Qed.

Lemma forallb_Forall_plain marker ls :
  forallb (plain marker) ls = true ->
  Forall (λ l, Str.is_line l = true) ls ∧
  Forall (λ l, Str.strip l ≠ marker) ls.
Proof.
  intros H%forallb_Forall_true. split.
  - eapply Forall_impl; [apply H|]. intros l Hl. simpl in Hl.
    unfold plain in Hl. by apply andb_true_iff in Hl as [? _].
  - eapply Forall_impl; [apply H|]. intros l Hl. simpl in Hl.
    unfold plain in Hl.
    apply andb_true_iff in Hl as [_ Hl]. by apply bool_decide_eq_true in Hl.
Qed.

Lemma forallb_Forall_no_start ls :
  forallb no_start ls = true ->
  Forall (λ l, Str.is_line l = true) ls ∧
  Forall (λ l, Re.search start_re (Str.strip l) = None) ls.
Proof.
  intros H%forallb_Forall_true. split.
  - eapply Forall_impl; [apply H|]. intros l Hl. simpl in Hl.
    unfold no_start in Hl. by apply andb_true_iff in Hl as [? _].
  - eapply Forall_impl; [apply H|]. intros l Hl. simpl in Hl.
    unfold no_start in Hl.
    apply andb_true_iff in Hl as [_ Hl]. by apply bool_decide_eq_true in Hl.
Qed.

(** One segment. *)
Lemma scan_segment seg rest m :
  segment_ok seg = true ->
  find_func_loop (PyList.popping (seg_lines seg ++ rest)) m None
  = find_func_loop (PyList.popping rest) (capture m seg) None.
Proof.
  destruct seg as [ls|f body]; cbn [seg_lines capture segment_ok]; intros Hok.
  - apply scan_skip. by apply forallb_Forall_no_start.
  - apply andb_true_iff in Hok as [Hf Hbody].
    apply forallb_Forall_plain in Hbody as [_ Hbody].
    rewrite <- !app_assoc, scan_start_fence by done.
    rewrite scan_append by done.
    rewrite scan_stop_fence by done.
    by rewrite fold_append_body.
Qed.

Lemma scan_segments segs m :
  forallb segment_ok segs = true ->
  find_func_loop (PyList.popping (concat (map seg_lines segs))) m None
  = Returns (fold_left capture segs m).
Proof.
  revert m. induction segs as [|seg segs IH]; intros m; [done|].
  cbn [forallb map concat fold_left]. intros [Hseg Hsegs]%andb_true_iff.
  rewrite scan_segment by done. by apply IH.
Qed.

End BodyScan.

(** ** Scraping a generated file *)

Section ScrapeText.
Import Scraper Layout.

Lemma region_join markers content :
  region markers content = Str.join (region_lines markers content).
Proof.
  destruct markers as [start stop]. unfold region, region_lines.
  rewrite !join_app. simpl. by rewrite !app_empty_r, !app_assoc_str.
Qed.

Lemma body_template_join kind f :
  body_template indicator (marker_format kind f) = Str.join (fence_lines kind f).
Proof.
  unfold body_template, fence_lines. cbn [Str.join].
  unfold open_comment_line, indicator_line, marker_line, close_comment_line.
  by rewrite app_empty_r, !app_assoc_str.
Qed.

Lemma render_join seg : render seg = Str.join (seg_lines seg).
Proof.
  destruct seg as [ls|f body]; [done|].
  cbn [render seg_lines make_custom_body_markers].
  by rewrite !join_app, !body_template_join.
Qed.

Lemma join_concat (lss : list (list string)) :
  Str.join (concat lss) = Str.join (map Str.join lss).
Proof.
  induction lss as [|ls lss IH]; [done|].
  simpl. by rewrite join_app, IH.
Qed.

Lemma join_map_render segs :
  Str.join (map render segs) = Str.join (concat (map seg_lines segs)).
Proof.
  rewrite join_concat, map_map. f_equal.
  apply map_ext. intros seg. apply render_join.
Qed.

Lemma c_text_join pre inc mid fns segs :
  c_text pre inc mid fns segs = Str.join (c_lines pre inc mid fns segs).
Proof.
  unfold c_text, c_lines.
  by rewrite !join_app, !region_join, join_map_render.
Qed.


Lemma readlines_lines (ls : list string) :
  Forall (λ l, Str.is_line l = true) ls -> Str.readlines (Str.join ls) = ls.
Proof.
  intros H. rewrite <- (app_empty_r (Str.join ls)), readlines_join by done.
  apply app_nil_r.
Qed.

Lemma is_line_region_lines markers content :
  Str.no_newline markers.1 = true -> Str.no_newline markers.2 = true ->
  Forall (λ l, Str.is_line l = true) content ->
  Forall (λ l, Str.is_line l = true) (region_lines markers content).
Proof.
  intros H1 H2 Hc. unfold region_lines.
  apply Forall_app; split; [|apply Forall_app; split; [done|]].
  - constructor; [|constructor]. by apply is_line_app.
  - constructor; [by apply is_line_app|]. by constructor.
Qed.

Lemma is_line_fence_lines kind f :
  Str.no_newline kind = true -> valid_name f = true ->
  Forall (λ l, Str.is_line l = true) (fence_lines kind f).
Proof.
  intros Hk Hf. unfold fence_lines.
  repeat constructor. by apply is_line_marker_line.
Qed.

Lemma is_line_seg_lines seg :
  segment_ok seg = true -> Forall (λ l, Str.is_line l = true) (seg_lines seg).
Proof.
  destruct seg as [ls|f body]; cbn [segment_ok seg_lines].
  - by intros [H _]%forallb_Forall_no_start.
  - intros [Hf [Hb _]%forallb_Forall_plain]%andb_true_iff.
    apply Forall_app; split; [by apply is_line_fence_lines|].
    apply Forall_app; split; [done|by apply is_line_fence_lines].
Qed.

Lemma is_line_segs_lines segs :
  forallb segment_ok segs = true ->
  Forall (λ l, Str.is_line l = true) (concat (map seg_lines segs)).
Proof.
  induction segs as [|seg segs IH]; cbn [forallb map concat]; [by constructor|].
  intros [Hs Hss]%andb_true_iff.
  apply Forall_app; split; [by apply is_line_seg_lines|by apply IH].
Qed.

Lemma c_lines_are_lines pre inc mid fns segs :
  c_text_ok pre inc mid fns segs = true ->
  Forall (λ l, Str.is_line l = true) (c_lines pre inc mid fns segs).
Proof.
  unfold c_text_ok. rewrite !andb_true_iff.
  intros [[[[Hpre Hinc] Hmid] Hfns] Hsegs].
  apply forallb_Forall_plain in Hpre as [Hpre _], Hinc as [Hinc _],
    Hmid as [Hmid _], Hfns as [Hfns _].
  unfold c_lines.
  apply Forall_app; split; [done|].
  apply Forall_app; split; [by apply is_line_region_lines|].
  apply Forall_app; split; [done|].
  apply Forall_app; split; [by apply is_line_region_lines|].
  by apply is_line_segs_lines.
Qed.


(** Extracting a file-level region [markers] that follows [pre]: the blank
    line after its stop marker stays in the queue. *)
Lemma find_between_region_lines markers pre content rest :
  markers.1 ≠ "" ->
  Str.strip (markers.1 +:+ Str.nl) = markers.1 ->
  Str.strip (markers.2 +:+ Str.nl) = markers.2 ->
  Forall (λ l, Str.strip l ≠ markers.1) pre ->
  Forall (λ l, Str.strip l ≠ markers.2) content ->
  find_between markers
    (PyList.popping (pre ++ region_lines markers content ++ rest))
  = (content, PyList.popping (Str.nl :: rest)).
Proof.
  destruct markers as [start stop]. cbn [fst snd].
  intros Hne Hs He Hpre Hc. unfold region_lines. cbn [fst snd].
  rewrite <- !app_assoc. cbn [app].
  by apply find_between_region.
Qed.

(** The scan of a well-formed source file. *)
Theorem scrape_c_text fs path pre inc mid fns segs :
  holds fs path (c_text pre inc mid fns segs) ->
  c_text_ok pre inc mid fns segs = true ->
  C_Scraper_init fs (Some path)
  = Returns {| c_filename := Some path; c_includes := inc;
               c_functions := fns; func_bods := captured segs |}.
Proof.
  intros Hfs Hok. unfold C_Scraper_init. rewrite Hfs.
  rewrite c_text_join, readlines_lines by by apply c_lines_are_lines.
  rewrite fill_queue_popping.
  unfold c_text_ok in Hok. rewrite !andb_true_iff in Hok.
  destruct Hok as [[[[Hpre Hinc] Hmid] Hfns] Hsegs].
  apply forallb_Forall_plain in Hpre as [_ Hpre], Hinc as [_ Hinc],
    Hmid as [_ Hmid], Hfns as [_ Hfns].
  unfold c_lines, find_custom_includes_in_queue.
  rewrite find_between_region_lines; [|done..].
  unfold find_custom_functions_in_queue.
  rewrite (app_comm_cons mid), find_between_region_lines; [|done| done |done | |done].
  2:{ constructor; [done|done]. }
  unfold find_func_custom_body_in_queue.
  rewrite scan_skip_line by done.
  by rewrite scan_segments.
Qed.

End ScrapeText.

(** ** What the scan captures *)

Section Captured.
Import Scraper Layout.
Implicit Types (m : gmap string (list string)) (f g : string).
















End Captured.

(** ** Scraping a generated header file *)

Section ScrapeHeader.
Import Scraper Layout.


End ScrapeHeader.

(** ** The order in which a queue is consumed *)

Section Consumption.
Import Scraper.

Lemma popping_to_list {A} (q : pylist A) :
  PyList.popping (rev (PyList.to_list q)) = q.
Proof.
  induction q as [|q IH x]; [done|].
  simpl. rewrite rev_app_distr. simpl. by rewrite IH.
Qed.

Lemma find_start_consumes start line ls :
  ∃ used rest,
    ls = used ++ rest ∧
    (find_start start line (PyList.popping ls)).2 = PyList.popping rest.
Proof.
  revert line. induction ls as [|l ls IH]; intros line.
  - by exists [], [].
  - simpl. case_bool_decide.
    + destruct (IH l) as (used & rest & -> & Hq).
      by exists (l :: used), rest.
    + by exists [], (l :: ls).
Qed.

Lemma append_until_consumes stop found ls :
  ∃ used rest taken,
    ls = used ++ rest ∧ taken `prefix_of` used ∧
    append_until stop found (PyList.popping ls)
    = (found ++ taken, PyList.popping rest).
Proof.
  revert found. induction ls as [|l ls IH]; intros found.
  - exists [], [], []. simpl. rewrite app_nil_r. split; [done|].
    split; [apply prefix_nil|done].
  - simpl. case_bool_decide.
    + exists [l], ls, []. simpl. rewrite app_nil_r. split; [done|].
      split; [apply prefix_nil|done].
    + destruct (IH (found ++ [l])) as (used & rest & taken & -> & Hpre & ->).
      exists (l :: used), rest, (l :: taken). split; [done|].
      split; [by apply prefix_cons|]. by rewrite <- app_assoc.
Qed.

(** A call pops a run of lines and returns lines of that run. *)
Lemma find_between_consumes markers ls :
  ∃ used rest,
    ls = used ++ rest ∧
    (find_between markers (PyList.popping ls)).2 = PyList.popping rest ∧
    (find_between markers (PyList.popping ls)).1 `sublist_of` used.
Proof.
  destruct markers as [start stop]. unfold find_between.
  destruct (find_start_consumes start "" ls) as (used1 & rest1 & -> & Hq).
  destruct (find_start start "" (PyList.popping (used1 ++ rest1)))
    as [line q] eqn:E. simpl in Hq. subst q.
  destruct (append_until_consumes stop [] rest1)
    as (used2 & rest & taken & -> & Hpre & ->).
  exists (used1 ++ used2), rest. rewrite <- app_assoc. split; [done|].
  split; [done|]. simpl.
  apply sublist_inserts_l. destruct Hpre as [k ->].
  by apply sublist_inserts_r.
Qed.

End Consumption.

(** ** The claims about the scrape engine *)

Section ScraperClaims.
Import Scraper Layout.






(** C4, as amended.  While the region of [f] is open: an indicator line
    followed by a line that does not match the STOP pattern (a prefix
    match of [\* \|STOP CUSTOM FUNCTION (.+) BODY], which names no
    particular function) is discarded with that line and the region stays
    open; any other line is appended to the entry of [f]; an indicator
    line followed by a line that matches the STOP pattern, for any
    function name, closes the region and drops the last line of the entry
    of [f]; the scan raises when that entry has no line to drop.  The STOP
    marker of every function name matches the pattern. *)
Theorem stop_marker_behaviour (q : pylist string)
    (m : gmap string (list string)) (f : string) :
  (∀ l1 l2,
     Str.strip l1 = indicator -> Re.matches end_re (Str.strip l2) = None ->
     find_func_loop (Snoc (Snoc q l2) l1) m (Some f)
     = find_func_loop q m (Some f)) ∧
  (∀ l,
     Str.strip l ≠ indicator ->
     find_func_loop (Snoc q l) m (Some f)
     = find_func_loop q (<[f := default [] (m !! f) ++ [l]]> m) (Some f)) ∧
  (∀ l1 l2 l,
     Str.strip l1 = indicator -> Re.matches end_re (Str.strip l2) = None ->
     Str.strip l ≠ indicator ->
     find_func_loop (Snoc (Snoc (Snoc q l) l2) l1) m (Some f)
     = find_func_loop q (<[f := default [] (m !! f) ++ [l]]> m) (Some f)) ∧
  (∀ l1 l2 body x,
     Str.strip l1 = indicator ->
     is_Some (Re.matches end_re (Str.strip l2)) ->
     m !! f = Some (body ++ [x]) ->
     find_func_loop (Snoc (Snoc q l2) l1) m (Some f)
     = find_func_loop q (<[f := body]> m) None) ∧
  (∀ l1 l2,
     Str.strip l1 = indicator ->
     is_Some (Re.matches end_re (Str.strip l2)) ->
     (m !! f = None ->
      find_func_loop (Snoc (Snoc q l2) l1) m (Some f) = Raises (KeyError f)) ∧
     (m !! f = Some [] ->
      find_func_loop (Snoc (Snoc q l2) l1) m (Some f) = Raises IndexError)) ∧
  (∀ g, valid_name g = true ->
     is_Some (Re.matches end_re (Str.strip (marker_line "STOP" g)))).
Proof.
  assert (Hother : ∀ q' l1 l2,
     Str.strip l1 = indicator -> Re.matches end_re (Str.strip l2) = None ->
     find_func_loop (Snoc (Snoc q' l2) l1) m (Some f)
     = find_func_loop q' m (Some f)).
  { intros q' l1 l2 H1 H2. cbn [find_func_loop].
    rewrite bool_decide_eq_true_2 by done. by rewrite H2. }
  assert (Happend : ∀ l,
     Str.strip l ≠ indicator ->
     find_func_loop (Snoc q l) m (Some f)
     = find_func_loop q (<[f := default [] (m !! f) ++ [l]]> m) (Some f)).
  { intros l Hl. cbn [find_func_loop].
    rewrite bool_decide_eq_false_2 by done. by rewrite append_body_insert. }
  assert (Hstop : ∀ l1 l2,
     Str.strip l1 = indicator ->
     is_Some (Re.matches end_re (Str.strip l2)) ->
     find_func_loop (Snoc (Snoc q l2) l1) m (Some f)
     = match pop_body f m with
       | Returns m' => find_func_loop q m' None
       | Raises e => Raises e
       end).
  { intros l1 l2 H1 [gs H2]. cbn [find_func_loop].
    rewrite bool_decide_eq_true_2 by done. by rewrite H2. }
  split; [apply Hother|]. split; [apply Happend|]. split.
  { intros l1 l2 l H1 H2 Hl. rewrite Hother by done. by apply Happend. }
  split.
  { intros l1 l2 body x H1 H2 Hm. rewrite Hstop by done.
    unfold pop_body. rewrite Hm.
    destruct (body ++ [x]) as [|y b] eqn:E; [by destruct body|].
    by rewrite <- E, removelast_last. }
  split.
  { intros l1 l2 H1 H2. split; intros Hm; rewrite Hstop by done;
      unfold pop_body; by rewrite Hm. }
  intros g Hg. by rewrite matches_stop_marker.
Qed.

(** C4, on a region of [get_foo] whose entry holds two lines. *)
Lemma stop_marker_behaviour_witness :
  Str.strip indicator_line = indicator ∧
  Re.matches end_re (Str.strip close_comment_line) = None ∧
  is_Some (Re.matches end_re (Str.strip (marker_line "STOP" "get_bar"))) ∧
  find_func_loop (Snoc (Snoc Empty close_comment_line) indicator_line)
    {[ "get_foo" := ["x = 1;" +:+ Str.nl; open_comment_line] ]} (Some "get_foo")
  = find_func_loop Empty
      {[ "get_foo" := ["x = 1;" +:+ Str.nl; open_comment_line] ]}
      (Some "get_foo") ∧
  find_func_loop (Snoc (Snoc Empty (marker_line "STOP" "get_bar")) indicator_line)
    {[ "get_foo" := ["x = 1;" +:+ Str.nl; open_comment_line] ]} (Some "get_foo")
  = find_func_loop Empty
      (<["get_foo" := ["x = 1;" +:+ Str.nl]]>
         {[ "get_foo" := ["x = 1;" +:+ Str.nl; open_comment_line] ]}) None.
Proof.
  split; [reflexivity|]. split; [reflexivity|].
  split; [by eexists; vm_compute|]. split.
  - apply (proj1 (stop_marker_behaviour Empty
      {[ "get_foo" := ["x = 1;" +:+ Str.nl; open_comment_line] ]} "get_foo"));
      reflexivity.
  - apply (proj1 (proj2 (proj2 (proj2 (stop_marker_behaviour Empty
      {[ "get_foo" := ["x = 1;" +:+ Str.nl; open_comment_line] ]} "get_foo"))))
      indicator_line (marker_line "STOP" "get_bar")
      ["x = 1;" +:+ Str.nl] open_comment_line);
      [reflexivity|by eexists; vm_compute|by vm_compute].
Defined.

(** C4 fails as stated.  The region of [get_foo] is open and the fence
    that follows carries the STOP marker of [get_bar], not that of
    [get_foo]: the region is closed all the same, and the line after the
    fence is not accumulated into the entry of [get_foo]. *)
Lemma foreign_stop_closes_region :
  Str.strip (marker_line "STOP" "get_bar")
    ≠ Str.strip (marker_line "STOP" "get_foo") ∧
  find_func_custom_body_in_queue (fill_queue Samples.foreign_stop_lines)
  = Returns {[ "get_foo" := ["x = 1;" +:+ Str.nl] ]} ∧
  ("z = 3;" +:+ Str.nl) ∉ ["x = 1;" +:+ Str.nl].
Proof.
  split; [by vm_compute|]. split; [by vm_compute|].
  by intros ?%list_elem_of_singleton.
Qed.

(** C5, as amended.  When the file at [path] cannot be opened,
    [C_Scraper(path)] does not raise and every region it holds is empty:
    no include line, no function line, no custom body. *)
Theorem missing_source_recoverable (fs : filesystem) (path : string) :
  fs path = Raises IOError ->
  C_Scraper_init fs (Some path)
  = Returns {| c_filename := Some path; c_includes := [];
               c_functions := []; func_bods := ∅ |}.
Proof. intros H. unfold C_Scraper_init. by rewrite H. Qed.

(** C5, on a file system without files. *)
Lemma missing_source_recoverable_witness :
  Samples.no_files "adm_test_adm_impl.c" = Raises IOError ∧
  C_Scraper_init Samples.no_files (Some "adm_test_adm_impl.c")
  = Returns {| c_filename := Some "adm_test_adm_impl.c"; c_includes := [];
               c_functions := []; func_bods := ∅ |}.
Proof.
  split; [reflexivity|].
  apply (missing_source_recoverable Samples.no_files "adm_test_adm_impl.c").
  reflexivity.
Defined.

(** C5 fails as stated.  On a path that names no file, [C_Scraper] holds
    no include line where the scraper built without a source holds the
    placeholder line, and [H_Scraper] raises [NameError]. *)
Lemma missing_source_differs_from_no_source :
  (∃ missing fresh,
     C_Scraper_init Samples.no_files (Some "adm_test_adm_impl.c")
     = Returns missing ∧
     C_Scraper_init Samples.no_files None = Returns fresh ∧
     c_includes missing = [] ∧ c_includes fresh = [placeholder] ∧
     c_functions missing = [] ∧ c_functions fresh = [placeholder]) ∧
  H_Scraper_init Samples.no_files (Some "adm_test_adm_impl.h")
  = Raises (NameError "fd").
Proof. split; [|reflexivity]. by do 2 eexists. Qed.

(** C6, as amended.  The queue holds the lines of the file in reverse, so
    that [pop()] delivers them from the first line on; every extraction
    call removes a run of items from the tail of the queue and returns
    lines of that run; hence a later call scans lines that come LATER in
    the file.  A source file that carries the custom includes first, the
    custom functions after them and the custom bodies last is scraped
    completely, and every line between the regions is dropped. *)
Theorem extraction_scan_order :
  (∀ lines, PyList.to_list (fill_queue lines) = rev lines) ∧
  (∀ markers q,
     ∃ consumed,
       PyList.to_list q
       = PyList.to_list (find_between markers q).2 ++ consumed ∧
       (find_between markers q).1 `sublist_of` rev consumed) ∧
  (∀ fs path pre inc mid fns segs,
     holds fs path (c_text pre inc mid fns segs) ->
     c_text_ok pre inc mid fns segs = true ->
     ∃ self,
       C_Scraper_init fs (Some path) = Returns self ∧
       c_includes self = inc ∧ c_functions self = fns ∧
       func_bods self = captured segs).
Proof.
  split; [|split].
  - intros lines. by rewrite fill_queue_popping, to_list_popping.
  - intros markers q.
    destruct (find_between_consumes markers (rev (PyList.to_list q)))
      as (used & rest & Hsplit & Hq & Hsub).
    rewrite popping_to_list in Hq, Hsub.
    exists (rev used). rewrite Hq, to_list_popping, rev_involutive.
    split; [|done].
    by rewrite <- rev_app_distr, <- Hsplit, rev_involutive.
  - intros fs path pre inc mid fns segs Hfs Hok. eexists.
    split; [eapply scrape_c_text; [apply Hfs|apply Hok]|]. done.
Qed.

(** C6, on the sample source file. *)
Lemma extraction_scan_order_witness :
  c_file_ok Samples.impl_c Samples.impl_c_pre Samples.impl_c_mid
    Samples.impl_c_items = true ∧
  ∃ self,
    C_Scraper_init
      (single_file "adm_test_adm_impl.c"
         (c_text Samples.impl_c_pre (c_includes Samples.impl_c)
            Samples.impl_c_mid (c_functions Samples.impl_c)
            (map (seg_of Samples.impl_c) Samples.impl_c_items)))
      (Some "adm_test_adm_impl.c") = Returns self ∧
    c_includes self = c_includes Samples.impl_c ∧
    c_functions self = c_functions Samples.impl_c.
Proof.
  split; [reflexivity|].
  destruct (proj2 (proj2 extraction_scan_order)
    (single_file "adm_test_adm_impl.c"
       (c_text Samples.impl_c_pre (c_includes Samples.impl_c)
          Samples.impl_c_mid (c_functions Samples.impl_c)
          (map (seg_of Samples.impl_c) Samples.impl_c_items)))
    "adm_test_adm_impl.c" Samples.impl_c_pre (c_includes Samples.impl_c)
    Samples.impl_c_mid (c_functions Samples.impl_c)
    (map (seg_of Samples.impl_c) Samples.impl_c_items))
    as (self & Hinit & Hinc & Hfns & _); [reflexivity|reflexivity|].
  by exists self.
Defined.

(** C6 fails as stated.  In this file the markers of the custom
    functions, which the second call scans, come EARLIER than the markers
    of the custom includes, which the first call scans: the first call
    drops them on its way, and the functions are not captured. *)
Lemma functions_before_includes_are_lost :
  Str.readlines Samples.functions_first
  = region_lines make_custom_functions_markers ["int f(void);" +:+ Str.nl]
    ++ region_lines make_custom_includes_markers ["#include <a.h>" +:+ Str.nl] ∧
  C_Scraper_init (single_file "impl.c" Samples.functions_first) (Some "impl.c")
  = Returns {| c_filename := Some "impl.c";
               c_includes := ["#include <a.h>" +:+ Str.nl];
               c_functions := []; func_bods := ∅ |}.
Proof. split; by vm_compute. Qed.

End ScraperClaims.

(** ** The claim about the generator loop *)

Section RunClaims.
Import Camp.








End RunClaims.

(** ** The SQL writer: what can raise, and where *)

Section SqlFacts.
Import Adm Sql.

Lemma bind_returns {A B} (c : M A) (k : A -> M B) st a st' :
  c st = Returns (a, st') -> bind c k st = k a st'.
Proof. intros H. unfold bind. by rewrite H. Qed.

Lemma bind_raises {A B} (c : M A) (k : A -> M B) st e :
  c st = Raises e -> bind c k st = Raises e.
Proof. intros H. unfold bind. by rewrite H. Qed.

Lemma bind_inv {A B} (c : M A) (k : A -> M B) st b st'' :
  bind c k st = Returns (b, st'') ->
  ∃ a st', c st = Returns (a, st') ∧ k a st' = Returns (b, st'').
Proof.
  unfold bind. destruct (c st) as [[a st']|e]; [|done]. intros H. eauto.
Qed.

(** [_var_name] records the name and returns: it raises nothing. *)
Lemma var_name_returns prefix name define st :
  ∃ st', var_name prefix name define st
         = Returns (prefix +:+ Str.casefold name, st').
Proof. unfold var_name. eauto. Qed.


Lemma no_undefined_ret {A} (a : A) : no_undefined_error (ret a).
Proof. by intros st u. Qed.

Lemma no_undefined_bind {A B} (c : M A) (k : A -> M B) :
  no_undefined_error c -> (∀ a, no_undefined_error (k a)) ->
  no_undefined_error (bind c k).
Proof.
  intros Hc Hk st u. unfold bind.
  destruct (c st) as [[a st']|e] eqn:E; [apply Hk|].
  intros [= ->]. by apply (Hc st u).
Qed.

Lemma no_undefined_var_name prefix name define :
  no_undefined_error (var_name prefix name define).
Proof. by intros st u. Qed.

Lemma no_undefined_unbound {A} name : no_undefined_error (@unbound A name).
Proof. by intros st u. Qed.

Lemma no_undefined_lift {A} (r : result A) :
  (∀ u, r ≠ Raises (UndefinedVariables u)) -> no_undefined_error (lift r).
Proof.
  intros Hr st u. unfold lift. destruct r as [a|e]; [done|].
  intros [= ->]. by apply (Hr u).
Qed.

Lemma field_no_undefined key v u :
  Cs.field key v ≠ Raises (UndefinedVariables u).
Proof. by destruct v. Qed.

Lemma get_lname_no_undefined c u :
  Cs.get_lname c ≠ Raises (UndefinedVariables u).
Proof. apply field_no_undefined. Qed.

Lemma make_ari_no_undefined self c o u :
  make_ari self c o ≠ Raises (UndefinedVariables u).
Proof.
  unfold make_ari, Cu.make_ari_name, Cu.make_ari_name_from_str, Cs.get_sname.
  by destruct (Cs.sname (Cs.collections c)).
Qed.

Lemma int16_go_no_undefined s acc u :
  Fmt.int16_go acc s ≠ Raises (UndefinedVariables u).
Proof.
  revert acc. induction s as [|c s IH]; intros acc; simpl; [done|].
  destruct (Fmt.hex_digit c); [apply IH|done].
Qed.

Lemma obj_template_no_undefined self c u :
  create_insert_obj_metadata_template self c ≠ Raises (UndefinedVariables u).
Proof.
  unfold create_insert_obj_metadata_template, Fmt.int16.
  destruct (Cs.ari_type_enum c) as [|a s] eqn:E; [done|].
  pose proof (int16_go_no_undefined (String a s) 0 u) as H.
  destruct (Fmt.int16_go 0 (String a s)) as [n|e]; [done|].
  intros [= ->]. by apply H.
Qed.

Lemma no_undefined_for_each {A} (body : A -> M (list string)) objs lines :
  (∀ o, no_undefined_error (body o)) ->
  no_undefined_error (for_each body objs lines).
Proof.
  intros Hbody. revert lines.
  induction objs as [|o objs IH]; intros lines; cbn [for_each].
  - apply no_undefined_ret.
  - apply no_undefined_bind; [apply Hbody|]. intros more. apply IH.
Qed.

Lemma no_undefined_make_sql_ids self ari define :
  no_undefined_error (make_sql_ids self ari define).
Proof.
  unfold make_sql_ids.
  repeat (apply no_undefined_bind; [apply no_undefined_var_name|intros ?]).
  apply no_undefined_ret.
Qed.

Lemma no_undefined_const_statements self coll tpl obj :
  no_undefined_error (const_statements self coll tpl obj).
Proof.
  unfold const_statements.
  apply no_undefined_bind;
    [apply no_undefined_lift; intros u; apply make_ari_no_undefined|].
  intros ari. apply no_undefined_bind; [apply no_undefined_make_sql_ids|].
  intros [[? ?] ?]. apply no_undefined_ret.
Qed.

Lemma no_undefined_gen_const self objs coll :
  no_undefined_error (write_gen_const_functions self objs coll).
Proof.
  unfold write_gen_const_functions.
  apply no_undefined_bind;
    [apply no_undefined_lift; intros u; apply obj_template_no_undefined|].
  intros tpl. apply no_undefined_for_each. intros o.
  apply no_undefined_const_statements.
Qed.

Lemma no_undefined_mac_statements self o :
  no_undefined_error (mac_statements self o).
Proof.
  unfold mac_statements.
  apply no_undefined_bind; [apply no_undefined_unbound|]. intros m.
  apply no_undefined_bind;
    [apply no_undefined_lift; intros u; apply make_ari_no_undefined|].
  intros ari. apply no_undefined_bind; [apply no_undefined_make_sql_ids|].
  intros [[? ?] ?]. apply no_undefined_ret.
Qed.

Lemma no_undefined_ac_id self c :
  no_undefined_error (create_insert_ac_id_template self c).
Proof.
  unfold create_insert_ac_id_template.
  apply no_undefined_bind;
    [apply no_undefined_lift; intros u; apply get_lname_no_undefined|].
  intros l. apply no_undefined_bind; [apply no_undefined_var_name|].
  intros ?. apply no_undefined_ret.
Qed.

Lemma no_undefined_parmspec self :
  no_undefined_error (create_insert_formal_parmspec_templates self).
Proof.
  unfold create_insert_formal_parmspec_templates.
  apply no_undefined_bind; [apply no_undefined_var_name|].
  intros ?. apply no_undefined_ret.
Qed.

Lemma no_undefined_obj_template self c :
  no_undefined_error (lift (create_insert_obj_metadata_template self c)).
Proof. apply no_undefined_lift. intros u. apply obj_template_no_undefined. Qed.

Create HintDb no_undef.
Hint Resolve @no_undefined_ret @no_undefined_var_name @no_undefined_for_each
  no_undefined_gen_const no_undefined_mac_statements no_undefined_ac_id
  no_undefined_parmspec no_undefined_obj_template : no_undef.





Lemma body_pre_state self st lines st' :
  body_pre self st = Returns (lines, st') -> st' = st.
Proof.
  unfold body_pre. destruct (negb _); [done|]. by intros [= _ ->].
Qed.

End SqlFacts.

(** ** The claims about the SQL writer *)

Section SqlClaims.
Import Adm Sql.

Lemma write_unfold self st :
  write self st
  = match write_body self st with
    | Returns (body, st') =>
        match body_pre self st' with
        | Returns (pre, st'') =>
            Returns ((write_setup self ++ pre) ++ body ++ body_post self, st'')
        | Raises e => Raises e
        end
    | Raises e => Raises e
    end.
Proof.
  unfold write, bind. destruct (write_body self st) as [[body st']|e]; [|done].
  by destruct (body_pre self st') as [[pre st'']|e].
Qed.




(** The macro block. *)
Lemma write_mac_functions_raises self st :
  mac (adm self) ≠ [] ->
  write_mac_functions self st = Raises (NameError "m").
Proof.
  intros Hmac. unfold write_mac_functions.
  destruct (mac (adm self)) as [|o objs]; [done|]. reflexivity.
Qed.

(** C10.  When the list of macros of the ADM is not empty,
    [write_mac_functions] raises [NameError] for the name [m] on its
    first macro, before any statement of a macro is produced; [write]
    never returns then, and it raises that [NameError] whenever the nine
    blocks before the macros are assembled.  So the SQL script is
    generated only for an ADM without macros. *)
Theorem macros_raise_name_error (self : Writer) (st : state) :
  mac (adm self) ≠ [] ->
  (∀ st1, write_mac_functions self st1 = Raises (NameError "m")) ∧
  (∀ lines st', write self st ≠ Returns (lines, st')) ∧
  (∀ body st',
     write_body_before_mac self st = Returns (body, st') ->
     write self st = Raises (NameError "m")).
Proof.
  intros Hmac.
  assert (∀ st1, write_mac_functions self st1 = Raises (NameError "m")) as Hraise
    by (intros st1; by apply write_mac_functions_raises).
  split; [exact Hraise|].
  assert (Hbody : write_body self st
    = match write_body_before_mac self st with
      | Returns (body, st') => Raises (NameError "m")
      | Raises e => Raises e
      end).
  { unfold write_body, bind.
    destruct (write_body_before_mac self st) as [[body st']|e]; [|done].
    by rewrite Hraise. }
  split.
  - intros lines st'. rewrite write_unfold, Hbody.
    by destruct (write_body_before_mac self st) as [[body st1]|e].
  - intros body st' Hbefore. by rewrite write_unfold, Hbody, Hbefore.
Qed.

(** C10, on the ADM of the scenario with one macro. *)
Lemma macros_raise_name_error_witness :
  mac (adm (Samples.sql_writer Samples.test_adm_with_macro).1) ≠ [] ∧
  write (Samples.sql_writer Samples.test_adm_with_macro).1
    (Samples.sql_writer Samples.test_adm_with_macro).2
  = Raises (NameError "m").
Proof.
  assert (mac (adm (Samples.sql_writer Samples.test_adm_with_macro).1) ≠ [])
    as Hmac by done.
  split; [exact Hmac|].
  destruct (write_body_before_mac
              (Samples.sql_writer Samples.test_adm_with_macro).1
              (Samples.sql_writer Samples.test_adm_with_macro).2)
    as [[body st']|e] eqn:E; [|by vm_compute in E].
  exact (proj2 (proj2 (macros_raise_name_error
    (Samples.sql_writer Samples.test_adm_with_macro).1
    (Samples.sql_writer Samples.test_adm_with_macro).2 Hmac)) body st' E).
Defined.

End SqlClaims.

(** ** The shared header writer *)

Section GenHFacts.
Import Adm GenH.

Lemma ends_nl_app (a b : string) :
  Str.ends_nl b = true -> Str.ends_nl (a +:+ b) = true.
Proof.
  intros Hb. induction a as [|c a IH]; [done|].
  rewrite app_cons. cbn [Str.ends_nl]. rewrite IH.
  destruct (a +:+ b) eqn:E; [|done].
  destruct a; [|done]. rewrite app_empty_l in E. by subst b.
Qed.

Lemma readlines_nonempty (s : string) : s ≠ "" -> Str.readlines s ≠ [].
Proof.
  destruct s as [|c s]; [done|]. intros _. cbn [Str.readlines].
  destruct (Ascii.eqb c Str.newline); [done|].
  by destruct (Str.readlines s).
Qed.

(** The lines of a text that ends a line, followed by more text. *)
Lemma readlines_app (a b : string) :
  Str.ends_nl a = true ->
  Str.readlines (a +:+ b) = Str.readlines a ++ Str.readlines b.
Proof.
  induction a as [|c a IH]; [done|].
  intros Ha. rewrite app_cons. destruct a as [|d a].
  - cbn [Str.ends_nl] in Ha. rewrite app_empty_l.
    cbn [Str.readlines]. by rewrite Ha.
  - assert (Str.ends_nl (String d a) = true) as Ha' by exact Ha.
    specialize (IH Ha').
    cbn [Str.readlines] in *. destruct (Ascii.eqb c Str.newline).
    + by rewrite IH.
    + rewrite IH.
      pose proof (readlines_nonempty (String d a)) as Hne.
      cbn [Str.readlines] in Hne.
      destruct (if Ascii.eqb d Str.newline then _ else _) as [|l ls];
        [by exfalso; apply Hne|done].
Qed.

(** A complete line that follows complete lines is a line of the text. *)
Lemma line_in_readlines (a l b : string) :
  (a = "" ∨ Str.ends_nl a = true) -> Str.is_line l = true ->
  l ∈ Str.readlines (a +:+ l +:+ b).
Proof.
  intros [->|Ha] Hl.
  - rewrite app_empty_l, readlines_line by done. by left.
  - rewrite readlines_app, readlines_line by done.
    apply elem_of_app. right. by left.
Qed.

Lemma format_table_entry_returns centered name desc ttype value :
  ∃ r, format_table_entry centered name desc ttype value = Returns r ∧
       Str.ends_nl r = true.
Proof.
  unfold format_table_entry. destruct (Str.is_empty value).
  - eexists. split; [reflexivity|]. by apply ends_nl_app.
  - eexists. split; [reflexivity|]. by apply ends_nl_app.
Qed.

Lemma table_header_returns title value_present :
  ∃ r, write_definition_table_header title value_present = Returns r.
Proof.
  unfold write_definition_table_header.
  destruct (format_table_entry_returns true "NAME" (Some "DESCRIPTION") "TYPE"
              (if value_present then "VALUE" else "")) as (r & -> & _).
  eauto.
Qed.

Lemma then_write_inv sofar more text :
  then_write sofar more = Returns text ->
  ∃ out s, sofar = Returns out ∧ more = Returns s ∧ text = out +:+ s.
Proof.
  unfold then_write. destruct sofar as [out|e]; [|done].
  destruct more as [s|e]; [|done]. intros [= <-]. eauto.
Qed.

(** The block of the constants of the scenario. *)
Lemma scenario_const_definitions adm desc today :
  const adm = [Samples.my_size desc] ->
  (norm_namespace adm = "test_adm" ∨ norm_namespace adm = "test/adm") ->
  ∃ table,
    Str.ends_nl table = true ∧
    write_const_definitions {| GenH.adm := adm; GenH.today := today |}
    = Returns (table +:+ ("#define TEST_ADM_CNST_MYSIZE 0x03" +:+ Str.nl)
               +:+ Str.nl).
Proof.
  intros Hc Hns. unfold write_const_definitions, write_definitions.
  cbn [GenH.adm]. rewrite Hc. cbn [definitions_loop GenH.adm].
  assert (Cu.make_ari_name (norm_namespace adm) Cs.CONST (Samples.my_size desc)
          = Returns "TEST_ADM_CNST_MYSIZE") as ->
    by (by destruct Hns as [-> | ->]).
  destruct (format_table_entry_returns false (name (Samples.my_size desc))
              (description (Samples.my_size desc)) (type (Samples.my_size desc))
              (value (Samples.my_size desc))) as (r & -> & Hr).
  destruct (table_header_returns
              (Str.upper (norm_namespace adm) +:+ " CONSTANT DEFINITIONS") true)
    as [h ->].
  exists (h +:+ r +:+ " */" +:+ Str.nl). split.
  - by do 2 apply ends_nl_app.
  - f_equal. rewrite !app_empty_l, !app_assoc_str. reflexivity.
Qed.

(** [write] is the preamble, the nine blocks in the order of
    [definition_blocks], and the epilogue. *)
Lemma write_blocks self text :
  write self = Returns text ->
  ∃ blocks,
    Forall2 (λ kb b, kb.2 = Returns b) (definition_blocks self) blocks ∧
    text = preamble self +:+ Str.join blocks +:+ epilogue self.
Proof.
  unfold write. intros H.
  apply then_write_inv in H as (o12 & s12 & H & [= <-] & ->).
  apply then_write_inv in H as (o11 & s11 & H & [= <-] & ->).
  apply then_write_inv in H as (o10 & s10 & H & [= <-] & ->).
  apply then_write_inv in H as (o9 & b9 & H & H9 & ->).
  apply then_write_inv in H as (o8 & b8 & H & H8 & ->).
  apply then_write_inv in H as (o7 & b7 & H & H7 & ->).
  apply then_write_inv in H as (o6 & b6 & H & H6 & ->).
  apply then_write_inv in H as (o5 & b5 & H & H5 & ->).
  apply then_write_inv in H as (o4 & b4 & H & H4 & ->).
  apply then_write_inv in H as (o3 & b3 & H & H3 & ->).
  apply then_write_inv in H as (o2 & b2 & H & H2 & ->).
  apply then_write_inv in H as (o1 & b1 & [= <-] & H1 & ->).
  exists [b1; b2; b3; b4; b5; b6; b7; b8; b9]. split.
  - unfold definition_blocks. repeat (constructor; [done|]). constructor.
  - unfold preamble, epilogue. cbn [Str.join].
    by rewrite app_empty_r, !app_assoc_str.
Qed.


End GenHFacts.

Section GenHOrder.
Import Adm GenH.

(** The loop of a block returns when the kind has a short name: a row is
    always made. *)
Lemma definitions_loop_returns self kind row comment objs table defines :
  (∀ o, ∃ r, row o = Returns r) ->
  (∃ s, Cs.get_sname kind = Returns s) ->
  ∃ t d, definitions_loop self kind row comment objs table defines
         = Returns (t, d).
Proof.
  intros Hrow [s Hs]. revert table defines.
  induction objs as [|o objs IH]; intros table defines;
    cbn [definitions_loop]; [by eauto|].
  unfold Cu.make_ari_name, Cu.make_ari_name_from_str. rewrite Hs.
  destruct (Hrow o) as [r ->]. apply IH.
Qed.

Lemma write_definitions_returns self kind row comment objs title vp :
  (∀ o, ∃ r, row o = Returns r) ->
  (∃ s, Cs.get_sname kind = Returns s) ->
  ∃ b, write_definitions self kind row comment objs title vp = Returns b.
Proof.
  intros Hrow Hs. unfold write_definitions.
  destruct (definitions_loop_returns self kind row comment objs "" "" Hrow Hs)
    as (t & d & ->).
  destruct (table_header_returns
              (Str.upper (norm_namespace (adm self)) +:+ title) vp) as [h ->].
  by eauto.
Qed.

Lemma format_table_entry_total centered name desc ttype value :
  ∃ r, format_table_entry centered name desc ttype value = Returns r.
Proof.
  destruct (format_table_entry_returns centered name desc ttype value)
    as (r & -> & _). by eexists.
Qed.

(** The shared header is written for every ADM. *)
Lemma write_returns self : ∃ text, write self = Returns text.
Proof.
  unfold write, write_metadata_definitions, write_edd_definitions,
    write_variable_definitions, write_rptt_definitions,
    write_tblt_definitions, write_ctrl_definitions, write_const_definitions,
    write_macro_definitions, write_op_definitions.
  repeat match goal with
  | |- context [write_definitions ?s ?k ?r ?c ?o ?t ?v] =>
      let b := fresh "b" in let E := fresh "E" in
      destruct (write_definitions_returns s k r c o t v) as [b E];
      [intros ?; apply format_table_entry_total|by eexists|];
      rewrite E; clear E
  end.
  cbn [then_write]. by eauto.
Qed.



(** The header of the scenario has the line of the constant. *)
Lemma write_scenario_define adm desc today :
  const adm = [Samples.my_size desc] ->
  (norm_namespace adm = "test_adm" ∨ norm_namespace adm = "test/adm") ->
  ∃ text,
    write {| GenH.adm := adm; GenH.today := today |} = Returns text ∧
    define_line "TEST_ADM_CNST_MYSIZE" "0x03" ∈ Str.readlines text.
Proof.
  intros Hconst Hns.
  destruct (write_returns {| GenH.adm := adm; GenH.today := today |})
    as [text Htext].
  exists text. split; [done|].
  apply write_blocks in Htext as (blocks & H & ->).
  unfold definition_blocks in H.
  apply Forall2_cons_inv_l in H as (b1 & ? & _ & H & ->).
  apply Forall2_cons_inv_l in H as (b2 & ? & _ & H & ->).
  apply Forall2_cons_inv_l in H as (b3 & ? & _ & H & ->).
  apply Forall2_cons_inv_l in H as (b4 & ? & _ & H & ->).
  apply Forall2_cons_inv_l in H as (b5 & ? & _ & H & ->).
  apply Forall2_cons_inv_l in H as (b6 & ? & _ & H & ->).
  apply Forall2_cons_inv_l in H as (b7 & ? & Hb & H & ->).
  apply Forall2_cons_inv_l in H as (b8 & ? & _ & H & ->).
  apply Forall2_cons_inv_l in H as (b9 & ? & _ & H & ->).
  apply Forall2_nil_inv_l in H as ->. cbn [snd] in Hb.
  destruct (scenario_const_definitions adm desc today Hconst Hns)
    as (table & Htable & Hblock).
  rewrite Hblock in Hb. injection Hb as <-.
  cbn [Str.join].
  set (p := preamble _). set (e := epilogue _).
  replace (p +:+ (b1 +:+ b2 +:+ b3 +:+ b4 +:+ b5 +:+ b6
                  +:+ (table +:+ ("#define TEST_ADM_CNST_MYSIZE 0x03" +:+ Str.nl)
                       +:+ Str.nl) +:+ b8 +:+ b9 +:+ "") +:+ e)
    with ((p +:+ b1 +:+ b2 +:+ b3 +:+ b4 +:+ b5 +:+ b6 +:+ table)
          +:+ define_line "TEST_ADM_CNST_MYSIZE" "0x03"
          +:+ (Str.nl +:+ b8 +:+ b9 +:+ "" +:+ e))
    by (by rewrite !app_assoc_str).
  apply line_in_readlines; [|done].
  right. by do 7 apply ends_nl_app.
Qed.

End GenHOrder.

Section InitOrder.
Import Adm Campch.




End InitOrder.

(** ** The SQL writer: the blocks of the script *)

Section SqlBlocks.
Import Adm Sql.

Lemma for_each_runs {A} (body : A -> M (list string)) objs lines st out st' :
  for_each body objs lines st = Returns (out, st') <->
  ∃ chunks, runs body objs st chunks st' ∧ out = lines ++ concat chunks.
Proof.
  revert lines st. induction objs as [|o objs IH]; intros lines st;
    cbn [for_each].
  - split.
    + intros [= <- <-]. exists []. split; [constructor|].
      by rewrite app_nil_r.
    + intros (chunks & Hruns & ->). inversion Hruns; subst.
      unfold ret. by rewrite app_nil_r.
  - split.
    + intros H. apply bind_inv in H as (more & st1 & Hbody & H).
      apply IH in H as (chunks & Hruns & ->).
      exists (more :: chunks). split; [by econstructor|].
      cbn [concat]. by rewrite app_assoc.
    + intros (chunks & Hruns & ->).
      inversion Hruns as [|? ? ? more st1 rest ? Hbody Hrest]; subst.
      rewrite (bind_returns _ _ _ _ _ Hbody). apply IH.
      exists rest. split; [done|]. cbn [concat]. by rewrite app_assoc.
Qed.

Lemma runs_length {A} (body : A -> M (list string)) objs st chunks st' :
  runs body objs st chunks st' -> length chunks = length objs.
Proof. induction 1; cbn; congruence. Qed.

Lemma runs_Forall {A} (body : A -> M (list string)) (Q : string -> Prop)
    objs st chunks st' :
  (∀ o s ls s', body o s = Returns (ls, s') -> Forall Q ls) ->
  runs body objs st chunks st' -> Forall Q (concat chunks).
Proof.
  intros Hbody. induction 1 as [|o objs st more st1 chunks st' Ho _ IH];
    cbn [concat]; [constructor|].
  apply Forall_app. split; [by eapply Hbody|done].
Qed.

(** Inverting a sequence of [bind]s in a hypothesis. *)
Ltac inv_binds H :=
  repeat
    (let a := fresh "a" in let s := fresh "s" in let Hc := fresh "Hc" in
     apply bind_inv in H as (a & s & Hc & H)).

Lemma strip_prefix_app (p a b : string) :
  Str.strip_prefix (p +:+ a) (p +:+ b) = Str.strip_prefix a b.
Proof.
  induction p as [|c p IH]; [done|].
  rewrite !app_cons. cbn [Str.strip_prefix]. by rewrite Ascii.eqb_refl.
Qed.

Lemma strip_prefix_self (p rest : string) :
  Str.strip_prefix p (p +:+ rest) = Some rest.
Proof.
  induction p as [|c p IH]; [done|].
  rewrite app_cons. cbn [Str.strip_prefix]. by rewrite Ascii.eqb_refl.
Qed.

(** Calls for an object of another id, and for the object itself. *)
Lemma is_const_call_other prefix a b rest :
  Str.strip_prefix (a +:+ ",") (b +:+ rest) = None ->
  is_const_call (prefix +:+ a)
    ("CALL SP__insert_const_actual_definition(" +:+ (prefix +:+ b) +:+ rest)
  = false.
Proof.
  intros H. unfold is_const_call, Str.startswith.
  rewrite (strip_prefix_app "CALL SP__insert_const_actual_definition(").
  by rewrite !app_assoc_str, strip_prefix_app, H.
Qed.

Lemma is_const_call_same prefix a rest :
  is_const_call (prefix +:+ a)
    ("CALL SP__insert_const_actual_definition(" +:+ (prefix +:+ a)
     +:+ "," +:+ rest)
  = true.
Proof.
  unfold is_const_call, Str.startswith.
  rewrite (strip_prefix_app "CALL SP__insert_const_actual_definition(").
  by rewrite <- app_assoc_str, strip_prefix_self.
Qed.

(** The statements of a constant or of a metadata item. *)
Lemma const_statements_inv self coll tpl obj st ls st' :
  const_statements self coll tpl obj st = Returns (ls, st') ->
  ∃ ari,
    make_ari self coll obj = Returns ari ∧
    ls = [""; tpl (name obj) (var_prefix self +:+ Str.casefold ari);
          "CALL SP__insert_const_actual_definition("
          +:+ (var_prefix self +:+ Str.casefold ari) +:+ ", '"
          +:+ Fmt.str_opt (escape_description_sql (description obj))
          +:+ "', '" +:+ type obj +:+ "', '" +:+ value obj +:+ "', "
          +:+ (var_prefix self +:+ Str.casefold (ari +:+ "_aid")) +:+ ");"].
Proof.
  unfold const_statements. intros H.
  apply bind_inv in H as (ari & s1 & Hari & H).
  unfold lift in Hari. destruct (make_ari self coll obj) as [ari'|e]; [|done].
  injection Hari as -> ->.
  exists ari. split; [done|].
  unfold make_sql_ids, var_name, bind, ret in H. by injection H as <- _.
Qed.

Lemma strip_prefix_app_l (p q s : string) :
  Str.strip_prefix p s = None -> Str.strip_prefix (p +:+ q) s = None.
Proof.
  revert s. induction p as [|c p IH]; intros s; [done|].
  rewrite app_cons. destruct s as [|d s]; [done|]. cbn [Str.strip_prefix].
  destruct (Ascii.eqb c d); [apply IH|done].
Qed.

(** A line that is no call of [SP__insert_const_actual_definition] is no
    call for any constant. *)
Lemma other_statement cid line :
  Str.startswith "CALL SP__insert_const_actual_definition(" line = false ->
  is_const_call cid line = false.
Proof.
  unfold is_const_call, Str.startswith. intros H.
  rewrite strip_prefix_app_l; [done|].
  by destruct (Str.strip_prefix _ line).
Qed.

Lemma filter_none {A} (f : A -> bool) (l : list A) :
  Forall (λ x, f x = false) l -> List.filter f l = [].
Proof. induction 1 as [|x l Hx _ IH]; cbn; [done|]. by rewrite Hx. Qed.

Lemma filter_cons_false {A} (f : A -> bool) x (l : list A) :
  f x = false -> List.filter f (x :: l) = List.filter f l.
Proof. intros H. cbn. by rewrite H. Qed.

Lemma filter_cons_true {A} (f : A -> bool) x (l : list A) :
  f x = true -> List.filter f (x :: l) = x :: List.filter f l.
Proof. intros H. cbn. by rewrite H. Qed.

Lemma for_each_Forall {A} (body : A -> M (list string)) (Q : string -> Prop)
    objs lines st out st' :
  (∀ o s ls s', body o s = Returns (ls, s') -> Forall Q ls) ->
  Forall Q lines ->
  for_each body objs lines st = Returns (out, st') -> Forall Q out.
Proof.
  intros Hbody Hlines H. apply for_each_runs in H as (chunks & Hruns & ->).
  apply Forall_app. split; [done|]. by eapply runs_Forall.
Qed.

Lemma template_other self coll tpl cid n i :
  create_insert_obj_metadata_template self coll = Returns tpl ->
  is_const_call cid (tpl n i) = false.
Proof.
  unfold create_insert_obj_metadata_template.
  destruct (Fmt.int16 _) as [k|e]; [|done]. intros [= <-].
  by apply other_statement.
Qed.

Ltac other_lines :=
  repeat (first [apply Forall_nil_2 | apply Forall_cons_2;
                 [by apply other_statement|]]).


Lemma map_chars_app f (a b : string) :
  Str.map_chars f (a +:+ b) = Str.map_chars f a +:+ Str.map_chars f b.
Proof.
  induction a as [|c a IH]; [done|].
  rewrite app_cons. cbn [Str.map_chars]. by rewrite IH, app_cons.
Qed.

Section NoCall.
Context (self : Writer) (cid : string).
Hypothesis Hstmts : statements_no_const_call cid (per_object self).

Lemma write_edd_other st ls st' :
  write_edd_functions self st = Returns (ls, st') ->
  Forall (λ line, is_const_call cid line = false) ls.
Proof.
  unfold write_edd_functions, create_insert_formal_parmspec_templates.
  intros H. inv_binds H. eapply for_each_Forall; [| |exact H].
  - apply Hstmts. set_solver.
  - other_lines.
Qed.

Lemma write_oper_other st ls st' :
  write_oper_functions self st = Returns (ls, st') ->
  Forall (λ line, is_const_call cid line = false) ls.
Proof.
  unfold write_oper_functions.
  intros H. inv_binds H. eapply for_each_Forall; [| |exact H].
  - apply Hstmts. set_solver.
  - other_lines.
Qed.

Lemma write_var_other st ls st' :
  write_var_functions self st = Returns (ls, st') ->
  Forall (λ line, is_const_call cid line = false) ls.
Proof.
  unfold write_var_functions, create_insert_ac_id_template.
  intros H. inv_binds H. eapply for_each_Forall; [| |exact H].
  - apply Hstmts. set_solver.
  - other_lines.
Qed.

Lemma write_tblt_other st ls st' :
  write_tblt_functions self st = Returns (ls, st') ->
  Forall (λ line, is_const_call cid line = false) ls.
Proof.
  unfold write_tblt_functions.
  intros H. inv_binds H. eapply for_each_Forall; [| |exact H].
  - apply Hstmts. set_solver.
  - other_lines.
Qed.

Lemma write_rptt_other st ls st' :
  write_rptt_functions self st = Returns (ls, st') ->
  Forall (λ line, is_const_call cid line = false) ls.
Proof.
  unfold write_rptt_functions, create_insert_ac_id_template.
  intros H. inv_binds H. eapply for_each_Forall; [| |exact H].
  - apply Hstmts. set_solver.
  - other_lines.
Qed.

Lemma write_ctrl_other st ls st' :
  write_ctrl_functions self st = Returns (ls, st') ->
  Forall (λ line, is_const_call cid line = false) ls.
Proof.
  unfold write_ctrl_functions, create_insert_formal_parmspec_templates.
  intros H. inv_binds H. eapply for_each_Forall; [| |exact H].
  - apply Hstmts. set_solver.
  - other_lines.
Qed.

End NoCall.

Lemma write_mac_other self cid st ls st' :
  write_mac_functions self st = Returns (ls, st') ->
  Forall (λ line, is_const_call cid line = false) ls.
Proof.
  unfold write_mac_functions, create_insert_formal_parmspec_templates,
    create_insert_ac_id_template.
  intros H. inv_binds H. eapply for_each_Forall; [| |exact H].
  - intros o s' ls' s'' Hm. by apply bind_inv in Hm as (? & ? & ? & _).
  - other_lines.
Qed.

Lemma write_metadata_other self cid st ls st' :
  write_metadata_function self st = Returns (ls, st') ->
  Forall (λ line, is_const_call cid line = false) ls.
Proof.
  unfold write_metadata_function, var_name, bind, ret.
  intros [= <- _]. other_lines.
Qed.

Lemma write_setup_other self cid :
  Forall (λ line, is_const_call cid line = false) (write_setup self).
Proof. unfold write_setup. other_lines. Qed.

Lemma body_post_other self cid :
  Forall (λ line, is_const_call cid line = false) (body_post self).
Proof. unfold body_post. case_bool_decide; other_lines. Qed.

Lemma body_pre_other self cid st ls st' :
  body_pre self st = Returns (ls, st') ->
  Forall (λ line, is_const_call cid line = false) ls.
Proof.
  unfold body_pre. case_bool_decide; [|done]. cbn [negb].
  intros [= <- _]. repeat case_bool_decide.
  - other_lines.
  - do 3 (apply Forall_cons_2; [by apply other_statement|]).
    apply Forall_app. split; [|other_lines].
    apply Forall_map, Forall_true. intros name. by apply other_statement.
  - other_lines.
Qed.

(** The scenario: the namespace [test/adm], whatever its normalised
    spelling. *)
Lemma scenario_const_ari self desc :
  (norm_namespace (adm self) = "test_adm"
   ∨ norm_namespace (adm self) = "test/adm") ->
  make_ari self Cs.CONST (Samples.my_size desc)
  = Returns "test_adm_cnst_mysize".
Proof. unfold make_ari. by intros [-> | ->]. Qed.

Lemma scenario_meta_ari self o ari :
  (norm_namespace (adm self) = "test_adm"
   ∨ norm_namespace (adm self) = "test/adm") ->
  make_ari self Cs.META o = Returns ari ->
  ari = "test_adm_meta_" +:+ Str.lower (Str.upper (name o)).
Proof.
  unfold make_ari, Cu.make_ari_name, Cu.make_ari_name_from_str.
  intros Hns. assert (Str.upper (Str.replace_char "/" "_"
    (norm_namespace (adm self))) = "TEST_ADM") as -> by by destruct Hns as [-> | ->].
  cbn [Cs.get_sname Cs.field Cs.collections Cs.sname].
  intros [= <-]. unfold Str.lower, Str.upper.
  by rewrite !map_chars_app.
Qed.

Lemma write_mdat_other self cid st ls st' :
  (norm_namespace (adm self) = "test_adm"
   ∨ norm_namespace (adm self) = "test/adm") ->
  cid = var_prefix self +:+ "test_adm_cnst_mysize" ->
  write_mdat_functions self st = Returns (ls, st') ->
  Forall (λ line, is_const_call cid line = false) ls.
Proof.
  intros Hns -> H. apply bind_inv in H as (more & s1 & H & Hret).
  injection Hret as <- _.
  apply bind_inv in H as (tpl' & s2 & Htpl & H).
  unfold lift in Htpl. destruct (create_insert_obj_metadata_template _ _)
    as [tpl|e] eqn:Etpl; [|done]. injection Htpl as -> ->.
  do 3 (apply Forall_cons_2; [by apply other_statement|]).
  eapply for_each_Forall; [|apply Forall_nil_2|exact H].
  intros o s' ls' s'' Ho.
  apply const_statements_inv in Ho as (ari & Hari & ->).
  apply (scenario_meta_ari _ _ _ Hns) in Hari as ->.
  apply Forall_cons_2; [by apply other_statement|].
  apply Forall_cons_2; [by eapply template_other|].
  apply Forall_cons_2; [|apply Forall_nil_2].
  unfold Str.casefold, Str.lower at 1. rewrite map_chars_app.
  apply is_const_call_other. by rewrite !app_assoc_str.
Qed.

Lemma write_const_scenario self desc st ls st' :
  (norm_namespace (adm self) = "test_adm"
   ∨ norm_namespace (adm self) = "test/adm") ->
  const (adm self) = [Samples.my_size desc] ->
  write_const_functions self st = Returns (ls, st') ->
  List.filter (is_const_call (var_prefix self +:+ "test_adm_cnst_mysize")) ls
  = ["CALL SP__insert_const_actual_definition("
     +:+ (var_prefix self +:+ "test_adm_cnst_mysize") +:+ ", '"
     +:+ Fmt.str_opt (escape_description_sql desc) +:+ "', 'UINT', '4', "
     +:+ (var_prefix self +:+ "test_adm_cnst_mysize_aid") +:+ ");"].
Proof.
  intros Hns Hconst H. apply bind_inv in H as (more & s1 & H & Hret).
  injection Hret as <- _.
  apply bind_inv in H as (tpl' & s2 & Htpl & H).
  unfold lift in Htpl. destruct (create_insert_obj_metadata_template _ _)
    as [tpl|e] eqn:Etpl; [|done]. injection Htpl as -> ->.
  rewrite Hconst in H. apply bind_inv in H as (ls & s3 & Hobj & Hret).
  injection Hret as <- _.
  apply const_statements_inv in Hobj as (ari & Hari & ->).
  rewrite (scenario_const_ari _ _ Hns) in Hari. injection Hari as <-.
  do 4 (rewrite filter_cons_false by by apply other_statement).
  rewrite filter_cons_false by by eapply template_other.
  change (Str.casefold "test_adm_cnst_mysize") with "test_adm_cnst_mysize".
  change (Str.casefold ("test_adm_cnst_mysize" +:+ "_aid"))
    with "test_adm_cnst_mysize_aid".
  rewrite filter_cons_true; [done|].
  apply (is_const_call_same (var_prefix self) "test_adm_cnst_mysize").
Qed.

Lemma in_sequence_cons m methods st b s1 blocks s2 :
  m st = Returns (b, s1) ->
  in_sequence methods s1 = Returns (blocks, s2) ->
  in_sequence (m :: methods) st = Returns (b :: blocks, s2).
Proof.
  intros Hm Hms. cbn [in_sequence]. rewrite (bind_returns _ _ _ _ _ Hm).
  by rewrite (bind_returns _ _ _ _ _ Hms).
Qed.

(** [write] is the setup, the declarations, the call for the namespace,
    the nine blocks in the order of [kind_blocks], and the end. *)
Lemma write_in_sequence self st lines st' :
  write self st = Returns (lines, st') ->
  ∃ meta s1 blocks s2 pre,
    write_metadata_function self st = Returns (meta, s1) ∧
    in_sequence (map snd (kind_blocks self)) s1 = Returns (blocks, s2) ∧
    body_pre self s2 = Returns (pre, st') ∧
    lines = write_setup self ++ pre ++ meta ++ concat blocks
            ++ body_post self.
Proof.
  rewrite write_unfold.
  destruct (write_body self st) as [[body s2]|e] eqn:Hbody; [|done].
  destruct (body_pre self s2) as [[pre s3]|e] eqn:Hpre; [|done].
  intros [= <- <-].
  apply bind_inv in Hbody as (before & sa & Hbefore & Hbody).
  apply bind_inv in Hbody as (bmac & sb & Hmac & Hret).
  injection Hret as <- <-.
  apply bind_inv in Hbefore as (meta & s1 & Hmeta & H).
  apply bind_inv in H as (b1 & t1 & H1 & H).
  apply bind_inv in H as (b2 & t2 & H2 & H).
  apply bind_inv in H as (b3 & t3 & H3 & H).
  apply bind_inv in H as (b4 & t4 & H4 & H).
  apply bind_inv in H as (b5 & t5 & H5 & H).
  apply bind_inv in H as (b6 & t6 & H6 & H).
  apply bind_inv in H as (b7 & t7 & H7 & H).
  apply bind_inv in H as (b8 & t8 & H8 & H).
  injection H as <- <-.
  exists meta, s1, [b1; b2; b3; b4; b5; b6; b7; b8; bmac], sb, pre.
  split; [done|]. split; [|split; [done|]].
  - unfold kind_blocks. cbn [map snd].
    repeat (eapply in_sequence_cons; [eassumption|]). reflexivity.
  - cbn [concat]. rewrite app_nil_r, <- !app_assoc. done.
Qed.

Lemma in_sequence_Forall2 methods st blocks st' :
  in_sequence methods st = Returns (blocks, st') ->
  Forall2 (λ m b, ∃ s s', m s = Returns (b, s')) methods blocks.
Proof.
  revert st blocks. induction methods as [|m methods IH]; intros st blocks H.
  - injection H as <- _. constructor.
  - cbn [in_sequence] in H. apply bind_inv in H as (b & s1 & Hm & H).
    apply bind_inv in H as (bs & s2 & Hms & H). injection H as <- <-.
    constructor; [by eauto|by eapply IH].
Qed.













(** The script of the scenario has one call for the constant. *)
Lemma write_one_const_call self desc st lines st' :
  (norm_namespace (adm self) = "test_adm"
   ∨ norm_namespace (adm self) = "test/adm") ->
  const (adm self) = [Samples.my_size desc] ->
  statements_no_const_call (var_prefix self +:+ "test_adm_cnst_mysize")
    (per_object self) ->
  write self st = Returns (lines, st') ->
  List.filter (is_const_call (var_prefix self +:+ "test_adm_cnst_mysize")) lines
  = ["CALL SP__insert_const_actual_definition("
     +:+ (var_prefix self +:+ "test_adm_cnst_mysize") +:+ ", '"
     +:+ Fmt.str_opt (escape_description_sql desc) +:+ "', 'UINT', '4', "
     +:+ (var_prefix self +:+ "test_adm_cnst_mysize_aid") +:+ ");"].
Proof.
  intros Hns Hconst Hstmts H.
  apply write_in_sequence in H
    as (meta & s1 & blocks & s2 & pre & Hmeta & H & Hpre & ->).
  apply in_sequence_Forall2 in H. unfold kind_blocks in H.
  cbn [map snd] in H.
  do 9 (let Hb := fresh "Hb" in
        apply Forall2_cons_inv_l in H as (? & ? & (? & ? & Hb) & H & ->)).
  apply Forall2_nil_inv_l in H as ->.
  cbn [concat]. rewrite !List.filter_app.
  rewrite (filter_none _ _ (write_setup_other self _)),
    (filter_none _ _ (body_pre_other _ _ _ _ _ Hpre)),
    (filter_none _ _ (write_metadata_other _ _ _ _ _ Hmeta)),
    (filter_none _ _ (write_mdat_other _ _ _ _ _ Hns eq_refl Hb)),
    (filter_none _ _ (write_edd_other _ _ Hstmts _ _ _ Hb0)),
    (filter_none _ _ (write_oper_other _ _ Hstmts _ _ _ Hb1)),
    (filter_none _ _ (write_var_other _ _ Hstmts _ _ _ Hb2)),
    (filter_none _ _ (write_tblt_other _ _ Hstmts _ _ _ Hb3)),
    (filter_none _ _ (write_rptt_other _ _ Hstmts _ _ _ Hb4)),
    (filter_none _ _ (write_ctrl_other _ _ Hstmts _ _ _ Hb5)),
    (write_const_scenario _ _ _ _ _ Hns Hconst Hb6),
    (filter_none _ _ (write_mac_other _ _ _ _ _ Hb7)),
    (filter_none _ _ (body_post_other self _)).
  reflexivity.
Qed.

End SqlBlocks.

(** ** The claims about the writers *)

Section WriterClaims.
Import Adm.

Lemma sample_statements_no_const_call cid :
  Sql.statements_no_const_call cid Samples.sample_statements.
Proof.
  assert (∀ o st lines st',
            Samples.comment_only o st = Returns (lines, st') ->
            Forall (λ line, Sql.is_const_call cid line = false) lines) as Hc.
  { intros o st lines st' [= <- _].
    constructor; [by apply other_statement|constructor]. }
  assert (∀ o st lines st',
            Samples.use_item o st = Returns (lines, st') ->
            Forall (λ line, Sql.is_const_call cid line = false) lines) as Hu.
  { intros o st lines st' [= <- _].
    constructor; [by apply other_statement|constructor]. }
  intros body Hbody. cbn [Samples.sample_statements Sql.edd_statements
    Sql.oper_statements Sql.var_statements Sql.tblt_statements
    Sql.rptt_statements Sql.ctrl_statements] in Hbody.
  repeat (apply elem_of_cons in Hbody as [->|Hbody];
          [first [exact Hc|exact Hu]|]).
  by apply elem_of_nil in Hbody.
Qed.

(** C8.  The scenario: an ADM whose list of constants is the one constant
    [mySize] of type [UINT], value [4] and enumeration [3], in the
    namespace [test/adm].  The name of the constant in C is the upper-case
    join of the namespace, the short name [cnst] of the kind of the
    constants and the name, and [3] is written [0x03].  The shared header
    is written and has the line [#define TEST_ADM_CNST_MYSIZE 0x03].  In
    the SQL script, whenever it is generated, exactly one line calls
    [SP__insert_const_actual_definition] for that constant, and it carries
    the description (with its quotes escaped), the type and the value of
    the constant.  The statements of the kinds whose loops are parameters
    are taken not to make such a call for that constant. *)
Theorem constant_generation (adm : AdmFile) (today : string)
    (desc : option string) (sql : Sql.Writer) (st : Sql.state)
    (lines : list string) (st' : Sql.state) :
  const adm = [Samples.my_size desc] ->
  (norm_namespace adm = "test_adm" ∨ norm_namespace adm = "test/adm") ->
  Sql.adm sql = adm ->
  Sql.statements_no_const_call
    (Sql.var_prefix sql +:+ "test_adm_cnst_mysize") (Sql.per_object sql) ->
  Sql.write sql st = Returns (lines, st') ->
  Cs.get_sname Cs.CONST = Returns "cnst" ∧
  Cu.make_ari_name (norm_namespace adm) Cs.CONST (Samples.my_size desc)
  = Returns ("TEST_ADM" +:+ "_" +:+ Str.upper "cnst" +:+ "_" +:+ "MYSIZE") ∧
  Fmt.format_04x (enum (Samples.my_size desc)) = "0x03" ∧
  (∃ text,
     GenH.write {| GenH.adm := adm; GenH.today := today |} = Returns text ∧
     GenH.define_line "TEST_ADM_CNST_MYSIZE" "0x03" ∈ Str.readlines text) ∧
  List.filter
    (Sql.is_const_call (Sql.var_prefix sql +:+ "test_adm_cnst_mysize")) lines
  = ["CALL SP__insert_const_actual_definition("
     +:+ (Sql.var_prefix sql +:+ "test_adm_cnst_mysize") +:+ ", '"
     +:+ Fmt.str_opt (Sql.escape_description_sql desc) +:+ "', 'UINT', '4', "
     +:+ (Sql.var_prefix sql +:+ "test_adm_cnst_mysize_aid") +:+ ");"].
Proof.
  intros Hconst Hns Hadm Hstmts Hwrite.
  split; [done|]. split; [by destruct Hns as [-> | ->]|]. split; [done|].
  split; [exact (write_scenario_define adm desc today Hconst Hns)|].
  subst adm. by apply (write_one_const_call sql desc st lines st').
Qed.

(** C8, on the ADM of the scenario, with the writers of the dialect
    [pgsql]. *)
Lemma constant_generation_witness :
  ∃ text lines st',
    GenH.write (Samples.gen_h_writer Samples.test_adm) = Returns text ∧
    Sql.write (Samples.sql_writer Samples.test_adm).1
      (Samples.sql_writer Samples.test_adm).2 = Returns (lines, st') ∧
    "#define TEST_ADM_CNST_MYSIZE 0x03" +:+ Str.nl ∈ Str.readlines text ∧
    List.filter (Sql.is_const_call "test_adm_cnst_mysize") lines
    = ["CALL SP__insert_const_actual_definition(test_adm_cnst_mysize, "
       +:+ "'The size of my thing', 'UINT', '4', test_adm_cnst_mysize_aid);"].
Proof.
  destruct (Sql.write (Samples.sql_writer Samples.test_adm).1
              (Samples.sql_writer Samples.test_adm).2)
    as [[lines st']|e] eqn:E; [|by vm_compute in E].
  assert (const Samples.test_adm
          = [Samples.my_size (Some "The size of my thing")]) as Hconst
    by reflexivity.
  assert (norm_namespace Samples.test_adm = "test_adm"
          ∨ norm_namespace Samples.test_adm = "test/adm") as Hns
    by (left; reflexivity).
  assert (Sql.adm (Samples.sql_writer Samples.test_adm).1 = Samples.test_adm)
    as Hadm by reflexivity.
  destruct (constant_generation Samples.test_adm "2024-01-01"
              (Some "The size of my thing")
              (Samples.sql_writer Samples.test_adm).1
              (Samples.sql_writer Samples.test_adm).2 lines st'
              Hconst Hns Hadm (sample_statements_no_const_call _) E)
    as (_ & _ & _ & (text & Htext & Hline) & Hcall).
  exists text, lines, st'. split; [exact Htext|]. split; [reflexivity|].
  split; [exact Hline|exact Hcall].
Defined.




End WriterClaims.

(** ** The registry of the collections: looking a kind up by name *)

Section RegistryFacts.
Import Cs Campsettings.

Lemma name_get_coll_loop_skip name key items l s :
  field "lname" (lname (collections key)) = Returns l ->
  field "sname" (sname (collections key)) = Returns s ->
  Str.upper l ≠ Str.upper name -> Str.upper s ≠ Str.upper name ->
  name_get_coll_loop name (key :: items) = name_get_coll_loop name items.
Proof.
  intros Hl Hs Hnl Hns. cbn [name_get_coll_loop]. rewrite Hl, Hs.
  by rewrite !bool_decide_eq_false_2.
Qed.

(** X1.  [name_get_coll] finds each of the eleven kinds [CONST] to [META]
    by its short name and by its long name, in any case of the
    letters. *)
Theorem name_get_coll_known (kind : coll) (name : string) :
  kind ∈ nn_kinds -> names kind name ->
  name_get_coll name = Returns (Some kind).
Proof.
  intros Hkind (s & Hs & Hname). unfold name_get_coll, keys.
  assert (∀ l, Str.upper l = Str.upper name <-> Str.upper l = Str.upper s)
    as Heq by (intros l; by rewrite Hname).
  assert (∀ l, bool_decide (Str.upper l = Str.upper name)
               = bool_decide (Str.upper l = Str.upper s)) as Hdec
    by (intros l; by apply bool_decide_ext).
  unfold nn_kinds in Hkind.
  repeat (apply elem_of_cons in Hkind as [->|Hkind];
    [destruct Hs as [Hs|Hs]; injection Hs as <-;
     cbn [name_get_coll_loop collections full field lname sname];
     rewrite ?Hdec; reflexivity|]).
  by apply elem_of_nil in Hkind.
Qed.

Lemma name_get_coll_known_witness :
  CONST ∈ nn_kinds ∧ names CONST "Cnst" ∧
  name_get_coll "Cnst" = Returns (Some CONST).
Proof.
  assert (CONST ∈ nn_kinds) as Hk by (by left).
  assert (names CONST "Cnst") as Hn by (exists "cnst"; by split; [left|]).
  split; [exact Hk|]. split; [exact Hn|].
  exact (name_get_coll_known CONST "Cnst" Hk Hn).
Defined.

(** X2.  For a name that is none of the short and long names of the
    eleven kinds, [name_get_coll] raises [KeyError] for the key [lname]
    when its loop reaches the item of [LIT]: it returns [None] for no
    name. *)
Theorem name_get_coll_unknown (name : string) :
  (∀ kind, kind ∈ nn_kinds -> ¬ names kind name) ->
  name_get_coll name = Raises (KeyError "lname").
Proof.
  intros Hnone. unfold name_get_coll, keys.
  assert (∀ kind l s items,
            kind ∈ nn_kinds ->
            get_lname kind = Returns l -> get_sname kind = Returns s ->
            name_get_coll_loop name (kind :: items)
            = name_get_coll_loop name items) as Hskip.
  { intros kind l s items Hk Hl Hs.
    apply (name_get_coll_loop_skip name kind items l s Hl Hs).
    - intros Heq. apply (Hnone kind Hk). exists l. by split; [right|].
    - intros Heq. apply (Hnone kind Hk). exists s. by split; [left|]. }
  do 11 (erewrite Hskip; [|unfold nn_kinds; set_solver|reflexivity..]).
  reflexivity.
Qed.

Lemma name_get_coll_unknown_witness :
  (∀ kind, kind ∈ nn_kinds -> ¬ names kind "tbl") ∧
  get_sname TBL = Returns "tbl" ∧
  name_get_coll "tbl" = Raises (KeyError "lname").
Proof.
  assert (∀ kind, kind ∈ nn_kinds -> ¬ names kind "tbl") as Hnone.
  { intros kind Hk (s & Hs & Hu). unfold nn_kinds in Hk.
    repeat (apply elem_of_cons in Hk as [->|Hk];
      [by destruct Hs as [Hs|Hs]; injection Hs as <-|]).
    by apply elem_of_nil in Hk. }
  split; [exact Hnone|]. split; [reflexivity|].
  exact (name_get_coll_unknown "tbl" Hnone).
Defined.

(** What [name_get_coll] returns is one of the eleven kinds, named by
    [name]. *)
Lemma name_get_coll_returns name oc :
  name_get_coll name = Returns oc ->
  ∃ kind, oc = Some kind ∧ kind ∈ nn_kinds ∧ names kind name.
Proof.
  unfold name_get_coll, keys.
  cbn [name_get_coll_loop collections full field lname sname].
  repeat
    match goal with
    | |- (if bool_decide (?a = Str.upper name) then _ else _) = _ -> _ =>
        destruct (decide (a = Str.upper name)) as [Heq|Hne];
        [rewrite (bool_decide_eq_true_2 _ Heq); intros [= <-];
         eexists; split; [reflexivity|];
         split; [unfold nn_kinds; set_solver|];
         first [by eexists; split; [right; reflexivity|symmetry; exact Heq]
               |by eexists; split; [left; reflexivity|symmetry; exact Heq]]
        |rewrite (bool_decide_eq_false_2 _ Hne); clear Hne]
    end.
  done.
Qed.

Lemma split_no_char c s : Text.has_char c s = false -> Text.split c s = [s].
Proof.
  induction s as [|a s IH]; [done|]. cbn [Text.has_char Text.split].
  destruct (Ascii.eqb a c); [done|]. intros H. by rewrite IH.
Qed.

Lemma split_at_char c k rest :
  Text.has_char c k = false ->
  Text.split c (k +:+ String c rest) = k :: Text.split c rest.
Proof.
  induction k as [|a k IH].
  - intros _. rewrite app_empty_l. cbn [Text.split].
    by rewrite Ascii.eqb_refl.
  - cbn [Text.has_char]. destruct (Ascii.eqb a c) eqn:E; [done|].
    intros H. rewrite app_cons. cbn [Text.split]. by rewrite E, IH.
Qed.

Lemma before_char_no_char c s : Text.has_char c (Str.before_char c s) = false.
Proof.
  induction s as [|a s IH]; [done|]. cbn [Str.before_char].
  destruct (Ascii.eqb a c) eqn:E; [done|].
  cbn [Text.has_char]. by rewrite E.
Qed.

Lemma split_length c s : 0 < length (Text.split c s).
Proof.
  induction s as [|a s IH]; cbn [Text.split]; [cbn; lia|].
  destruct (Ascii.eqb a c); [cbn; lia|].
  destruct (Text.split c s); cbn in *; lia.
Qed.

(** X3.  [ari_get_names] splits the name of a reference at its dots: with
    no dot it raises [ValueError]; with one dot it looks the part before
    the dot up with [name_get_coll] and cuts the part after the dot at its
    first parenthesis.  What it returns is the namespace of the reference,
    one of the eleven kinds (never [None]) and a name without
    parenthesis. *)
Theorem ari_get_names_parts (jari : Adm.AriRef) :
  (Text.has_char "." (Adm.ref_nm jari) = false ->
   Camputil.ari_get_names jari
   = Raises (OtherError
       "ValueError: not enough values to unpack (expected 2, got 1)")) ∧
  (∀ k rest,
     Adm.ref_nm jari = k +:+ "." +:+ rest ->
     Text.has_char "." k = false -> Text.has_char "." rest = false ->
     Camputil.ari_get_names jari
     = match name_get_coll k with
       | Returns kind =>
           Returns (Adm.ref_ns jari, kind, Str.before_char "(" rest)
       | Raises e => Raises e
       end) ∧
  (∀ ns kind name,
     Camputil.ari_get_names jari = Returns (ns, kind, name) ->
     ns = Adm.ref_ns jari ∧
     (∃ k, kind = Some k ∧ k ∈ nn_kinds) ∧
     Text.has_char "(" name = false).
Proof.
  unfold Camputil.ari_get_names. split; [|split].
  - intros H. by rewrite split_no_char.
  - intros k rest -> Hk Hrest.
    change ("." +:+ rest) with (String "." rest).
    by rewrite split_at_char, (split_no_char _ rest).
  - intros ns kind name.
    destruct (Text.split "." (Adm.ref_nm jari)) as [|c [|n [|? ?]]];
      try done.
    destruct (name_get_coll c) as [oc|e] eqn:E; [|done].
    intros [= <- <- <-]. split; [done|].
    apply name_get_coll_returns in E as (k & -> & Hk & _).
    split; [by eauto|]. apply before_char_no_char.
Qed.

Lemma ari_get_names_parts_witness :
  Camputil.ari_get_names
    {| Adm.ref_ns := "DTN/bp_agent"; Adm.ref_nm := "Edd.num_bundles(x)";
       Adm.ref_position := 0; Adm.ref_ap := [] |}
  = Returns ("DTN/bp_agent", Some EDD, "num_bundles") ∧
  Camputil.ari_get_names
    {| Adm.ref_ns := "DTN/bp_agent"; Adm.ref_nm := "num_bundles";
       Adm.ref_position := 0; Adm.ref_ap := [] |}
  = Raises (OtherError
      "ValueError: not enough values to unpack (expected 2, got 1)").
Proof.
  split.
  - apply (proj1 (proj2 (ari_get_names_parts
      {| Adm.ref_ns := "DTN/bp_agent"; Adm.ref_nm := "Edd.num_bundles(x)";
         Adm.ref_position := 0; Adm.ref_ap := [] |})) "Edd" "num_bundles(x)");
      reflexivity.
  - apply (proj1 (ari_get_names_parts
      {| Adm.ref_ns := "DTN/bp_agent"; Adm.ref_nm := "num_bundles";
         Adm.ref_position := 0; Adm.ref_ap := [] |})).
    reflexivity.
Defined.

End RegistryFacts.

(** ** Comments made of untrusted text *)

Section UntaintFacts.
Import Untaint.

Lemma length_app_str (a b : string) :
  String.length (a +:+ b) = String.length a + String.length b.
Proof. induction a as [|c a IH]; [done|]. rewrite app_cons. cbn. by rewrite IH. Qed.

Lemma take_drop (n : nat) (s : string) : GenH.take n s +:+ GenH.drop n s = s.
Proof.
  revert s. induction n as [|n IH]; intros [|c s]; try done.
  cbn [GenH.take GenH.drop]. by rewrite app_cons, IH.
Qed.

Lemma take_length (n : nat) (s : string) :
  String.length (GenH.take n s) = Nat.min n (String.length s).
Proof.
  revert s. induction n as [|n IH]; intros [|c s]; try done.
  cbn [GenH.take String.length]. rewrite IH. lia.
Qed.

Lemma drop_length (n : nat) (s : string) :
  String.length (GenH.drop n s) = String.length s - n.
Proof.
  revert s. induction n as [|n IH]; intros [|c s]; try done.
  cbn [GenH.drop String.length]. by rewrite IH.
Qed.

Lemma wrap_pieces rounds width line untainted :
  wrap rounds width line untainted
  = untainted ++ map (λ c, Str.nl +:+ " * " +:+ c) (pieces rounds width line).
Proof.
  revert line untainted. induction rounds as [|r IH]; intros line untainted;
    cbn [wrap pieces]; [done|].
  destruct (width <? String.length line); [|done].
  rewrite IH. cbn [map]. by rewrite <- app_assoc.
Qed.

Lemma fold_wrap width lines untainted :
  fold_left (λ untainted line,
               wrap (String.length line) width line untainted) lines untainted
  = untainted ++ map (λ c, Str.nl +:+ " * " +:+ c)
                   (concat (map (λ line, pieces (String.length line) width line)
                              lines)).
Proof.
  revert untainted. induction lines as [|l lines IH]; intros untainted;
    cbn [fold_left map concat]; [by rewrite app_nil_r|].
  rewrite IH, wrap_pieces, map_app. by rewrite <- app_assoc.
Qed.

(** The comment is its pieces, each on a line of its own. *)
Lemma multiline_comment_format_chunks tainted :
  multiline_comment_format tainted
  = "/*" +:+ Str.join (map (λ c, Str.nl +:+ " * " +:+ c) (chunks tainted))
    +:+ Str.nl +:+ " */".
Proof. unfold multiline_comment_format. by rewrite fold_wrap. Qed.

Lemma pieces_short rounds width line :
  0 < width -> String.length line <= rounds ->
  Forall (λ c, String.length c <= width) (pieces rounds width line).
Proof.
  intros Hw. revert line. induction rounds as [|r IH]; intros line Hlen;
    cbn [pieces].
  - constructor; [lia|constructor].
  - destruct (width <? String.length line) eqn:E.
    + apply Nat.ltb_lt in E. constructor; [rewrite take_length; lia|].
      apply IH. rewrite drop_length. lia.
    + apply Nat.ltb_ge in E. constructor; [done|constructor].
Qed.

Lemma pieces_join rounds width line :
  Str.join (pieces rounds width line) = line.
Proof.
  revert line. induction rounds as [|r IH]; intros line; cbn [pieces].
  - cbn. apply app_empty_r.
  - destruct (width <? String.length line); [|cbn; apply app_empty_r].
    cbn [Str.join]. by rewrite IH, take_drop.
Qed.

Lemma all_app p a b : Text.all p (a +:+ b) = Text.all p a && Text.all p b.
Proof.
  induction a as [|c a IH]; [done|]. rewrite app_cons. cbn [Text.all].
  by rewrite IH, andb_assoc.
Qed.

Lemma all_take p n s : Text.all p s = true -> Text.all p (GenH.take n s) = true.
Proof.
  revert s. induction n as [|n IH]; intros [|c s]; try done.
  cbn [GenH.take Text.all]. intros [-> H]%andb_prop. by rewrite IH.
Qed.

Lemma all_drop p n s : Text.all p s = true -> Text.all p (GenH.drop n s) = true.
Proof.
  revert s. induction n as [|n IH]; intros [|c s]; try done.
  cbn [GenH.drop Text.all]. intros [_ H]%andb_prop. by apply IH.
Qed.

Lemma pieces_all p rounds width line :
  Text.all p line = true ->
  Forall (λ c, Text.all p c = true) (pieces rounds width line).
Proof.
  revert line. induction rounds as [|r IH]; intros line Hl; cbn [pieces].
  - by constructor.
  - destruct (width <? String.length line); [|by constructor].
    constructor; [by apply all_take|]. apply IH. by apply all_drop.
Qed.

(** Induction on a string, two characters at a time. *)
Lemma string_ind2 (P : string -> Prop) :
  P "" -> (∀ c, P (String c "")) ->
  (∀ c d t, P t -> P (String d t) -> P (String c (String d t))) ->
  ∀ s, P s.
Proof.
  intros H0 H1 H2 s.
  assert (P s ∧ ∀ c, P (String c s)) as [H _]; [|exact H].
  induction s as [|d t [IH1 IH2]]; [by split|].
  split; [apply IH2|]. intros c. apply H2; [done|apply IH2].
Qed.

Lemma splitlines_go_step cur c d t :
  GenH.splitlines_go cur (String c (String d t))
  = if GenH.is_linebreak c
    then if Ascii.eqb c "013" && Ascii.eqb d "010"
         then cur :: GenH.splitlines_go "" t
         else cur :: GenH.splitlines_go "" (String d t)
    else GenH.splitlines_go (cur +:+ String c "") (String d t).
Proof. reflexivity. Qed.

(** The lines of a text hold the characters of the text, but those that
    break lines. *)
Lemma splitlines_go_all p s :
  Text.all p s = true ->
  ∀ cur, Text.all p cur = true ->
         Forall (λ l, Text.all p l = true) (GenH.splitlines_go cur s).
Proof.
  induction s as [|c|c d t IHt IHdt] using string_ind2; intros Hs cur Hcur.
  - cbn. destruct (Str.is_empty cur); by repeat constructor.
  - cbn [GenH.splitlines_go]. destruct (GenH.is_linebreak c) eqn:E.
    + by repeat constructor.
    + cbn [GenH.splitlines_go].
      assert (Text.all p (cur +:+ String c "") = true) as H
        by by rewrite all_app, Hcur.
      destruct (Str.is_empty _); by repeat constructor.
  - rewrite splitlines_go_step.
    cbn [Text.all] in Hs. apply andb_prop in Hs as [Hc Hdt].
    assert (Text.all p t = true) as Ht
      by (by apply andb_prop in Hdt as [_ ->]).
    change (Text.all p (String d t) = true) in Hdt.
    destruct (GenH.is_linebreak c) eqn:E.
    + destruct (Ascii.eqb c "013" && Ascii.eqb d "010").
      * constructor; [done|]. by apply IHt.
      * constructor; [done|]. by apply IHdt.
    + apply IHdt; [done|]. rewrite all_app, Hcur. cbn [Text.all].
      by rewrite Hc.
Qed.

Lemma splitlines_go_one_line s :
  ∀ cur, one_line cur = true ->
         Forall (λ l, one_line l = true) (GenH.splitlines_go cur s).
Proof.
  unfold one_line.
  induction s as [|c|c d t IHt IHdt] using string_ind2; intros cur Hcur.
  - cbn. destruct (Str.is_empty cur); by repeat constructor.
  - cbn [GenH.splitlines_go]. destruct (GenH.is_linebreak c) eqn:E.
    + by repeat constructor.
    + cbn [GenH.splitlines_go].
      assert (Text.all (λ c, negb (GenH.is_linebreak c)) (cur +:+ String c "")
              = true) as H.
      { rewrite all_app, Hcur. cbn [Text.all]. by rewrite E. }
      destruct (Str.is_empty _); by repeat constructor.
  - rewrite splitlines_go_step.
    destruct (GenH.is_linebreak c) eqn:E.
    + destruct (Ascii.eqb c "013" && Ascii.eqb d "010").
      * constructor; [done|]. by apply IHt.
      * constructor; [done|]. by apply IHdt.
    + apply IHdt. rewrite all_app, Hcur. cbn [Text.all]. by rewrite E.
Qed.

Lemma splitlines_one_line s :
  Forall (λ l, one_line l = true) (GenH.splitlines s).
Proof. by apply splitlines_go_one_line. Qed.

(** X4.  [multiline_comment_format] writes the text as a comment of
    lines that hold at most 100 characters of the text each, after [ * ]:
    the lines of the text, cut into pieces of 100 characters where they
    are longer.  No piece holds a character that breaks a line, and the
    pieces together are the lines of the text (after [*/] was removed and
    [ *] was put after each newline). *)
Theorem multiline_comment_format_wraps (tainted : string) :
  multiline_comment_format tainted
  = "/*" +:+ Str.join (map (λ c, Str.nl +:+ " * " +:+ c) (chunks tainted))
    +:+ Str.nl +:+ " */" ∧
  Forall (λ c, String.length c <= 100 ∧ one_line c = true) (chunks tainted) ∧
  Str.join (chunks tainted)
  = Str.join (GenH.splitlines
                (star_after_newlines (remove_comment_ends tainted))).
Proof.
  split; [apply multiline_comment_format_chunks|]. unfold chunks.
  generalize (splitlines_one_line
                (star_after_newlines (remove_comment_ends tainted))).
  generalize (GenH.splitlines
                (star_after_newlines (remove_comment_ends tainted))).
  intros lines Hlines. induction Hlines as [|l lines Hl _ [IH1 IH2]];
    cbn [map concat]; [by split|].
  split.
  - apply Forall_app. split; [|done].
    pose proof (pieces_short (String.length l) 100 l) as Hshort.
    pose proof (pieces_all _ (String.length l) 100 l Hl) as Hone.
    specialize (Hshort ltac:(lia) ltac:(lia)).
    clear -Hshort Hone. induction Hshort; inversion Hone; subst;
      constructor; auto.
  - rewrite join_app, pieces_join. cbn [Str.join]. by rewrite IH2.
Qed.

Lemma has_char_all c s :
  Text.has_char c s = false <-> Text.all (λ a, negb (Ascii.eqb a c)) s = true.
Proof.
  induction s as [|a s IH]; [done|]. cbn [Text.has_char Text.all].
  destruct (Ascii.eqb a c); cbn; [by split|done].
Qed.

Lemma remove_comment_ends_step c d t :
  remove_comment_ends (String c (String d t))
  = if Ascii.eqb c "*" && Ascii.eqb d "/"
    then remove_comment_ends t
    else String c (remove_comment_ends (String d t)).
Proof. reflexivity. Qed.

Lemma remove_comment_ends_all p s :
  Text.all p s = true -> Text.all p (remove_comment_ends s) = true.
Proof.
  induction s as [|c|c d t IHt IHdt] using string_ind2; [done..|].
  intros Hs. rewrite remove_comment_ends_step.
  cbn [Text.all] in Hs. apply andb_prop in Hs as [Hc Hdt].
  destruct (Ascii.eqb c "*" && Ascii.eqb d "/").
  - apply IHt. by apply andb_prop in Hdt as [_ ->].
  - cbn [Text.all]. rewrite Hc. by apply IHdt.
Qed.

Lemma replace_char_all p c new s :
  Text.all p s = true -> Text.all p new = true ->
  Text.all p (Str.replace_char c new s) = true.
Proof.
  intros Hs Hnew. induction s as [|a s IH]; [done|].
  cbn [Text.all] in Hs. apply andb_prop in Hs as [Ha Hs].
  cbn [Str.replace_char]. destruct (Ascii.eqb a c).
  - rewrite all_app, Hnew. by apply IH.
  - cbn [Text.all]. rewrite Ha. by apply IH.
Qed.

Lemma join_all p (ls : list string) :
  Forall (λ l, Text.all p l = true) ls -> Text.all p (Str.join ls) = true.
Proof.
  induction 1 as [|l ls Hl _ IH]; [done|]. cbn [Str.join].
  by rewrite all_app, Hl.
Qed.

(** The pieces hold no character that the text does not hold. *)
Lemma chunks_all (p : ascii -> bool) tainted :
  p " "%char = true -> p "*"%char = true -> p Str.newline = true ->
  Text.all p tainted = true ->
  Forall (λ c, Text.all p c = true) (chunks tainted).
Proof.
  intros Hsp Hst Hnl Ht. unfold chunks.
  assert (Forall (λ l, Text.all p l = true)
            (GenH.splitlines
               (star_after_newlines (remove_comment_ends tainted)))) as H.
  { apply splitlines_go_all; [|done]. apply replace_char_all.
    - by apply remove_comment_ends_all.
    - change (Str.nl +:+ " *")
        with (String Str.newline (String " " (String "*" ""))).
      cbn [Text.all]. by rewrite Hnl, Hsp, Hst. }
  induction H as [|l ls Hl _ IH]; cbn [map concat]; [constructor|].
  apply Forall_app. split; [by apply pieces_all|done].
Qed.

(** In a text that ends with its only slash, what follows a slash is
    empty. *)
Lemma after_last_slash t x y :
  Text.has_char "/" t = false -> t +:+ "/" = x +:+ "/" +:+ y -> y = "".
Proof.
  revert x. induction t as [|a t IH]; intros x Ht.
  - rewrite app_empty_l. destruct x as [|c x].
    + rewrite app_empty_l. change ("/" +:+ y) with (String "/" y).
      by intros [= <-].
    + rewrite app_cons. intros [= <- H]. by destruct x.
  - cbn [Text.has_char] in Ht. apply orb_false_elim in Ht as [Ha Ht].
    rewrite app_cons. destruct x as [|c x].
    + rewrite app_empty_l. change ("/" +:+ y) with (String "/" y).
      intros [= -> _]. by rewrite Ascii.eqb_refl in Ha.
    + rewrite app_cons. intros [= _ H]. by apply (IH x).
Qed.

(** X5.  When the text holds no slash, the comment that
    [multiline_comment_format] makes is closed by its last two characters
    and nowhere before: what follows an occurrence of [*/] in it is
    empty. *)
Theorem multiline_comment_format_closed_once (tainted x y : string) :
  Text.has_char "/" tainted = false ->
  multiline_comment_format tainted = x +:+ "*/" +:+ y ->
  y = "".
Proof.
  intros Ht. rewrite multiline_comment_format_chunks.
  set (body := Str.join _).
  assert (Text.has_char "/" body = false) as Hbody.
  { apply has_char_all, join_all, Forall_map.
    apply has_char_all in Ht.
    pose proof (chunks_all _ tainted eq_refl eq_refl eq_refl Ht) as H.
    induction H as [|c cs Hc _ IH]; constructor; [|done].
    by rewrite !all_app, Hc. }
  destruct x as [|c x].
  - rewrite app_empty_l. by intros [=].
  - rewrite app_cons.
    change ("/*" +:+ body +:+ Str.nl +:+ " */")
      with (String "/" ("*" +:+ body +:+ Str.nl +:+ " */")).
    intros [= _ H].
    apply (after_last_slash ("*" +:+ body +:+ Str.nl +:+ " *") (x +:+ "*")).
    + apply has_char_all. rewrite !all_app. apply has_char_all in Hbody.
      by rewrite Hbody.
    + rewrite !app_assoc_str. exact H.
Qed.

Lemma multiline_comment_format_closed_once_witness :
  Text.has_char "/" "The number of bundles * 2" = false ∧
  multiline_comment_format "The number of bundles * 2"
  = ("/*" +:+ Str.nl +:+ " * The number of bundles * 2" +:+ Str.nl +:+ " ")
    +:+ "*/" +:+ "" ∧
  "" = "".
Proof.
  assert (Text.has_char "/" "The number of bundles * 2" = false) as H
    by reflexivity.
  assert (multiline_comment_format "The number of bundles * 2"
          = ("/*" +:+ Str.nl +:+ " * The number of bundles * 2" +:+ Str.nl
             +:+ " ") +:+ "*/" +:+ "") as Hout by reflexivity.
  split; [exact H|]. split; [exact Hout|].
  symmetry.
  exact (multiline_comment_format_closed_once
           "The number of bundles * 2" _ _ H Hout).
Defined.

Lemma remove_comment_ends_newline a t :
  remove_comment_ends (a +:+ String Str.newline t)
  = remove_comment_ends a +:+ String Str.newline (remove_comment_ends t).
Proof.
  induction a as [|c|c d u IHu IHdu] using string_ind2.
  - rewrite !app_empty_l. by destruct t.
  - rewrite app_cons, app_empty_l, remove_comment_ends_step.
    change (Ascii.eqb Str.newline "/") with false. rewrite andb_false_r.
    cbn [remove_comment_ends]. rewrite app_cons, app_empty_l.
    f_equal. by destruct t.
  - rewrite !app_cons, !remove_comment_ends_step.
    destruct (Ascii.eqb c "*" && Ascii.eqb d "/"); [exact IHu|].
    rewrite app_cons. f_equal. rewrite <- app_cons. exact IHdu.
Qed.

Lemma remove_comment_ends_slash t :
  remove_comment_ends (String "/" t) = String "/" (remove_comment_ends t).
Proof. by destruct t. Qed.

Lemma replace_char_app c new a b :
  Str.replace_char c new (a +:+ b)
  = Str.replace_char c new a +:+ Str.replace_char c new b.
Proof.
  induction a as [|x a IH]; [done|]. rewrite app_cons.
  cbn [Str.replace_char]. destruct (Ascii.eqb x c); rewrite IH.
  - by rewrite app_assoc_str.
  - by rewrite app_cons.
Qed.

(** The lines of a text in which a newline is followed by more text: some
    lines, then the lines of what follows the newline. *)
Lemma splitlines_go_newline p c r :
  ∀ cur, ∃ before,
    GenH.splitlines_go cur (p +:+ String Str.newline (String c r))
    = before ++ GenH.splitlines_go "" (String c r).
Proof.
  induction p as [|a|a d t IHt IHdt] using string_ind2; intros cur.
  - rewrite app_empty_l. by exists [cur].
  - rewrite app_cons, app_empty_l, splitlines_go_step.
    destruct (GenH.is_linebreak a).
    + destruct (Ascii.eqb a "013" && Ascii.eqb Str.newline "010").
      * by exists [cur].
      * by exists [cur; ""].
    + by exists [cur +:+ String a ""].
  - rewrite !app_cons, splitlines_go_step.
    destruct (GenH.is_linebreak a).
    + destruct (Ascii.eqb a "013" && Ascii.eqb d "010").
      * destruct (IHt "") as [before ->]. by exists (cur :: before).
      * rewrite <- app_cons. destruct (IHdt "") as [before ->].
        by exists (cur :: before).
    + rewrite <- app_cons. apply IHdt.
Qed.

Lemma app_nonempty (a b : string) : b ≠ "" -> a +:+ b ≠ "".
Proof.
  intros Hb H. apply (f_equal String.length) in H.
  rewrite length_app_str in H. destruct b; [done|]. cbn in H. lia.
Qed.

(** The first line of a text begins with what was read before it. *)
Lemma splitlines_go_head s :
  ∀ cur, cur ≠ "" ->
         ∃ more rest, GenH.splitlines_go cur s = (cur +:+ more) :: rest.
Proof.
  induction s as [|a|a d t IHt IHdt] using string_ind2; intros cur Hcur.
  - cbn. destruct cur; [done|]. exists "", []. by rewrite app_empty_r.
  - cbn [GenH.splitlines_go]. destruct (GenH.is_linebreak a).
    + exists "", []. by rewrite app_empty_r.
    + cbn [GenH.splitlines_go].
      destruct (cur +:+ String a "") eqn:E;
        [exfalso; by apply (app_nonempty cur (String a ""))|].
      exists (String a ""), []. by rewrite E.
  - rewrite splitlines_go_step. destruct (GenH.is_linebreak a).
    + destruct (Ascii.eqb a "013" && Ascii.eqb d "010");
        eexists "", _; by rewrite app_empty_r.
    + destruct (IHdt (cur +:+ String a "")) as (more & rest & ->);
        [by apply app_nonempty|].
      exists (String a more), rest. by rewrite app_assoc_str.
Qed.

Lemma pieces_head rounds width line :
  ∃ first more, pieces rounds width line = first :: more ∧
    (first = line ∨ first = GenH.take width line).
Proof.
  destruct rounds as [|r]; cbn [pieces]; [by eauto|].
  destruct (width <? String.length line); by eauto.
Qed.

(** X6.  [multiline_comment_format] does not keep a text from ending the
    comment it makes: when a line of the text begins with a slash, the
    star that is put after the newline before it and that slash end the
    comment, and the rest of the text follows outside of it. *)
Theorem multiline_comment_format_closed_early (a b : string) :
  ∃ x y,
    multiline_comment_format (a +:+ Str.nl +:+ "/" +:+ b)
    = x +:+ "*/" +:+ y ∧
    y ≠ "".
Proof.
  rewrite multiline_comment_format_chunks. unfold chunks.
  change (Str.nl +:+ "/" +:+ b) with (String Str.newline (String "/" b)).
  rewrite remove_comment_ends_newline, remove_comment_ends_slash.
  unfold star_after_newlines. rewrite replace_char_app.
  set (pa := Str.replace_char _ _ (remove_comment_ends a)).
  change (Str.replace_char Str.newline (Str.nl +:+ " *")
            (String Str.newline (String "/" (remove_comment_ends b))))
    with (String Str.newline
            (String " " (String "*" (String "/"
               (Str.replace_char Str.newline (Str.nl +:+ " *")
                  (remove_comment_ends b)))))).
  set (pb := Str.replace_char _ _ (remove_comment_ends b)).
  unfold GenH.splitlines.
  destruct (splitlines_go_newline pa " " (String "*" (String "/" pb)) "")
    as [before ->].
  change (GenH.splitlines_go "" (String " " (String "*" (String "/" pb))))
    with (GenH.splitlines_go " */" pb).
  destruct (splitlines_go_head pb " */") as (more & rest & ->); [done|].
  rewrite map_app, concat_app, map_app, join_app. cbn [map concat].
  destruct (pieces_head (String.length (" */" +:+ more)) 100 (" */" +:+ more))
    as (first & others & -> & Hfirst).
  assert (∃ tail, first = " */" +:+ tail) as [tail ->].
  { destruct Hfirst as [->| ->]; [by eauto|]. by exists (GenH.take 97 more). }
  cbn [app map Str.join].
  eexists ("/*" +:+ Str.join _ +:+ Str.nl +:+ " *  "), _. split.
  - by rewrite !app_assoc_str.
  - rewrite <- !app_assoc_str. by apply app_nonempty.
Qed.

End UntaintFacts.

(** ** Comment headers and function names *)

Section CampchFacts.
Import Adm Campch ImplShared.

Lemma repeat_char_length c n : String.length (Str.repeat_char c n) = n.
Proof. induction n as [|n IH]; [done|]. cbn. by rewrite IH. Qed.

Lemma repeat_char_snoc c n :
  Str.repeat_char c n +:+ String c "" = Str.repeat_char c (S n).
Proof.
  induction n as [|n IH]; [done|]. cbn [Str.repeat_char] in *.
  by rewrite app_cons, IH.
Qed.

(** X7.  The box that [make_formatted_comment_header] draws around a
    name: two borders of 98 characters and between them the line of the
    name, between a bar and a plus sign, with as many spaces before the
    name as after it, or one more after it.  For a name of at most 93
    characters the line of the name is as long as the borders; a longer
    name is kept whole and its line is longer than the borders. *)
Theorem comment_header_box (name : string) :
  let border := " * +" +:+ Str.repeat_char "-" 93 +:+ "+" in
  ∃ before after,
    make_formatted_comment_header name false false
    = Str.nl +:+ border +:+ Str.nl
      +:+ (" * |" +:+ Str.repeat_char " " before +:+ name
           +:+ Str.repeat_char " " after +:+ "+")
      +:+ Str.nl +:+ border +:+ Str.nl ∧
    (after = before ∨ after = S before) ∧
    String.length border = 98 ∧
    (String.length name <= 93 ->
     String.length (" * |" +:+ Str.repeat_char " " before +:+ name
                    +:+ Str.repeat_char " " after +:+ "+") = 98) ∧
    (93 < String.length name -> before = 0 ∧ after <= 1).
Proof.
  intros border. unfold make_formatted_comment_header.
  set (n := String.length name).
  destruct (n mod 2 =? 0) eqn:E.
  - exists ((93 - n) / 2), (S ((93 - n) / 2)). split; [|split; [by right|]].
    { subst border. rewrite <- (repeat_char_snoc " " ((93 - n) / 2)).
      by rewrite !app_assoc_str. }
    split; [reflexivity|]. apply Nat.eqb_eq in E.
    rewrite !length_app_str, !repeat_char_length. fold n. cbn [String.length].
    split; intros Hn.
    + pose proof (Nat.div_mod_eq (93 - n) 2). pose proof (Nat.div_mod_eq n 2).
      assert ((93 - n) mod 2 = 1) as Hodd.
      { pose proof (Nat.mod_upper_bound (93 - n) 2).
        pose proof (Nat.mod_upper_bound n 2). lia. }
      lia.
    + rewrite (Nat.div_small (93 - n) 2) by lia. lia.
  - exists ((93 - n) / 2), ((93 - n) / 2). split; [|split; [by left|]].
    { subst border. by rewrite !app_assoc_str. }
    split; [reflexivity|]. apply Nat.eqb_neq in E.
    rewrite !length_app_str, !repeat_char_length. fold n. cbn [String.length].
    split; intros Hn.
    + pose proof (Nat.div_mod_eq (93 - n) 2). pose proof (Nat.div_mod_eq n 2).
      pose proof (Nat.mod_upper_bound (93 - n) 2).
      pose proof (Nat.mod_upper_bound n 2). lia.
    + rewrite (Nat.div_small (93 - n) 2) by lia. lia.
Qed.

Lemma comment_header_box_witness :
  String.length "AGENT NICKNAME DEFINITIONS" <= 93 ∧
  Str.readlines
    (make_formatted_comment_header "AGENT NICKNAME DEFINITIONS" false false)
  = [Str.nl;
     " * +" +:+ Str.repeat_char "-" 93 +:+ "+" +:+ Str.nl;
     " * |" +:+ Str.repeat_char " " 33 +:+ "AGENT NICKNAME DEFINITIONS"
     +:+ Str.repeat_char " " 34 +:+ "+" +:+ Str.nl;
     " * +" +:+ Str.repeat_char "-" 93 +:+ "+" +:+ Str.nl] ∧
  String.length (" * |" +:+ Str.repeat_char " " 33
                 +:+ "AGENT NICKNAME DEFINITIONS"
                 +:+ Str.repeat_char " " 34 +:+ "+") = 98.
Proof.
  assert (String.length "AGENT NICKNAME DEFINITIONS" <= 93) as Hn
    by (vm_compute; lia).
  split; [exact Hn|]. split; [reflexivity|].
  destruct (comment_header_box "AGENT NICKNAME DEFINITIONS")
    as (before & after & Heq & _ & _ & Hlen & _).
  specialize (Hlen Hn). reflexivity.
Defined.

(** X8.  The names under which the implementation file keeps custom
    bodies: every owner has one, and two owners have the same name exactly
    when they are of the same kind (a table, an externally defined datum,
    a control, an operator) and their objects have the same name up to
    the case of the letters.  Owners of different kinds never share a
    body, and no object shares the body of [setup] or of [cleanup]. *)
Theorem body_keys (adm : AdmFile) (o1 o2 : body_owner) :
  ∃ k1 k2,
    body_key adm o1 = Returns k1 ∧ body_key adm o2 = Returns k2 ∧
    (k1 = k2 <->
     owner_kind o1 = owner_kind o2 ∧ owner_name o1 = owner_name o2).
Proof.
  destruct o1 as [| |t1|e1|c1|p1], o2 as [| |t2|e2|c2|p2];
    (eexists _, _; split; [reflexivity|]; split; [reflexivity|]);
    cbv -[Str.lower name];
    (split; [intros H; first [discriminate H|by injection H as ->|done]
            |intros [H1 H2]; first [discriminate H1|by rewrite H2|done]]).
Qed.

End CampchFacts.

(** ** The scrape engine on files that lack a marker *)

Section ScraperEdges.
Import Scraper Layout.

Lemma append_until_no_stop stop found body :
  Forall (λ l, Str.strip l ≠ stop) body ->
  append_until stop found (PyList.popping body) = (found ++ body, Empty).
Proof.
  intros H. revert found. induction H as [|l body Hl _ IH]; intros found;
    cbn [PyList.popping append_until].
  - by rewrite app_nil_r.
  - rewrite bool_decide_eq_false_2 by done. rewrite IH.
    by rewrite <- app_assoc.
Qed.

Lemma find_between_unterminated start stop pre m body :
  start ≠ "" ->
  Forall (λ l, Str.strip l ≠ start) pre ->
  Str.strip m = start ->
  Forall (λ l, Str.strip l ≠ stop) body ->
  find_between (start, stop) (PyList.popping (pre ++ m :: body))
  = (body, Empty).
Proof.
  intros Hne Hpre Hm Hbody. unfold find_between.
  rewrite (find_start_skip start "" pre m body) by (done || by intros H).
  by rewrite append_until_no_stop.
Qed.

Lemma find_between_empty markers : find_between markers Empty = ([], Empty).
Proof. by destruct markers. Qed.

(** X9.  A file in which no line is the START marker of the custom
    includes gives nothing to the scrapers: the search for that marker
    uses up every line of the file, so that the custom functions, the
    custom bodies and the type enumerations that the file holds behind
    their own markers are not found either.  The regions are then empty,
    without the placeholder line of a scraper that has no source. *)
Theorem scrape_without_includes_marker (fs : filesystem) (path text : string) :
  fs path = Returns text ->
  Forall (λ l, Str.strip l ≠ make_custom_includes_markers.1)
    (Str.readlines text) ->
  C_Scraper_init fs (Some path)
  = Returns {| c_filename := Some path; c_includes := [];
               c_functions := []; func_bods := ∅ |} ∧
  H_Scraper_init fs (Some path)
  = Returns {| h_filename := Some path; h_includes := [];
               h_functions := []; type_enums := [] |}.
Proof.
  intros Hfs Hlines.
  unfold C_Scraper_init, H_Scraper_init. rewrite Hfs, fill_queue_popping.
  unfold find_custom_includes_in_queue.
  pose proof (find_between_none make_custom_includes_markers.1
                make_custom_includes_markers.2 (Str.readlines text)
                ltac:(done) Hlines) as E.
  change (make_custom_includes_markers.1, make_custom_includes_markers.2)
    with make_custom_includes_markers in E.
  rewrite E.
  unfold find_custom_functions_in_queue, find_type_enums_in_queue.
  by rewrite !find_between_empty.
Qed.

Lemma scrape_without_includes_marker_witness :
  ∃ text,
    Str.readlines text
    = region_lines make_custom_functions_markers ["int f(void);" +:+ Str.nl]
      ++ fence_lines "START" "setup" ++ ["x = 1;" +:+ Str.nl]
      ++ fence_lines "STOP" "setup" ∧
    C_Scraper_init (single_file "impl.c" text) (Some "impl.c")
    = Returns {| c_filename := Some "impl.c"; c_includes := [];
                 c_functions := []; func_bods := ∅ |}.
Proof.
  set (text := Str.join
            (region_lines make_custom_functions_markers
               ["int f(void);" +:+ Str.nl]
             ++ fence_lines "START" "setup" ++ ["x = 1;" +:+ Str.nl]
             ++ fence_lines "STOP" "setup")).
  exists text. split; [reflexivity|].
  apply (scrape_without_includes_marker (single_file "impl.c" text) "impl.c"
           text).
  - reflexivity.
  - vm_compute. repeat (constructor; [discriminate|]). constructor.
Defined.

(** X10.  A region whose STOP marker is missing runs to the end of the
    file: when the START marker of the custom includes is there and no
    later line is its STOP marker, every line after the START marker is
    taken as a custom include, markers of other regions among them, and
    nothing is left for the custom functions and the custom bodies. *)
Theorem scrape_unterminated_includes (fs : filesystem) (path text : string)
    (pre : list string) (m : string) (rest : list string) :
  fs path = Returns text ->
  Str.readlines text = pre ++ m :: rest ->
  Forall (λ l, Str.strip l ≠ make_custom_includes_markers.1) pre ->
  Str.strip m = make_custom_includes_markers.1 ->
  Forall (λ l, Str.strip l ≠ make_custom_includes_markers.2) rest ->
  C_Scraper_init fs (Some path)
  = Returns {| c_filename := Some path; c_includes := rest;
               c_functions := []; func_bods := ∅ |}.
Proof.
  intros Hfs Hlines Hpre Hm Hrest.
  unfold C_Scraper_init. rewrite Hfs, fill_queue_popping, Hlines.
  unfold find_custom_includes_in_queue.
  pose proof (find_between_unterminated make_custom_includes_markers.1
                make_custom_includes_markers.2 pre m rest
                ltac:(done) Hpre Hm Hrest) as E.
  change (make_custom_includes_markers.1, make_custom_includes_markers.2)
    with make_custom_includes_markers in E.
  rewrite E.
  unfold find_custom_functions_in_queue.
  by rewrite find_between_empty.
Qed.

Lemma scrape_unterminated_includes_witness :
  ∃ text,
    Str.readlines text
    = [make_custom_includes_markers.1 +:+ Str.nl;
       "#include <a.h>" +:+ Str.nl]
      ++ region_lines make_custom_functions_markers
           ["int f(void);" +:+ Str.nl] ∧
    C_Scraper_init (single_file "impl.c" text) (Some "impl.c")
    = Returns {| c_filename := Some "impl.c";
                 c_includes :=
                   ["#include <a.h>" +:+ Str.nl]
                   ++ region_lines make_custom_functions_markers
                        ["int f(void);" +:+ Str.nl];
                 c_functions := []; func_bods := ∅ |}.
Proof.
  set (text := Str.join
            ([make_custom_includes_markers.1 +:+ Str.nl;
              "#include <a.h>" +:+ Str.nl]
             ++ region_lines make_custom_functions_markers
                  ["int f(void);" +:+ Str.nl])).
  exists text. split; [reflexivity|].
  apply (scrape_unterminated_includes (single_file "impl.c" text) "impl.c"
           text
           [] (make_custom_includes_markers.1 +:+ Str.nl)
           (["#include <a.h>" +:+ Str.nl]
            ++ region_lines make_custom_functions_markers
                 ["int f(void);" +:+ Str.nl])).
  - reflexivity.
  - reflexivity.
  - constructor.
  - reflexivity.
  - vm_compute. repeat (constructor; [discriminate|]). constructor.
Defined.

(** X11.  A file that ends on an indicator line inside the custom body of
    a function makes the scan of the custom bodies raise [IndexError]:
    after an indicator line the scan pops the next line without looking
    whether there is one. *)
Theorem scan_ends_on_indicator (f : string) (body : list string) (l : string)
    (m : gmap string (list string)) :
  Forall (λ l, Str.strip l ≠ indicator) body ->
  Str.strip l = indicator ->
  find_func_loop (PyList.popping (body ++ [l])) m (Some f) = Raises IndexError ∧
  (valid_name f = true ->
   find_func_custom_body_in_queue
     (fill_queue (fence_lines "START" f ++ body ++ [l]))
   = Raises IndexError).
Proof.
  intros Hbody Hl.
  assert (∀ m', find_func_loop (PyList.popping (body ++ [l])) m' (Some f)
                = Raises IndexError) as H.
  { intros m'. rewrite scan_append by done.
    cbn [PyList.popping find_func_loop].
    by rewrite bool_decide_eq_true_2. }
  split; [apply H|]. intros Hf.
  unfold find_func_custom_body_in_queue.
  rewrite fill_queue_popping, scan_start_fence by done. apply H.
Qed.

Lemma scan_ends_on_indicator_witness :
  find_func_custom_body_in_queue
    (fill_queue (fence_lines "START" "setup" ++ ["x = 1;" +:+ Str.nl]
                 ++ [indicator_line]))
  = Raises IndexError.
Proof.
  apply (scan_ends_on_indicator "setup" ["x = 1;" +:+ Str.nl] indicator_line ∅).
  - constructor; [by vm_compute|constructor].
  - reflexivity.
  - reflexivity.
Defined.

End ScraperEdges.

(** ** The SQL writer: quoted descriptions and declared variables *)

Section SqlText.
Import Adm Sql.

Lemma replace_quote_cons c s :
  Str.replace_char "'" "''" (String c s)
  = if Ascii.eqb c "'"
    then String "'" (String "'" (Str.replace_char "'" "''" s))
    else String c (Str.replace_char "'" "''" s).
Proof. cbn [Str.replace_char]. by destruct (Ascii.eqb c "'"). Qed.

(** X12.  [escape_description_sql] keeps [None], and in a description it
    doubles every quote: in what it returns every quote is followed by a
    second one, so that the text closes no SQL literal it is put in, and
    reading each pair of quotes as one quote gives the description
    back. *)
Theorem escape_description_sql_pairs :
  escape_description_sql None = None ∧
  ∀ v, ∃ r,
    escape_description_sql (Some v) = Some r ∧
    Quoted.paired r = true ∧ Quoted.unpair r = v.
Proof.
  split; [done|]. intros v. eexists. split; [reflexivity|].
  induction v as [|c v [IH1 IH2]]; [done|].
  rewrite replace_quote_cons. destruct (Ascii.eqb c "'") eqn:E.
  - apply Ascii.eqb_eq in E as ->. cbn [Quoted.paired Quoted.unpair].
    cbn. by rewrite IH1, IH2.
  - cbn [Quoted.paired Quoted.unpair]. by rewrite E, IH1, IH2.
Qed.

(** X13.  For the dialect [pgsql], [body_pre] declares every variable
    that was recorded as defined once, in the ascending order of the
    names, whatever the order in which they were recorded; for the dialect
    [mysql] it declares none. *)
Theorem body_pre_declarations (self : Writer) (st : state)
    (lines : list string) (st' : state) :
  body_pre self st = Returns (lines, st') ->
  st' = st ∧
  (dialect self = "mysql" ->
   lines = [""; "use amp_core;"; "";
            "SET @adm_enum = " +:+ Fmt.str_Z (adm_enum (adm self)) +:+ ";"]) ∧
  (dialect self = "pgsql" ->
   ∃ names,
     lines = ["DO"; "$do$";
              "DECLARE adm_enum INTEGER := "
              +:+ Fmt.str_Z (adm_enum (adm self)) +:+ ";"]
             ++ map (λ name, "DECLARE " +:+ name +:+ " INTEGER;") names
             ++ ["BEGIN"; ""] ∧
     StronglySorted String.le names ∧ NoDup names ∧
     ∀ name, name ∈ names <-> name ∈ vars_def st).
Proof.
  unfold body_pre. case_bool_decide as Hundef; [|done]. cbn [negb].
  intros [= <- <-]. split; [done|]. split.
  - intros Hd. by rewrite bool_decide_eq_true_2.
  - intros Hd. rewrite bool_decide_eq_false_2 by (by rewrite Hd).
    rewrite bool_decide_eq_true_2 by done.
    exists (merge_sort String.le (elements (vars_def st))).
    split; [done|]. split; [apply StronglySorted_merge_sort; apply _|].
    split.
    + rewrite merge_sort_Permutation. apply NoDup_elements.
    + intros name. rewrite merge_sort_Permutation. apply elem_of_elements.
Qed.

Lemma body_pre_declarations_witness :
  body_pre (Samples.sql_writer Samples.test_adm).1
    {| vars_def := {[ "b_id"; "a_id"; "c_id"; "a_id" ]}; vars_use := ∅ |}
  = Returns (["DO"; "$do$"; "DECLARE adm_enum INTEGER := 9;";
              "DECLARE a_id INTEGER;"; "DECLARE b_id INTEGER;";
              "DECLARE c_id INTEGER;"; "BEGIN"; ""],
             {| vars_def := {[ "b_id"; "a_id"; "c_id"; "a_id" ]};
                vars_use := ∅ |}).
Proof.
  assert (body_pre (Samples.sql_writer Samples.test_adm).1
            {| vars_def := {[ "b_id"; "a_id"; "c_id"; "a_id" ]};
               vars_use := ∅ |}
          = Returns (["DO"; "$do$"; "DECLARE adm_enum INTEGER := 9;";
                      "DECLARE a_id INTEGER;"; "DECLARE b_id INTEGER;";
                      "DECLARE c_id INTEGER;"; "BEGIN"; ""],
                     {| vars_def := {[ "b_id"; "a_id"; "c_id"; "a_id" ]};
                        vars_use := ∅ |})) as H by (by vm_compute).
  pose proof (body_pre_declarations _ _ _ _ H) as [_ _].
  exact H.
Defined.

End SqlText.

(** ** The command-line tool: before and between the writers *)

Section RunFacts.
Import Camp.




(** X15.  [run] attempts no file before its checks have passed.  With
    both [--only-sql] and [--only-ch], with a missing ADM file or when the
    output directory cannot be made, it returns 1; otherwise, when the
    ADM cannot be loaded or lacks one of the metadata [name], [namespace]
    and [enum], it returns 2. *)
Theorem run_checks_first (args : Namespace) (w : world) :
  let config_ok :=
    only_sql args && only_ch args = false ∧ admfile_exists w = true ∧
    set_up_outputdir w = Returns tt in
  let adm_ok :=
    load_from_file w = Returns tt ∧
    forallb (mdat_present w) ["name"; "namespace"; "enum"] = true in
  (¬ config_ok -> run args w = (Returns 1, [])) ∧
  (config_ok -> ¬ adm_ok -> run args w = (Returns 2, [])).
Proof.
  intros config_ok adm_ok. subst config_ok adm_ok. unfold run.
  destruct (only_sql args), (only_ch args); cbn [andb];
    (split; [intros Hc|intros (? & Ha & Ho) Hadm]); try done;
    try (exfalso; done);
    rewrite ?bool_decide_eq_false_2 by (vm_compute; lia).
  all: try (rewrite Ha, Ho; cbn [negb];
            destruct (load_from_file w) as [[]|]; [|done];
            destruct (forallb _ _); [by destruct Hadm|done]).
  all: destruct (admfile_exists w); [|done]; cbn [negb];
       destruct (set_up_outputdir w) as [[]|]; [|done];
       by destruct Hc.
Qed.

Lemma run_checks_first_witness :
  run {| admfile := "x.json"; out := "./"; scrape := false;
         only_sql := true; only_ch := true |} (sample_world IOError)
  = (Returns 1, []).
Proof.
  apply (proj1 (run_checks_first
    {| admfile := "x.json"; out := "./"; scrape := false;
       only_sql := true; only_ch := true |} (sample_world IOError))).
  by intros [H _].
Defined.

End RunFacts.

(** ** The shared header: the rows of a table *)

Section TableFacts.
Import GenH.

Lemma fit_length col_sz item : String.length (Cell.fit col_sz item) = col_sz.
Proof.
  unfold Cell.fit. destruct (col_sz <? String.length item) eqn:E.
  - apply Nat.ltb_lt in E. rewrite take_length. lia.
  - apply Nat.ltb_ge in E. rewrite length_app_str, repeat_char_length. lia.
Qed.

(** X16.  A row of [format_table_entry] that is not centered, for a
    description of at most 38 characters: the name in 21 characters, the
    description in 38, the type in 7 and, when there is a value, the value
    in 24, each cut to its column when it is longer and filled with spaces
    when it is shorter, so that the row is as long as the divider under
    it.  A name of more than 21 characters, a type of more than 7 and a
    value of more than 24 lose their end. *)
Theorem format_table_entry_row (name : string) (desc : option string)
    (ttype value : string) :
  String.length (default "" desc) <= 38 ->
  let sizes := if Str.is_empty value then [21; 38; 7] else [21; 38; 7; 24] in
  let row :=
    " * |" +:+ Cell.fit 21 name +:+ "|" +:+ Cell.fit 38 (default "" desc)
    +:+ "|" +:+ Cell.fit 7 ttype +:+ "|"
    +:+ (if Str.is_empty value then "" else Cell.fit 24 value +:+ "|") in
  format_table_entry false name desc ttype value
  = Returns ((row +:+ Str.nl) +:+ (Cell.divider sizes +:+ Str.nl)) ∧
  String.length row = String.length (Cell.divider sizes).
Proof.
  intros Hdesc sizes row. subst sizes row. unfold format_table_entry.
  remember (default "" desc) as d eqn:Ed.
  assert ((38 <? String.length d) = false) as Hd
    by (apply Nat.ltb_ge; lia).
  destruct (Str.is_empty value) eqn:Ev.
  - cbn [app table_columns lookup list_lookup default Nat.eqb].
    rewrite <- Ed, Hd. unfold id. split.
    + unfold Cell.fit, Cell.divider. rewrite Hd. cbn [fold_left].
      destruct (21 <? String.length name), (7 <? String.length ttype);
        by rewrite !app_assoc_str, ?app_empty_r.
    + rewrite !length_app_str, !fit_length. reflexivity.
  - cbn [app table_columns lookup list_lookup default Nat.eqb].
    rewrite <- Ed, Hd. unfold id. split.
    + unfold Cell.fit, Cell.divider. rewrite Hd. cbn [fold_left].
      destruct (21 <? String.length name), (7 <? String.length ttype),
        (24 <? String.length value);
        by rewrite !app_assoc_str, ?app_empty_r.
    + rewrite !length_app_str, !fit_length. reflexivity.
Qed.

Lemma format_table_entry_row_witness :
  format_table_entry false "a_rather_long_name_of_a_constant"
    (Some "The size") "UINT" "4"
  = Returns ((" * |a_rather_long_name_of|The size" +:+ Str.repeat_char " " 30
              +:+ "|UINT   |4" +:+ Str.repeat_char " " 23 +:+ "|" +:+ Str.nl)
             +:+ (Cell.divider [21; 38; 7; 24] +:+ Str.nl)).
Proof.
  assert (String.length (default "" (Some "The size")) <= 38) as H
    by (vm_compute; lia).
  destruct (format_table_entry_row "a_rather_long_name_of_a_constant"
              (Some "The size") "UINT" "4" H) as [Heq _].
  rewrite Heq. reflexivity.
Defined.

End TableFacts.
